(** * Conversation core of the Clarity PPM chat proxy

    A shallow embedding of the conversation store ([ContextService]),
    the follow-up intent table ([detectFollowUpIntent]), the HTTP client
    retry loop ([ClarityApiClient.request]) and the chat entry point
    ([AIChatHandler]), followed by the properties of the specification
    that are settled against them. The registry of sessions and tools,
    the session manager and the suggestion, lookup and metadata services
    are embedded behind them, with further properties of the whole at
    the end.

    Conventions of the embedding.
    - JavaScript strings are [string]s of bytes. [toLowerCase] folds the
      ASCII letters only, and the character classes of the regular
      expressions are the ASCII ones.
    - A time stamp is the number of milliseconds since the epoch, as a
      [Z]: the code stores [new Date().toISOString()] and reads it back
      with [new Date(..).getTime()], which is the identity on them.
    - Stateful code is written in a state-and-exception monad over the
      handler's [World]; everything the handler awaits from outside (HTTP,
      the reasoning service, the metadata service) is an oracle of the
      environment [Env], asked with the trace of the events so far. *)

From Stdlib Require Import ZArith Ascii List Bool Lia Sorted.
From Stdlib Require String.
From stdpp Require Import gmap strings list fin_maps.

(** ** Strings *)

Module Str.

Definition is_upper (c : ascii) : bool :=
  let n := nat_of_ascii c in (65 <=? n)%nat && (n <=? 90)%nat.

Definition lower_ascii (c : ascii) : ascii :=
  if is_upper c then ascii_of_nat (nat_of_ascii c + 32) else c.

(** [String.prototype.toLowerCase] *)
Fixpoint toLowerCase (s : string) : string :=
  match s with
  | EmptyString => EmptyString
  | String c s' => String (lower_ascii c) (toLowerCase s')
  end.

Fixpoint is_prefix (p s : string) : bool :=
  match p with
  | EmptyString => true
  | String a p' =>
      match s with
      | String b s' => Ascii.eqb a b && is_prefix p' s'
      | EmptyString => false
      end
  end.

(** [s.startsWith(p)] *)
Definition startsWith (s p : string) : bool := is_prefix p s.

(** [s.includes(sub)] *)
Fixpoint includes (s sub : string) : bool :=
  if is_prefix sub s then true
  else match s with
       | EmptyString => false
       | String _ s' => includes s' sub
       end.

(** A string in a boolean position: only the empty string is falsy. *)
Definition truthy (s : string) : bool :=
  match s with EmptyString => false | _ => true end.

(** An optional string in a boolean position ([undefined] is falsy). *)
Definition otruthy (o : option string) : bool :=
  match o with Some s => truthy s | None => false end.

(** [a || b] on strings. *)
Definition or_else (a : option string) (b : string) : string :=
  match a with
  | Some s => if truthy s then s else b
  | None => b
  end.

(** [parts.join(sep)] *)
Fixpoint join (sep : string) (parts : list string) : string :=
  match parts with
  | [] => ""
  | [p] => p
  | p :: rest => p +:+ sep +:+ join sep rest
  end.

Definition is_space (c : ascii) : bool :=
  let n := nat_of_ascii c in
  (n =? 32)%nat || ((9 <=? n)%nat && (n <=? 13)%nat).

Fixpoint trimStart (s : string) : string :=
  match s with
  | String c s' => if is_space c then trimStart s' else s
  | EmptyString => EmptyString
  end.

Fixpoint rev_string (s acc : string) : string :=
  match s with
  | EmptyString => acc
  | String c s' => rev_string s' (String c acc)
  end.

Definition trimEnd (s : string) : string :=
  rev_string (trimStart (rev_string s "")) "".

(** [s.trim()] *)
Definition trim (s : string) : string := trimEnd (trimStart s).

(** [s.substring(0, n)] *)
Definition take (n : nat) (s : string) : string := String.substring 0 n s.

Definition digit (n : nat) : ascii := ascii_of_nat (48 + n).

Fixpoint of_nat_fuel (fuel n : nat) (acc : string) : string :=
  match fuel with
  | O => acc
  | S fuel' =>
      let acc' := String (digit (n mod 10)) acc in
      if (n / 10 =? 0)%nat then acc' else of_nat_fuel fuel' (n / 10) acc'
  end.

(** [String(n)] for a natural number. *)
Definition of_nat (n : nat) : string := of_nat_fuel (S n) n "".

(** [String(z)] for an integer. *)
Definition of_Z (z : Z) : string :=
  if (z <? 0)%Z then "-" +:+ of_nat (Z.to_nat (- z)) else of_nat (Z.to_nat z).

(** The double quote, which a string literal cannot hold as it is. *)
Definition dq : string := String "034"%char "".

(** A line feed. *)
Definition nl : string := String "010"%char "".

End Str.

(** ** Values of the remote API *)

(** A field value of a record ([unknown] in the source), as
    [formatFieldValue] tells the cases apart: [null], a primitive, or an
    object, of which the code reads the string members [displayValue] and
    [code] and otherwise takes the [JSON.stringify] text. *)
Inductive JValue :=
| JNull
| JBool (b : bool)
| JNum (n : Z)
| JStr (s : string)
| JObj (displayValue code : option string) (json : string).

(** [Record<string, unknown>]; a member that is not listed is [undefined]. *)
Definition JRecord := list (string * JValue).

Fixpoint jget (r : JRecord) (k : string) : option JValue :=
  match r with
  | [] => None
  | (k', v) :: r' => if String.eqb k' k then Some v else jget r' k
  end.

(** [a ?? b] on members of a record: [null] and [undefined] give way. *)
Definition nullish (a b : option JValue) : option JValue :=
  match a with
  | None | Some JNull => b
  | Some _ => a
  end.

(** [String(v)], the rendering of a value inside a template literal. *)
Definition jstring (v : option JValue) : string :=
  match v with
  | None => "undefined"
  | Some JNull => "null"
  | Some (JBool true) => "true"
  | Some (JBool false) => "false"
  | Some (JNum n) => Str.of_Z n
  | Some (JStr s) => s
  | Some (JObj _ _ _) => "[object Object]"
  end.

(** ** Conversation context (types/context.ts) *)

Inductive Role := user | assistant.

Record ConversationTurn := {
  t_timestamp : Z;
  t_role : Role;
  t_message : string;
  t_action : option string;
  t_objectType : option string;
  t_success : option bool
}.

Record ChartItem := { label : string; value : nat }.

Record LastQuery := {
  q_objectType : string;
  q_objectLabel : string;
  q_action : string;
  q_filters : option (list (string * string));
  q_results : option (list JRecord);
  q_totalCount : option Z;
  q_groupByField : option string;
  q_groupByDisplayName : option string;
  q_chartData : option (list (string * list ChartItem));
  q_timestamp : Z
}.

Record PageRef := {
  p_objectType : string;
  p_recordId : option string;
  p_recordName : option string;
  p_url : option string
}.

Record Preferences := {
  preferredChartType : option string;
  language : option string;
  detailLevel : option string
}.

Record ConversationContext := {
  sessionId : string;
  lastQuery : option LastQuery;
  currentPage : option PageRef;
  history : list ConversationTurn;
  preferences : option Preferences
}.

Record DrillDownRequest := {
  fromField : string;
  selectedValue : string;
  d_objectType : string
}.

(** [record[key]] on a [Record<string, T>] object literal. *)
Fixpoint assoc {A} (l : list (string * A)) (k : string) : option A :=
  match l with
  | [] => None
  | (k', v) :: l' => if String.eqb k' k then Some v else assoc l' k
  end.

(** ** ContextService *)

Module ContextService.

(** The [contexts] map of the service. *)
Abbreviation Store := (gmap string ConversationContext).

Definition MAX_HISTORY_LENGTH : nat := 20.

Definition CONTEXT_EXPIRY_MS : Z := (30 * 60 * 1000)%Z.

Definition createNewContext (sid : string) : ConversationContext :=
  {| sessionId := sid; lastQuery := None; currentPage := None;
     history := []; preferences := None |}.

(** Returns the context and the store, in which a missing context has
    been created. *)
Definition getContext (sid : string) (st : Store)
  : ConversationContext * Store :=
  match st !! sid with
  | Some c => (c, st)
  | None => let c := createNewContext sid in (c, <[sid := c]> st)
  end.

Definition set_lastQuery (q : option LastQuery) (c : ConversationContext) :=
  {| sessionId := sessionId c; lastQuery := q;
     currentPage := currentPage c; history := history c;
     preferences := preferences c |}.

Definition set_history (h : list ConversationTurn) (c : ConversationContext) :=
  {| sessionId := sessionId c; lastQuery := lastQuery c;
     currentPage := currentPage c; history := h;
     preferences := preferences c |}.

Definition set_currentPage (p : option PageRef) (c : ConversationContext) :=
  {| sessionId := sessionId c; lastQuery := lastQuery c;
     currentPage := p; history := history c;
     preferences := preferences c |}.

Definition set_preferences (p : option Preferences) (c : ConversationContext) :=
  {| sessionId := sessionId c; lastQuery := lastQuery c;
     currentPage := currentPage c; history := history c;
     preferences := p |}.

Definition updateLastQuery (sid : string) (q : option LastQuery) (st : Store)
  : Store :=
  let '(c, st1) := getContext sid st in
  <[sid := set_lastQuery q c]> st1.

(** [h.slice(-n)]: the last [n] elements. *)
Definition slice_last {A} (n : nat) (h : list A) : list A :=
  skipn (length h - n) h.

Definition addToHistory (sid : string) (turn : ConversationTurn) (st : Store)
  : Store :=
  let '(c, st1) := getContext sid st in
  let pushed := history c ++ [turn] in
  let kept :=
    if (MAX_HISTORY_LENGTH <? length pushed)%nat
    then slice_last MAX_HISTORY_LENGTH pushed
    else pushed in
  <[sid := set_history kept c]> st1.

Definition setCurrentPage (sid : string) (page : option PageRef) (st : Store)
  : Store :=
  let '(c, st1) := getContext sid st in
  <[sid := set_currentPage page c]> st1.

(** [{ ...old, ...new }] on preferences: a member of the new object
    replaces the old one when it is present. *)
Definition merge_preferences (old : option Preferences) (new : Preferences)
  : Preferences :=
  let pick {A} (n : option A) (o : Preferences -> option A) : option A :=
    match n with
    | Some x => Some x
    | None => match old with Some p => o p | None => None end
    end in
  {| preferredChartType := pick (preferredChartType new) preferredChartType;
     language := pick (language new) language;
     detailLevel := pick (detailLevel new) detailLevel |}.

Definition updatePreferences (sid : string) (prefs : Preferences) (st : Store)
  : Store :=
  let '(c, st1) := getContext sid st in
  <[sid := set_preferences (Some (merge_preferences (preferences c) prefs)) c]> st1.

Definition has_chart (q : LastQuery) : bool :=
  match q_chartData q with
  | Some _ => Str.otruthy (q_groupByField q)
  | None => false
  end.

Definition canDrillDown (sid : string) (st : Store) : bool * Store :=
  let '(c, st1) := getContext sid st in
  (match lastQuery c with Some q => has_chart q | None => false end, st1).

Definition options_of (c : ConversationContext) : list string :=
  match lastQuery c with
  | Some q =>
      match q_chartData q, q_groupByField q with
      | Some cd, Some f =>
          if Str.truthy f then
            match assoc cd f with
            | Some items => map label items
            | None => []
            end
          else []
      | _, _ => []
      end
  | None => []
  end.

Definition getDrillDownOptions (sid : string) (st : Store)
  : list string * Store :=
  let '(c, st1) := getContext sid st in (options_of c, st1).

(** [options.find(p)], where a found empty string counts as no match
    in the [if (match) return match] that follows. *)
Definition find_truthy (p : string -> bool) (options : list string)
  : option string :=
  match List.find p options with
  | Some o => if Str.truthy o then Some o else None
  | None => None
  end.

Definition match_option (options : list string) (userValue : string)
  : option string :=
  let lowerUserValue := Str.toLowerCase userValue in
  match find_truthy
          (fun opt => String.eqb (Str.toLowerCase opt) lowerUserValue)
          options with
  | Some exactMatch => Some exactMatch
  | None =>
      find_truthy
        (fun opt => Str.includes (Str.toLowerCase opt) lowerUserValue
                    || Str.includes lowerUserValue (Str.toLowerCase opt))
        options
  end.

Definition findDrillDownMatch (sid : string) (userValue : string) (st : Store)
  : option string * Store :=
  let '(options, st1) := getDrillDownOptions sid st in
  (match_option options userValue, st1).

Definition buildDrillDownRequest (sid : string) (selected : string) (st : Store)
  : option DrillDownRequest * Store :=
  let '(c, st1) := getContext sid st in
  (match lastQuery c with
   | Some q =>
       match q_groupByField q with
       | Some f =>
           if Str.truthy f && Str.truthy (q_objectType q)
           then Some {| fromField := f; selectedValue := selected;
                        d_objectType := q_objectType q |}
           else None
       | None => None
       end
   | None => None
   end, st1).

Definition getLastObjectType (sid : string) (st : Store)
  : option string * Store :=
  let '(c, st1) := getContext sid st in
  (option_map q_objectType (lastQuery c), st1).

Definition getLastObjectLabel (sid : string) (st : Store)
  : option string * Store :=
  let '(c, st1) := getContext sid st in
  (option_map q_objectLabel (lastQuery c), st1).

Definition clearContext (sid : string) (st : Store) : Store := delete sid st.

(** The time of the last history entry, [0] when there is none. *)
Definition lastActivity (c : ConversationContext) : Z :=
  match last (history c) with
  | Some t => t_timestamp t
  | None => 0%Z
  end.

Definition expired (now : Z) (c : ConversationContext) : Prop :=
  (now - lastActivity c > CONTEXT_EXPIRY_MS)%Z.

#[global] Instance expired_dec now c : Decision (expired now c).
Proof. unfold expired. apply _. Defined.

(** The sweep, at the time [now] that [Date.now()] returns. *)
Definition cleanupExpiredContexts (now : Z) (st : Store) : Store :=
  filter (fun kv : string * ConversationContext => ¬ expired now kv.2) st.

Definition user_messages (h : list ConversationTurn) : list string :=
  map t_message
      (List.filter (fun t => match t_role t with user => true | _ => false end) h).

Definition getContextSummary (sid : string) (st : Store) : string * Store :=
  let '(c, st1) := getContext sid st in
  let of_query :=
    match lastQuery c with
    | Some q =>
        ["Last query: " +:+ q_action q +:+ " on " +:+ q_objectLabel q]
        ++ (match q_groupByField q with
            | Some f =>
                if Str.truthy f then
                  ["Grouped by: " +:+ Str.or_else (q_groupByDisplayName q) f]
                  ++ (match options_of c with
                      | [] => []
                      | opts => ["Available values: "
                                 +:+ Str.join ", " (firstn 10 opts)]
                      end)
                else []
            | None => []
            end)
        ++ (match q_totalCount q with
            | Some n => if (n =? 0)%Z then []
                        else ["Total records: " +:+ Str.of_Z n]
            | None => []
            end)
    | None => []
    end in
  let of_page :=
    match currentPage c with
    | Some p =>
        ["Current page: " +:+ p_objectType p
         ++ (match p_recordName p with
             | Some n => if Str.truthy n then " - " +:+ n else ""
             | None => ""
             end)]
    | None => []
    end in
  let of_history :=
    match slice_last 3 (user_messages (history c)) with
    | [] => []
    | recent => ["Recent questions: " +:+ Str.join " | " recent]
    end in
  (Str.join Str.nl (of_query ++ of_page ++ of_history), st1).

(** *** The service as a state machine

    The calls that reach the store, as data: every read-only method
    ([canDrillDown], [getDrillDownOptions], [getContextSummary], ...)
    acts on the store as [getContext] does. *)
Inductive Op :=
| OGetContext (sid : string)
| OUpdateLastQuery (sid : string) (q : option LastQuery)
| OAddToHistory (sid : string) (turn : ConversationTurn)
| OSetCurrentPage (sid : string) (page : option PageRef)
| OUpdatePreferences (sid : string) (prefs : Preferences)
| OClearContext (sid : string)
| OCleanupExpiredContexts (now : Z).

Definition step (op : Op) (st : Store) : Store :=
  match op with
  | OGetContext sid => (getContext sid st).2
  | OUpdateLastQuery sid q => updateLastQuery sid q st
  | OAddToHistory sid turn => addToHistory sid turn st
  | OSetCurrentPage sid page => setCurrentPage sid page st
  | OUpdatePreferences sid prefs => updatePreferences sid prefs st
  | OClearContext sid => clearContext sid st
  | OCleanupExpiredContexts now => cleanupExpiredContexts now st
  end.

Definition run (ops : list Op) (st : Store) : Store :=
  fold_left (fun s op => step op s) ops st.

(** The call by which an analysis stores its chart for the session
    [sid]: an [updateLastQuery] with chart data and a grouping field. *)
Definition stores_chart (sid : string) (op : Op) : bool :=
  match op with
  | OUpdateLastQuery sid' (Some q) => String.eqb sid' sid && has_chart q
  | _ => false
  end.

(** The same machine with a history that is never trimmed: the record
    of all the turns appended to a session since its context was
    created. It is the yardstick of the history bound. *)
Definition addToHistory_untrimmed (sid : string) (turn : ConversationTurn)
    (st : Store) : Store :=
  let '(c, st1) := getContext sid st in
  <[sid := set_history (history c ++ [turn]) c]> st1.

Definition step_untrimmed (op : Op) (st : Store) : Store :=
  match op with
  | OAddToHistory sid turn => addToHistory_untrimmed sid turn st
  | _ => step op st
  end.

Definition run_untrimmed (ops : list Op) (st : Store) : Store :=
  fold_left (fun s op => step_untrimmed op s) ops st.

(** What the trimmed store keeps of a context of the untrimmed one. *)
Definition trimmed (c : ConversationContext) : ConversationContext :=
  set_history (slice_last MAX_HISTORY_LENGTH (history c)) c.

Definition trims (st full : Store) : Prop :=
  forall sid, st !! sid = trimmed <$> (full !! sid).

End ContextService.

(** ** Regular expressions

    A backtracking matcher for the fragment of JavaScript regular
    expressions that the source uses: alternatives are tried left to
    right, a quantifier is greedy or lazy, a group records the text it
    matched last, and an iteration of a star has to consume input. *)

Module Regex.

Inductive re :=
| Eps
| Chr (p : ascii -> bool)
| Seq (a b : re)
| Alt (a b : re)
| Star (greedy : bool) (a : re)
| Group (i : nat) (a : re)
| Bol
| Eol
| WordB.

(** Captures, the most recent first. *)
Definition Caps := list (nat * string).

Fixpoint cap (c : Caps) (i : nat) : option string :=
  match c with
  | [] => None
  | (j, s) :: c' => if (j =? i)%nat then Some s else cap c' i
  end.

Definition is_digit (c : ascii) : bool :=
  let n := nat_of_ascii c in (48 <=? n)%nat && (n <=? 57)%nat.

Definition is_lower (c : ascii) : bool :=
  let n := nat_of_ascii c in (97 <=? n)%nat && (n <=? 122)%nat.

(** [\w] *)
Definition is_word (c : ascii) : bool :=
  is_digit c || is_lower c || Str.is_upper c || (nat_of_ascii c =? 95)%nat.

(** [.] *)
Definition is_dot (c : ascii) : bool :=
  negb ((nat_of_ascii c =? 10)%nat || (nat_of_ascii c =? 13)%nat).

Definition is_char (c : ascii) : ascii -> bool := fun x => Ascii.eqb x c.

(** A character of a pattern under the [i] flag. *)
Definition is_char_i (c : ascii) : ascii -> bool :=
  fun x => Ascii.eqb (Str.lower_ascii x) (Str.lower_ascii c).

Definition owordb (o : option ascii) : bool :=
  match o with Some c => is_word c | None => false end.

Definition head (s : string) : option ascii :=
  match s with String c _ => Some c | EmptyString => None end.

Fixpoint mt {A} (r : re) (prev : option ascii) (s : string) (caps : Caps)
    (k : option ascii -> string -> Caps -> option A) {struct r} : option A :=
  match r with
  | Eps => k prev s caps
  | Chr p =>
      match s with
      | String c s' => if p c then k (Some c) s' caps else None
      | EmptyString => None
      end
  | Seq a b => mt a prev s caps (fun prev' s' caps' => mt b prev' s' caps' k)
  | Alt a b =>
      match mt a prev s caps k with
      | Some x => Some x
      | None => mt b prev s caps k
      end
  | Star greedy a =>
      (fix loop (n : nat) prev s caps {struct n} : option A :=
         match n with
         | O => k prev s caps
         | S n' =>
             if greedy then
               match mt a prev s caps
                        (fun p' s' c' =>
                           if (String.length s' <? String.length s)%nat
                           then loop n' p' s' c' else None) with
               | Some x => Some x
               | None => k prev s caps
               end
             else
               match k prev s caps with
               | Some x => Some x
               | None =>
                   mt a prev s caps
                      (fun p' s' c' =>
                         if (String.length s' <? String.length s)%nat
                         then loop n' p' s' c' else None)
               end
         end) (String.length s) prev s caps
  | Group i a =>
      mt a prev s caps
         (fun p' s' c' =>
            k p' s'
              ((i, String.substring 0 (String.length s - String.length s') s) :: c'))
  | Bol => match prev with None => k prev s caps | Some _ => None end
  | Eol => match s with EmptyString => k prev s caps | _ => None end
  | WordB => if xorb (owordb prev) (owordb (head s)) then k prev s caps else None
  end.

Record Match := {
  before : string;      (* the input in front of the match *)
  matched : string;     (* match[0] *)
  after : string;       (* the input behind the match *)
  groups : Caps
}.

Fixpoint search (r : re) (prev : option ascii) (pre s : string) : option Match :=
  match mt r prev s [] (fun _ rest caps => Some (rest, caps)) with
  | Some (rest, caps) =>
      Some {| before := Str.rev_string pre "";
              matched := String.substring 0 (String.length s - String.length rest) s;
              after := rest;
              groups := caps |}
  | None =>
      match s with
      | EmptyString => None
      | String c s' => search r (Some c) (String c pre) s'
      end
  end.

(** [s.match(r)] for a pattern without the [g] flag. *)
Definition exec (r : re) (s : string) : option Match := search r None "" s.

(** [r.test(s)] *)
Definition test (r : re) (s : string) : bool :=
  match exec r s with Some _ => true | None => false end.

(** [match[i]] *)
Definition group (m : Match) (i : nat) : option string := cap (groups m) i.

(** Pattern combinators. *)
Fixpoint seqs (rs : list re) : re :=
  match rs with
  | [] => Eps
  | [r] => r
  | r :: rs' => Seq r (seqs rs')
  end.

Fixpoint alts (rs : list re) : re :=
  match rs with
  | [] => Eps
  | [r] => r
  | r :: rs' => Alt r (alts rs')
  end.

Fixpoint lit (s : string) : re :=
  match s with
  | EmptyString => Eps
  | String c EmptyString => Chr (is_char c)
  | String c s' => Seq (Chr (is_char c)) (lit s')
  end.

Fixpoint liti (s : string) : re :=
  match s with
  | EmptyString => Eps
  | String c EmptyString => Chr (is_char_i c)
  | String c s' => Seq (Chr (is_char_i c)) (liti s')
  end.

Definition opt (r : re) : re := Alt r Eps.
Definition star (r : re) : re := Star true r.
Definition plus (r : re) : re := Seq r (Star true r).
Definition plus_lazy (r : re) : re := Seq r (Star false r).
Definition ws : re := Chr Str.is_space.
Definition word : re := Chr is_word.
Definition digit : re := Chr is_digit.
Definition any : re := Chr (fun _ => true).

End Regex.

(** ** Follow-up intents (types/context.ts) *)

(** The keys of [FOLLOW_UP_PATTERNS], in the order of the table. *)
Module Intent.
Inductive t := showSelected | export | count | details | filter | link.
End Intent.

Section FollowUpPatterns.
Import Regex.

Definition FOLLOW_UP_PATTERNS : list (Intent.t * list re) :=
  [ (Intent.showSelected,
      [ seqs [liti "show"; star ws; opt (Group 1 (Seq (liti "me") (star ws)));
              opt (Group 2 (Seq (liti "the") (star ws)));
              Group 3 (plus word); star ws; liti "one"; opt (liti "s")];
        seqs [liti "list"; star ws; opt (Group 1 (Seq (liti "the") (star ws)));
              Group 2 (plus word); star ws; liti "one"; opt (liti "s")];
        seqs [liti "get"; star ws; opt (Group 1 (Seq (liti "me") (star ws)));
              opt (Group 2 (Seq (liti "the") (star ws))); Group 3 (plus word)];
        seqs [liti "which"; star ws;
              opt (Group 1 (seqs [liti "one"; opt (liti "s"); star ws]));
              opt (Group 2 (Seq (liti "are") (star ws))); Group 3 (plus word)];
        seqs [liti "הראה"; star ws; opt (Group 1 (Seq (liti "לי") (star ws)));
              opt (Group 2 (Seq (liti "את") (star ws)));
              opt (Group 3 (liti "ה")); Group 4 (plus word)] ]);
    (Intent.export,
      [ seqs [liti "export"; star ws;
              opt (Group 1 (alts [liti "them"; liti "this"; liti "these"; liti "it"]));
              opt (Group 2 (seqs [star ws; liti "to"; star ws; liti "excel"]))];
        liti "download";
        liti "ייצא" ]);
    (Intent.count,
      [ seqs [liti "how"; star ws; liti "many"; star ws;
              opt (Group 1 (Alt (liti "total")
                                (seqs [liti "are"; star ws; liti "there"])))];
        seqs [liti "count"; star ws; opt (Group 1 (Alt (liti "them") (liti "all")))];
        liti "כמה" ]);
    (Intent.details,
      [ seqs [liti "tell"; star ws; liti "me"; star ws; liti "more"];
        seqs [liti "more"; star ws; liti "detail"; opt (liti "s")];
        liti "expand";
        liti "פרטים" ]);
    (Intent.filter,
      [ seqs [liti "filter"; star ws; Group 1 (Alt (liti "by") (liti "where"))];
        seqs [liti "only"; star ws; opt (Group 1 (Seq (liti "show") (star ws)));
              opt (Group 2 (Seq (liti "the") (star ws)))];
        seqs [liti "where"; plus ws; Group 1 (plus word); star ws;
              Group 2 (alts [liti "is"; liti "="; liti "equals"])] ]);
    (Intent.link,
      [ seqs [liti "link"; star ws; opt (Group 1 (Seq (liti "to") (star ws)));
              opt (Group 2 (alts [liti "this"; liti "them"; liti "it"]))];
        seqs [liti "open"; star ws; opt (Group 1 (Seq (liti "in") (star ws)));
              liti "clarity"];
        liti "url";
        liti "לינק" ]) ].

Record FollowUp := {
  f_type : option Intent.t;
  extractedValue : option string
}.

Definition truthy_group (m : Match) (i : nat) : option string :=
  match group m i with
  | Some s => if Str.truthy s then Some s else None
  | None => None
  end.

(** [match[3] || match[2] || match[1]], trimmed when it is a string. *)
Definition extract (m : Match) : option string :=
  option_map Str.trim
    (match truthy_group m 3 with
     | Some s => Some s
     | None =>
         match truthy_group m 2 with
         | Some s => Some s
         | None => group m 1
         end
     end).

Fixpoint first_match (patterns : list re) (lowerMessage : string) : option Match :=
  match patterns with
  | [] => None
  | p :: ps =>
      match exec p lowerMessage with
      | Some m => Some m
      | None => first_match ps lowerMessage
      end
  end.

Fixpoint detect (table : list (Intent.t * list re)) (lowerMessage : string)
  : FollowUp :=
  match table with
  | [] => {| f_type := None; extractedValue := None |}
  | (intentType, patterns) :: rest =>
      match first_match patterns lowerMessage with
      | Some m => {| f_type := Some intentType; extractedValue := extract m |}
      | None => detect rest lowerMessage
      end
  end.

Definition detectFollowUpIntent (message : string) : FollowUp :=
  detect FOLLOW_UP_PATTERNS (Str.toLowerCase message).

End FollowUpPatterns.

(** ** Schema and plan types (types/clarity.ts, AIChatHandler) *)

Record AttributeMetadata := {
  apiName : string;
  displayName : string;
  dataType : string;
  isRequired : bool;
  isReadOnly : bool;
  isLookup : bool;
  lookupType : option string
}.

Record ObjectMetadata := {
  resourceName : string;
  m_label : string;
  pluralLabel : string;
  isCustom : bool;
  attributes : list AttributeMetadata
}.

(** What the handler reads of a custom object of the metadata service. *)
Record CustomObject := { co_label : string; co_resourceName : string }.

Record ClarityCapabilities := {
  hasProjects : bool;
  hasTasks : bool;
  hasResources : bool;
  hasCustomObjects : bool
}.

Record APIPlan := {
  action : string;
  objectType : string;
  method : string;
  endpoint : string;
  body : option JRecord;
  groupByField : option string;
  filterField : option string;
  filterValue : option string;
  explanation : string
}.

Record ChartData := {
  groupableFields : list string;
  cd_chartData : list (string * list ChartItem);
  fieldMetadata : list (string * (string * string));
  drillDownEnabled : option bool;
  cd_objectType : option string;
  cd_groupByField : option string
}.

(** The response of the handler. The members [suggestions] and [debug],
    which the suggestion service and the context summary fill in without
    any effect, are left out. *)
Record AIResponse := {
  success : bool;
  reply : string;
  chartData : option ChartData;
  timestamp : Z;
  deepLink : option string
}.

(** The body of a response of the remote API. *)
Record ApiResponse := {
  _results : option (list JRecord);
  _totalCount : option Z;
  _internalId : option JValue
}.

(** ** Effects *)

(** What leaves the process. *)
Inductive Event :=
| EFetch (method url : string) (body : option JRecord)
| ESleep (ms : Z)
| EReason (system content : string)
| EMeta (call arg : string).

(** The answer to one HTTP attempt: a body that parsed, a status that is
    not ok with its text, or an error thrown by [fetch] or by reading the
    body (network failure, abort on time out, malformed JSON). *)
Inductive FetchOutcome :=
| RespOk (data : ApiResponse)
| RespStatus (status : nat) (errorText : string)
| FetchThrows (message : string).

(** A thrown value, as the message that [error.message] or
    [String(error)] gives for it. *)
Inductive Outcome (A : Type) :=
| Ok (a : A)
| Throw (message : string).
Arguments Ok {A} a.
Arguments Throw {A} message.

(** The collaborators of the core. Every oracle is asked with the events
    so far (the most recent first), so that its answers may change over
    time. To the handler the metadata service is an oracle as a whole; its
    discovery is modelled by itself in [MetadataServiceImpl]. *)
Record Env := {
  (* ClarityApiClient *)
  baseUrl : string;
  maxRetries : nat;
  fetch : list Event -> string -> string -> option JRecord -> FetchOutcome;
  (* Date.now() *)
  now : list Event -> Z;
  (* anthropic.messages.create: the text of the first content block,
     [None] when the block is missing or is not text *)
  messages_create : list Event -> string -> string -> Outcome (option string);
  (* JSON.parse, on the text of a plan, read as an APIPlan *)
  JSON_parse : string -> Outcome APIPlan;
  (* MetadataService *)
  svc_discoverAllObjects : list Event -> Outcome (list string);
  svc_getCustomObjects : list Event -> Outcome (list CustomObject);
  svc_getObjectMetadata : list Event -> string -> Outcome ObjectMetadata;
  svc_getObjectLabel : list Event -> string -> Outcome string;
  svc_getGroupableFields : ObjectMetadata -> list AttributeMetadata;
  (* toolRegistry.getCapabilities() *)
  getCapabilities : list Event -> ClarityCapabilities;
  (* DeepLinkService *)
  clarityBaseUrl : string;
  encodeURIComponent : string -> string;
  (* Number.prototype.toFixed(1) of 100 * a / b *)
  percent : nat -> nat -> string
}.

(** The state of the handler: the conversation store of its context
    service, its two caches, and the trace of events. *)
Record World := {
  contexts : gmap string ConversationContext;
  discoveredObjects : list string;
  metadataCache : gmap string ObjectMetadata;
  trace : list Event
}.

Definition M (A : Type) : Type := World -> Outcome A * World.

Definition ret {A} (a : A) : M A := fun w => (Ok a, w).

Definition bind {A B} (m : M A) (f : A -> M B) : M B :=
  fun w => match m w with
           | (Ok a, w') => f a w'
           | (Throw e, w') => (Throw e, w')
           end.

Definition throw {A} (message : string) : M A := fun w => (Throw message, w).

(** [try { m } catch (error) { h error }] *)
Definition try_catch {A} (m : M A) (h : string -> M A) : M A :=
  fun w => match m w with
           | (Ok a, w') => (Ok a, w')
           | (Throw e, w') => h e w'
           end.

Notation "x <- m ;; k" := (bind m (fun x => k))
  (at level 100, m at next level, right associativity).
Notation "m ;;; k" := (bind m (fun _ => k))
  (at level 100, right associativity).

Definition emit (e : Event) : M unit :=
  fun w => (Ok tt, {| contexts := contexts w;
                      discoveredObjects := discoveredObjects w;
                      metadataCache := metadataCache w;
                      trace := e :: trace w |}).

(** Asks an oracle, after the event of the call has been recorded. *)
Definition ask {A} (e : Event) (oracle : list Event -> Outcome A) : M A :=
  fun w => match emit e w with
           | (_, w') => (oracle (trace w), w')
           end.

Definition get_now (env : Env) : M Z := fun w => (Ok (now env (trace w)), w).

(** A method of the context service, run on the store of the handler. *)
Definition ctx {A} (f : gmap string ConversationContext -> A * gmap string ConversationContext)
  : M A :=
  fun w => let '(a, st) := f (contexts w) in
           (Ok a, {| contexts := st;
                     discoveredObjects := discoveredObjects w;
                     metadataCache := metadataCache w;
                     trace := trace w |}).

(** The world in which the store has been replaced. *)
Definition with_contexts (st : gmap string ConversationContext) (w : World) : World :=
  {| contexts := st; discoveredObjects := discoveredObjects w;
     metadataCache := metadataCache w; trace := trace w |}.

Definition ctx_ (f : gmap string ConversationContext -> gmap string ConversationContext)
  : M unit :=
  ctx (fun st => (tt, f st)).

(** ** ClarityApiClient (services/ClarityApiClient.ts) *)

Module ClarityApiClient.

(** What an attempt comes to: the body, or the error that is thrown. *)
Definition result_of (o : FetchOutcome) : Outcome ApiResponse :=
  match o with
  | RespOk data => Ok data
  | RespStatus status errorText =>
      Throw ("HTTP " +:+ Str.of_nat status +:+ ": " +:+ errorText)
  | FetchThrows message => Throw message
  end.

Definition is_auth_error (message : string) : bool :=
  Str.includes message "401" || Str.includes message "403".

Definition fetch_once (env : Env) (method url : string) (body : option JRecord)
  : M FetchOutcome :=
  ask (EFetch method url body)
      (fun tr => Ok (fetch env tr method url body)).

(** The loop [for (attempt = 0; attempt < maxRetries; attempt++)], from
    iteration [attempt] on; [fuel] is the number of iterations left. *)
Fixpoint attempts (env : Env) (method url : string) (body : option JRecord)
    (fuel attempt : nat) (lastError : option string) : M ApiResponse :=
  match fuel with
  | O => throw (default "Request failed" lastError)
  | S fuel' =>
      o <- fetch_once env method url body ;;
      match result_of o with
      | Ok data => ret data
      | Throw message =>
          if is_auth_error message then throw message
          else
            (if (attempt <? maxRetries env - 1)%nat
             then emit (ESleep (1000 * (Z.of_nat attempt + 1)))
             else ret tt) ;;;
            attempts env method url body fuel' (S attempt) (Some message)
      end
  end.

Definition url_of (env : Env) (endpoint : string) : string :=
  baseUrl env +:+ (if Str.startsWith endpoint "/" then endpoint else "/" +:+ endpoint).

Definition request (env : Env) (method endpoint : string) (body : option JRecord)
  : M ApiResponse :=
  attempts env method (url_of env endpoint) body (maxRetries env) 0 None.

Definition get (env : Env) (endpoint : string) : M ApiResponse :=
  request env "GET" endpoint None.

Definition post (env : Env) (endpoint : string) (body : JRecord) : M ApiResponse :=
  request env "POST" endpoint (Some body).

Definition patch (env : Env) (endpoint : string) (body : JRecord) : M ApiResponse :=
  request env "PATCH" endpoint (Some body).

Definition delete (env : Env) (endpoint : string) : M ApiResponse :=
  request env "DELETE" endpoint None.

(** The world with the events [evs] (the most recent first) behind it. *)
Definition add_events (evs : list Event) (w : World) : World :=
  {| contexts := contexts w; discoveredObjects := discoveredObjects w;
     metadataCache := metadataCache w; trace := evs ++ trace w |}.

(** The events of the retry loop from iteration [attempt] on when every
    attempt fails, the most recent first. *)
Fixpoint backoff (e : Event) (retries fuel attempt : nat) : list Event :=
  match fuel with
  | O => []
  | S fuel' =>
      backoff e retries fuel' (S attempt)
      ++ (if (attempt <? retries - 1)%nat
          then [ESleep (1000 * (Z.of_nat attempt + 1))] else [])
      ++ [e]
  end.

End ClarityApiClient.

(** ** DeepLinkService (services/DeepLinkService.ts) *)

Module DeepLinkService.

Definition isCustomObject (objectType : string) : bool :=
  Str.startsWith (Str.toLowerCase objectType) "cust".

Definition pathMap : list (string * string) :=
  [ ("projects", "projects/common"); ("tasks", "tasks/common");
    ("resources", "resources/common"); ("ideas", "ideas/common");
    ("risks", "risks/common"); ("issues", "issues/common");
    ("timesheets", "timesheets/common") ].

Definition generateListLink (env : Env) (objectType : string) : string :=
  if isCustomObject objectType
  then clarityBaseUrl env +:+ "/pm/#/customobjects/" +:+ objectType +:+ "/common"
  else
    let path := default (objectType +:+ "/common")
                        (assoc pathMap (Str.toLowerCase objectType)) in
    clarityBaseUrl env +:+ "/pm/#/" +:+ path.

Definition singularMap : list (string * string) :=
  [ ("tasks", "task"); ("resources", "resource"); ("ideas", "idea");
    ("risks", "risk"); ("issues", "issue") ].

Definition generateRecordLink (env : Env) (objectType recordId tab : string)
  : string :=
  if isCustomObject objectType
  then clarityBaseUrl env +:+ "/pm/#/customobjects/" +:+ objectType +:+ "/" +:+ recordId
  else if String.eqb (Str.toLowerCase objectType) "projects"
  then clarityBaseUrl env +:+ "/pm/#/project/" +:+ recordId +:+ "/" +:+ tab
  else
    let singular := default objectType
                            (assoc singularMap (Str.toLowerCase objectType)) in
    clarityBaseUrl env +:+ "/pm/#/" +:+ singular +:+ "/" +:+ recordId +:+ "/" +:+ tab.

Definition generateFilteredLink (env : Env) (objectType field value : string)
  : string :=
  generateListLink env objectType +:+ "?filter="
    +:+ encodeURIComponent env (field +:+ "=" +:+ value).

Definition generateMultiFilterLink (env : Env) (objectType : string)
    (filters : list (string * string)) : string :=
  generateListLink env objectType +:+ "?filter="
    +:+ encodeURIComponent env
          (Str.join "&" (map (fun fv => fv.1 +:+ "=" +:+ fv.2) filters)).

End DeepLinkService.

(** The texts of the handler that are not ASCII, as the source file holds
    them. *)
Module Glyph.

Definition greeting_1 : string := "◊©◊ú◊ï◊ù".
Definition greeting_2 : string := "◊î◊ô◊ô".
Definition kw_describe : string := "◊™◊ê◊®".
Definition kw_fields : string := "◊©◊ì◊ï◊™".
Definition inbox : string := "üì•".
Definition bullet : string := "‚Ä¢".
Definition question : string := "‚ùì".
Definition magnifier : string := "üîç".
Definition chain : string := "üîó".
Definition cross : string := "‚ùå".
Definition numbers : string := "üî¢".
Definition bulb : string := "üí°".
Definition kw_the_object : string := "◊î◊ê◊ï◊ë◊ô◊ô◊ß◊ò".
Definition kw_on_it : string := "◊¢◊ú◊ô◊ï".
Definition kw_him : string := "◊ê◊ï◊™◊ï".
Definition kw_this : string := "◊î◊ñ◊î".
Definition kw_more : string := "◊¢◊ï◊ì".
Definition kw_data : string := "◊†◊™◊ï◊†◊ô◊ù".
Definition kw_info : string := "◊û◊ô◊ì◊¢".
Definition chart : string := "üìä".
Definition trend : string := "üìà".
Definition clipboard : string := "üìã".
Definition target : string := "üéØ".
Definition arrow : string := "‚Üí".
Definition tick : string := "‚úÖ".
Definition sparkles : string := "‚ú®".
Definition robot : string := "ü§ñ".

End Glyph.

(** ** MetadataService, as the handler calls it *)

Module MetadataService.

Definition discoverAllObjects (env : Env) : M (list string) :=
  ask (EMeta "discoverAllObjects" "") (svc_discoverAllObjects env).

Definition getCustomObjects (env : Env) : M (list CustomObject) :=
  ask (EMeta "getCustomObjects" "") (svc_getCustomObjects env).

Definition getObjectMetadata (env : Env) (objectType : string) : M ObjectMetadata :=
  ask (EMeta "getObjectMetadata" objectType)
      (fun tr => svc_getObjectMetadata env tr objectType).

Definition getObjectLabel (env : Env) (objectType : string) : M string :=
  ask (EMeta "getObjectLabel" objectType)
      (fun tr => svc_getObjectLabel env tr objectType).

End MetadataService.

(** ** Helpers of the handler *)

Module Js.

Definition upper_ascii (c : ascii) : ascii :=
  if Regex.is_lower c then ascii_of_nat (nat_of_ascii c - 32) else c.

(** [s.charAt(0).toUpperCase() + s.slice(1)] *)
Definition capitalize (s : string) : string :=
  match s with
  | String c s' => String (upper_ascii c) s'
  | EmptyString => EmptyString
  end.

(** [s.slice(0, -1)] *)
Definition drop_last (s : string) : string :=
  String.substring 0 (String.length s - 1) s.

(** [s.replace(/c/g, r)] for a pattern of one character class. *)
Fixpoint replace_chars (p : ascii -> bool) (r : string) (s : string) : string :=
  match s with
  | EmptyString => EmptyString
  | String c s' =>
      if p c then r +:+ replace_chars p r s'
      else String c (replace_chars p r s')
  end.

(** [s.replace(r, f)] for a pattern without the [g] flag. *)
Definition replace_first (r : Regex.re) (f : Regex.Match -> string) (s : string)
  : string :=
  match Regex.exec r s with
  | Some m => Regex.before m +:+ f m +:+ Regex.after m
  | None => s
  end.

Fixpoint parse_digits (s : string) (acc : nat) : nat :=
  match s with
  | String c s' =>
      if Regex.is_digit c
      then parse_digits s' (10 * acc + (nat_of_ascii c - 48))
      else acc
  | EmptyString => acc
  end.

(** [parseInt(s)] on a string that starts with a digit. *)
Definition parseInt (s : string) : nat := parse_digits s 0.

(** Insertion of [x] behind the elements with a greater key. *)
Fixpoint insert_desc {A} (key : A -> Z) (x : A) (l : list A) : list A :=
  match l with
  | [] => [x]
  | y :: l' =>
      if (key x <? key y)%Z then y :: insert_desc key x l'
      else x :: y :: l'
  end.

(** [l.sort((a, b) => key(b) - key(a))]: descending, and stable. *)
Definition sort_desc {A} (key : A -> Z) (l : list A) : list A :=
  fold_right (insert_desc key) [] l.

(** A value in a boolean position. *)
Definition truthy (v : option JValue) : bool :=
  match v with
  | None | Some JNull | Some (JBool false) => false
  | Some (JNum n) => negb (n =? 0)%Z
  | Some (JStr s) => Str.truthy s
  | Some _ => true
  end.

Definition quote : ascii -> bool :=
  fun c => (nat_of_ascii c =? 34)%nat || (nat_of_ascii c =? 39)%nat.

End Js.

(** ** AIChatHandler *)

Module AIChatHandler.
Import Regex.

Definition failure (rep : string) (ts : Z) : AIResponse :=
  {| success := false; reply := rep; chartData := None;
     timestamp := ts; deepLink := None |}.

Definition succeed (rep : string) (ts : Z) (link : option string) : AIResponse :=
  {| success := true; reply := rep; chartData := None;
     timestamp := ts; deepLink := link |}.

Definition turn (ts : Z) (r : Role) (msg : string) (act : option string)
    (obj : option string) (ok : option bool) : ConversationTurn :=
  {| t_timestamp := ts; t_role := r; t_message := msg; t_action := act;
     t_objectType := obj; t_success := ok |}.

Definition set_discoveredObjects (objs : list string) : M unit :=
  fun w => (Ok tt, {| contexts := contexts w; discoveredObjects := objs;
                      metadataCache := metadataCache w; trace := trace w |}).

Definition set_metadataCache (c : gmap string ObjectMetadata) : M unit :=
  fun w => (Ok tt, {| contexts := contexts w;
                      discoveredObjects := discoveredObjects w;
                      metadataCache := c; trace := trace w |}).

Definition read {A} (f : World -> A) : M A := fun w => (Ok (f w), w).

(** *** Helper methods *)

Definition formatFieldValue (v : option JValue) : string :=
  match v with
  | None | Some JNull => ""
  | Some (JObj displayValue code json) =>
      match displayValue with
      | Some s => s
      | None => match code with Some s => s | None => json end
      end
  | _ => jstring v
  end.

Definition records_of (response : ApiResponse) : list JRecord :=
  default [] (_results response).

Definition total_of (response : ApiResponse) (records : list JRecord) : Z :=
  default (Z.of_nat (length records)) (_totalCount response).

(** The record found by a lookup: its identity and its name. *)
Record Found := { f_internalId : option JValue; f_name : option JValue }.

Definition first_found (records : list JRecord) : option Found :=
  match records with
  | [] => None
  | r :: _ => Some {| f_internalId := jget r "_internalId"; f_name := jget r "name" |}
  end.

Definition findRecord (env : Env) (objectType nameOrCode : string)
  : M (option Found) :=
  try_catch
    (response <- ClarityApiClient.get env
       ("/" +:+ objectType +:+ "?filter=((code = '" +:+ nameOrCode
        +:+ "') or (name = '" +:+ nameOrCode +:+ "'))&fields=_internalId,name&limit=1") ;;
     ret (first_found (records_of response)))
    (fun _ => ret None).

Definition findRecordByName (env : Env) (objectType nameOrCode : string)
  : M (option Found) :=
  try_catch
    (let escapedName := Js.replace_chars (is_char "'"%char) "''" nameOrCode in
     response <- ClarityApiClient.get env
       ("/" +:+ objectType +:+ "?filter=((code = '" +:+ escapedName
        +:+ "'))&fields=_internalId,name,code&limit=1") ;;
     records <-
       (match records_of response with
        | [] =>
            response' <- ClarityApiClient.get env
              ("/" +:+ objectType +:+ "?filter=((name contains '" +:+ escapedName
               +:+ "'))&fields=_internalId,name,code&limit=1") ;;
            ret (records_of response')
        | records => ret records
        end) ;;
     ret (first_found records))
    (fun _ => ret None).

Definition extractProjectName (message : string) : option string :=
  match exec (seqs [ alts [liti "in"; liti "for"; liti "of"; liti "under"];
                     plus ws; opt (Seq (liti "project") (plus ws));
                     opt (Chr Js.quote);
                     Group 1 (plus (Chr (fun c => is_word c || is_char "-"%char c)));
                     opt (Chr Js.quote) ]) message with
  | Some m => group m 1
  | None => None
  end.

Definition extractRecordName (message : string) : option string :=
  match exec (seqs [ alts [Seq (liti "name") (opt (liti "d")); liti "called";
                           liti "project"; liti "task"; liti "record"];
                     plus ws; opt (Chr Js.quote);
                     Group 1 (plus_lazy (Chr (fun c => negb (Js.quote c))));
                     opt (Chr Js.quote);
                     alts [Seq (plus ws) (liti "set"); Seq (plus ws) (liti "to"); Eol] ])
             message with
  | Some m => option_map Str.trim (group m 1)
  | None => None
  end.

(** *** Error response *)

Definition getErrorResponse (errorMessage : string) (ts : Z) (sessionId : string)
  : AIResponse :=
  let '(suggestions, hint) :=
    if Str.includes errorMessage "404" || Str.includes errorMessage "not found"
    then (["List all available objects"; "Show custom objects"; "Describe projects"],
          "The object or field might not exist.")
    else if Str.includes errorMessage "401" || Str.includes errorMessage "403"
            || Str.includes errorMessage "auth"
    then (["Check API credentials"; "Verify permissions"],
          "There might be an authentication or permission issue.")
    else if Str.includes errorMessage "timeout"
            || Str.includes errorMessage "ECONNREFUSED"
    then (["Try again in a moment"; "Check Clarity server status"],
          "The Clarity server might be temporarily unavailable.")
    else (["Try a simpler query"; "List projects"; "Show custom objects"], "") in
  failure
    (Glyph.cross +:+ " **Something went wrong**" +:+ Str.nl +:+ Str.nl
     +:+ hint +:+ Str.nl +:+ Str.nl
     +:+ "**Error:** " +:+ Str.take 200 errorMessage +:+ Str.nl +:+ Str.nl
     +:+ Glyph.bulb +:+ " **Try instead:**" +:+ Str.nl
     +:+ Str.join Str.nl
           (map (fun s => Glyph.bullet +:+ " " +:+ Str.dq +:+ s +:+ Str.dq) suggestions))
    ts.

(** *** Object discovery *)

Definition discoverObjects (env : Env) : M unit :=
  objs <- MetadataService.discoverAllObjects env ;;
  set_discoveredObjects objs.

Definition getObjectMetadata (env : Env) (objectType : string) : M ObjectMetadata :=
  cache <- read metadataCache ;;
  match cache !! objectType with
  | Some metadata => ret metadata
  | None =>
      metadata <- MetadataService.getObjectMetadata env objectType ;;
      cache' <- read metadataCache ;;
      set_metadataCache (<[objectType := metadata]> cache') ;;;
      ret metadata
  end.

(** *** Link requests *)

(** The reply of [generateContextLink] when there is nothing to link to. *)
Definition link_usage : string :=
  Glyph.question +:+ " I need to know what to link to." +:+ Str.nl +:+ Str.nl
  +:+ "Try:" +:+ Str.nl
  +:+ Glyph.bullet +:+ " " +:+ Str.dq +:+ "Give me link to all projects" +:+ Str.dq +:+ Str.nl
  +:+ Glyph.bullet +:+ " " +:+ Str.dq +:+ "Give me link to project [name]" +:+ Str.dq +:+ Str.nl
  +:+ Glyph.bullet +:+ " " +:+ Str.dq +:+ "Give me link to custom objects" +:+ Str.dq.

(** [context.lastQuery], when it has an object type. *)
Definition typed_query (context : ConversationContext) : option LastQuery :=
  match lastQuery context with
  | Some q => if Str.truthy (q_objectType q) then Some q else None
  | None => None
  end.

Definition generateContextLink (env : Env) (context : ConversationContext) (ts : Z)
  : AIResponse :=
  match typed_query context with
  | None => failure link_usage ts
  | Some q =>
      let '(href, linkDescription) :=
        match q_filters q with
        | Some ((_ :: _) as filters) =>
            (DeepLinkService.generateMultiFilterLink env (q_objectType q) filters,
             q_objectLabel q +:+ " filtered by "
             +:+ Str.join ", "
                   (map (fun kv => kv.1 +:+ "=" +:+ Str.dq +:+ kv.2 +:+ Str.dq)
                        filters))
        | _ =>
            (DeepLinkService.generateListLink env (q_objectType q),
             "All " +:+ q_objectLabel q)
        end in
      succeed (Glyph.chain +:+ " **Link to Clarity**" +:+ Str.nl +:+ Str.nl
               +:+ linkDescription +:+ ":" +:+ Str.nl +:+ href)
              ts (Some href)
  end.

Definition STANDARD_OBJECTS : list string :=
  ["projects"; "tasks"; "resources"; "ideas"; "risks"; "issues"; "timesheets"].

(** [/link\s+(?:to\s+)?(?:all\s+)?(projects|...|timesheets)\b/i] *)
Definition re_link_all : re :=
  seqs [ liti "link"; plus ws; opt (Seq (liti "to") (plus ws));
         opt (Seq (liti "all") (plus ws));
         Group 1 (alts (map liti STANDARD_OBJECTS)); WordB ].

(** [/link\s+(?:to\s+)(?:project\s+)?Q?(.+?)Q?(?:\s+project)?$/i], where
    [Q] is the class of the two quotation marks *)
Definition re_link_to : re :=
  seqs [ liti "link"; plus ws; Seq (liti "to") (plus ws);
         opt (Seq (liti "project") (plus ws)); opt (Chr Js.quote);
         Group 1 (plus_lazy (Chr is_dot)); opt (Chr Js.quote);
         opt (Seq (plus ws) (liti "project")); Eol ].

(** [/\s*projects?\s*$/i] *)
Definition re_trailing_project : re :=
  seqs [ star ws; liti "project"; opt (liti "s"); star ws; Eol ].

Definition generic_words : list string :=
  ["this"; "them"; "it"; "all"; "the"; "that"].

Definition mem (x : string) (l : list string) : bool :=
  existsb (String.eqb x) l.

(** The third pattern of [handleLinkRequest]: the name behind "link to",
    when there is one that is not a generic word. *)
Definition link_record_name (msg : string) : option string :=
  match exec re_link_to msg with
  | Some m =>
      let recordName :=
        Str.trim (Js.replace_first re_trailing_project (fun _ => "")
                    (Str.trim (default "" (group m 1)))) in
      if Str.truthy recordName && negb (mem recordName generic_words)
      then Some recordName else None
  | None => None
  end.

Definition handleLinkRequest (env : Env) (sessionId : string) (ts : Z)
    (originalMessage : option string) : M AIResponse :=
  context <- ctx (ContextService.getContext sessionId) ;;
  if negb (Str.otruthy originalMessage)
  then ret (generateContextLink env context ts)
  else
    let msg := Str.trim (Str.toLowerCase (default "" originalMessage)) in
    match exec re_link_all msg with
    | Some m =>
        let objectName := Str.toLowerCase (default "" (group m 1)) in
        let href := DeepLinkService.generateListLink env objectName in
        ret (succeed (Glyph.chain +:+ " **All " +:+ Js.capitalize objectName +:+ "**"
                      +:+ Str.nl +:+ Str.nl +:+ href)
                     ts (Some href))
    | None =>
        if Str.includes msg "custom object" then
          customObjects <- MetadataService.getCustomObjects env ;;
          let links :=
            Str.join Str.nl
              (map (fun obj => Glyph.bullet +:+ " " +:+ co_label obj +:+ ": "
                               +:+ DeepLinkService.generateListLink env (co_resourceName obj))
                   (firstn 5 customObjects)) in
          ret (succeed (Glyph.chain +:+ " **Custom Objects Links**" +:+ Str.nl +:+ Str.nl
                        +:+ links
                        +:+ (if (5 <? length customObjects)%nat
                             then Str.nl +:+ Str.nl +:+ "...and "
                                  +:+ Str.of_nat (length customObjects - 5) +:+ " more"
                             else ""))
                       ts None)
        else
          match link_record_name msg with
          | Some recordName =>
              customObjects <- MetadataService.getCustomObjects env ;;
              match List.find
                      (fun o => Str.includes (Str.toLowerCase (co_label o)) recordName
                                || Str.includes (Str.toLowerCase (co_resourceName o)) recordName)
                      customObjects with
              | Some customObj =>
                  let href := DeepLinkService.generateListLink env (co_resourceName customObj) in
                  ret (succeed (Glyph.chain +:+ " **" +:+ co_label customObj +:+ "**"
                                +:+ Str.nl +:+ Str.nl +:+ href)
                               ts (Some href))
              | None =>
                  record <- findRecordByName env "projects" recordName ;;
                  match record with
                  | Some r =>
                      let href := DeepLinkService.generateRecordLink env "projects"
                                    (jstring (f_internalId r)) "properties" in
                      ret (succeed (Glyph.chain +:+ " **Project " +:+ Str.dq
                                    +:+ (if Js.truthy (f_name r) then jstring (f_name r)
                                         else recordName)
                                    +:+ Str.dq +:+ "**" +:+ Str.nl +:+ Str.nl +:+ href)
                                   ts (Some href))
                  | None =>
                      ret (failure
                             (Glyph.cross +:+ " Could not find " +:+ Str.dq +:+ recordName
                              +:+ Str.dq +:+ ". Check the name and try again."
                              +:+ Str.nl +:+ Str.nl +:+ "Try:" +:+ Str.nl
                              +:+ Glyph.bullet +:+ " " +:+ Str.dq
                              +:+ "Give me link to all projects" +:+ Str.dq +:+ Str.nl
                              +:+ Glyph.bullet +:+ " " +:+ Str.dq
                              +:+ "Give me link to project [exact name]" +:+ Str.dq)
                             ts)
                  end
              end
          | None => ret (generateContextLink env context ts)
          end
    end.

(** *** Count follow-up *)

Definition handleCountFollowUp (sessionId : string) (ts : Z) : M AIResponse :=
  context <- ctx (ContextService.getContext sessionId) ;;
  match lastQuery context with
  | Some {| q_totalCount := Some n; q_objectLabel := objectLabel |} =>
      ret (succeed (Glyph.numbers +:+ " **Total: " +:+ Str.of_Z n +:+ " "
                    +:+ objectLabel +:+ "**") ts None)
  | _ =>
      ret (failure
             (Glyph.question
              +:+ " I don't have a count from a previous query. Please run a query first.")
             ts)
  end.

(** *** Drill-down *)

(** [context.lastQuery], when it has a grouping field and an object
    type. *)
Definition grouped_query (context : ConversationContext)
  : option (LastQuery * string) :=
  match lastQuery context with
  | Some q =>
      match q_groupByField q with
      | Some f => if Str.truthy f && Str.truthy (q_objectType q)
                  then Some (q, f) else None
      | None => None
      end
  | None => None
  end.

Definition no_match_reply (options : list string) : string :=
  Glyph.question +:+ " I couldn't determine which value you want to see."
  +:+ Str.nl +:+ Str.nl +:+ "**Available options from the last chart:**" +:+ Str.nl
  +:+ Str.join Str.nl
        (map (fun o => Glyph.bullet +:+ " " +:+ Str.dq +:+ o +:+ Str.dq) options)
  +:+ Str.nl +:+ Str.nl +:+ "Please specify one of these values.".

Definition drilldown_endpoint (objectType groupByField filterValue : string) : string :=
  "/" +:+ objectType +:+ "?filter=((" +:+ groupByField +:+ " = '" +:+ filterValue
  +:+ "'))&fields=_internalId,name,code,status&limit=50".

(** The lines of a reply that list records, fifteen at most. *)
Definition record_lines (records : list JRecord) : string :=
  String.concat ""
    (map (fun record =>
            let name := nullish (jget record "name")
                          (nullish (jget record "code") (jget record "_internalId")) in
            let status := formatFieldValue (jget record "status") in
            Glyph.bullet +:+ " **" +:+ jstring name +:+ "**"
            +:+ (if Str.truthy status then " (" +:+ status +:+ ")" else "")
            +:+ Str.nl)
         (firstn 15 records)).

Definition and_more (totalCount : Z) : string :=
  if (15 <? totalCount)%Z
  then Str.nl +:+ "_...and " +:+ Str.of_Z (totalCount - 15) +:+ " more_"
  else "".

(** The last query that a drill-down into [matchedValue] leaves. *)
Definition drilldown_record (q : LastQuery) (groupByField matchedValue : string)
    (records : list JRecord) (totalCount t : Z) : LastQuery :=
  {| q_objectType := q_objectType q;
     q_objectLabel := q_objectLabel q;
     q_action := "drilldown";
     q_filters := Some [(groupByField, matchedValue)];
     q_results := Some records;
     q_totalCount := Some totalCount;
     q_groupByField := None;
     q_groupByDisplayName := None;
     q_chartData := None;
     q_timestamp := t |}.

(** The [try] block of [handleDrillDown]: the request for the records
    of the matched value, and the update of the last query. *)
Definition drill_query (env : Env) (sessionId : string) (q : LastQuery)
    (groupByField matchedValue : string) (ts : Z) : M (option AIResponse) :=
  let objectType := q_objectType q in
  let objectLabel := q_objectLabel q in
  let groupByDisplayName := Str.or_else (q_groupByDisplayName q) groupByField in
  try_catch
    (response <- ClarityApiClient.get env
       (drilldown_endpoint objectType groupByField matchedValue) ;;
     let records := records_of response in
     let totalCount := total_of response records in
     let href := DeepLinkService.generateFilteredLink env objectType
                   groupByField matchedValue in
     let rep :=
       Glyph.magnifier +:+ " **" +:+ objectLabel +:+ " where "
       +:+ groupByDisplayName +:+ " = " +:+ Str.dq +:+ matchedValue +:+ Str.dq
       +:+ "**" +:+ Str.nl
       +:+ "Found **" +:+ Str.of_Z totalCount +:+ "** records" +:+ Str.nl +:+ Str.nl
       +:+ record_lines records +:+ and_more totalCount
       +:+ Str.nl +:+ Str.nl +:+ Glyph.chain +:+ " [Open in Clarity](" +:+ href +:+ ")" in
     t <- get_now env ;;
     ctx_ (ContextService.updateLastQuery sessionId
             (Some (drilldown_record q groupByField matchedValue records totalCount t))) ;;;
     ret (Some (succeed rep ts (Some href))))
    (fun error =>
       ret (Some (failure
                    (Glyph.cross +:+ " Could not retrieve " +:+ objectLabel
                     +:+ " where " +:+ groupByDisplayName +:+ " = " +:+ Str.dq
                     +:+ matchedValue +:+ Str.dq +:+ "." +:+ Str.nl +:+ Str.nl
                     +:+ "Error: " +:+ error)
                    ts))).

Definition handleDrillDown (env : Env) (sessionId : string)
    (extractedValue : option string) (originalMessage : string) (ts : Z)
  : M (option AIResponse) :=
  context <- ctx (ContextService.getContext sessionId) ;;
  match grouped_query context with
  | None => ret None
  | Some (q, groupByField) =>
      found <-
        (if Str.otruthy extractedValue
         then ctx (ContextService.findDrillDownMatch sessionId (default "" extractedValue))
         else ret None) ;;
      matchedValue <-
        (match found with
         | Some v => ret (Some v)
         | None =>
             availableOptions <- ctx (ContextService.getDrillDownOptions sessionId) ;;
             ret (ContextService.find_truthy
                    (fun option => Str.includes (Str.toLowerCase originalMessage)
                                                (Str.toLowerCase option))
                    availableOptions)
         end) ;;
      match matchedValue with
      | None =>
          options <- ctx (ContextService.getDrillDownOptions sessionId) ;;
          ret (Some (failure (no_match_reply options) ts))
      | Some matchedValue => drill_query env sessionId q groupByField matchedValue ts
      end
  end.

(** The value that the first stage of [handleDrillDown] matches, as a
    function of the options of the chart. *)
Definition matched_value (options : list string) (extracted : option string)
    (originalMessage : string) : option string :=
  match (if Str.otruthy extracted
         then ContextService.match_option options (default "" extracted)
         else None) with
  | Some v => Some v
  | None =>
      ContextService.find_truthy
        (fun option => Str.includes (Str.toLowerCase originalMessage)
                                    (Str.toLowerCase option))
        options
  end.

(** *** Follow-ups *)

Definition export_reply : string :=
  Glyph.inbox +:+ " **Export Feature**" +:+ Str.nl +:+ Str.nl
  +:+ "Export functionality is coming soon! For now, you can:" +:+ Str.nl
  +:+ Glyph.bullet +:+ " Copy the data from above" +:+ Str.nl
  +:+ Glyph.bullet +:+ " Use the deep link to open in Clarity and export from there".

Definition handleFollowUp (env : Env) (sessionId : string) (intentType : Intent.t)
    (extractedValue : option string) (originalMessage : string) (ts : Z)
  : M (option AIResponse) :=
  _ <- ctx (ContextService.getContext sessionId) ;;
  match intentType with
  | Intent.showSelected =>
      handleDrillDown env sessionId extractedValue originalMessage ts
  | Intent.link =>
      r <- handleLinkRequest env sessionId ts (Some originalMessage) ;; ret (Some r)
  | Intent.count =>
      r <- handleCountFollowUp sessionId ts ;; ret (Some r)
  | Intent.export => ret (Some (succeed export_reply ts None))
  | _ => ret None
  end.

(** *** Target object *)

Definition hasObjectMention (message : string) (customObjects : list CustomObject)
  : bool :=
  existsb (Str.includes message)
    ["projects"; "tasks"; "resources"; "ideas"; "risks"; "issues"; "timesheets";
     "project"; "task"; "resource"; "idea"; "risk"; "issue"; "timesheet"]
  || existsb (fun obj => Str.includes message (Str.toLowerCase (co_label obj))
                         || Str.includes message (Str.toLowerCase (co_resourceName obj)))
             customObjects.

Definition contextTriggers : list string :=
  ["the object"; "this object"; "that object"; "it"; "this"; Glyph.kw_the_object;
   Glyph.kw_on_it; Glyph.kw_him; Glyph.kw_this; Glyph.kw_more +:+ " " +:+ Glyph.kw_data;
   "more data"; "more info"; Glyph.kw_more +:+ " " +:+ Glyph.kw_info;
   "describe"; "fields"; Glyph.kw_fields; Glyph.kw_describe].

(** The object type and its label. *)
Definition detectTargetObject (env : Env) (message sessionId : string)
  : M (string * string) :=
  let lowerMessage := Str.toLowerCase message in
  customObjects <- MetadataService.getCustomObjects env ;;
  match List.find
          (fun obj => Str.includes lowerMessage (Str.toLowerCase (co_label obj))
                      || Str.includes lowerMessage (Str.toLowerCase (co_resourceName obj)))
          customObjects with
  | Some obj => ret (co_resourceName obj, co_label obj)
  | None =>
      match List.find
              (fun obj => Str.includes lowerMessage obj
                          || Str.includes lowerMessage (Js.drop_last obj))
              STANDARD_OBJECTS with
      | Some obj => ret (obj, Js.capitalize obj)
      | None =>
          let hasContextReference := existsb (Str.includes lowerMessage) contextTriggers in
          if hasContextReference || negb (hasObjectMention lowerMessage customObjects)
          then
            context <- ctx (ContextService.getContext sessionId) ;;
            match lastQuery context with
            | Some q =>
                if Str.truthy (q_objectType q) && Str.truthy (q_objectLabel q)
                then ret (q_objectType q, q_objectLabel q)
                else ret ("projects", "Projects")
            | None => ret ("projects", "Projects")
            end
          else ret ("projects", "Projects")
      end
  end.

(** *** Custom objects, without the reasoning service *)

(** The instance count of every custom object; a failed request counts
    as none. *)
Fixpoint count_instances (env : Env) (customObjects : list CustomObject)
  : M (list (CustomObject * Z)) :=
  match customObjects with
  | [] => ret []
  | obj :: rest =>
      n <- try_catch
             (response <- ClarityApiClient.get env
                ("/" +:+ co_resourceName obj +:+ "?fields=_internalId&limit=1") ;;
              ret (default 0%Z (_totalCount response)))
             (fun _ => ret 0%Z) ;;
      counts <- count_instances env rest ;;
      ret ((obj, n) :: counts)
  end.

Fixpoint numbered {A} (i : nat) (l : list A) : list (nat * A) :=
  match l with
  | [] => []
  | x :: l' => (i, x) :: numbered (S i) l'
  end.

Definition handleCustomObjectsQuery (env : Env) (message : string) (ts : Z)
  : M AIResponse :=
  let lowerMessage := Str.toLowerCase message in
  customObjects <- MetadataService.getCustomObjects env ;;
  let n := length customObjects in
  if (Str.includes lowerMessage "how many" || Str.includes lowerMessage "count")
     && negb (Str.includes lowerMessage "instance")
     && negb (Str.includes lowerMessage "record")
     && negb (Str.includes lowerMessage "most")
  then ret (succeed (Glyph.chart +:+ " **Found " +:+ Str.of_nat n
                     +:+ " Custom Objects** in the system") ts None)
  else
    let wantsInstanceCount :=
      Str.includes lowerMessage "most" || Str.includes lowerMessage "instance"
      || Str.includes lowerMessage "record" || Str.includes lowerMessage "top"
      || test (plus digit) lowerMessage in
    if wantsInstanceCount then
      let limit :=
        match exec (Group 1 (plus digit)) lowerMessage with
        | Some m => Nat.min (Js.parseInt (default "" (group m 1))) n
        | None => 10%nat
        end in
      objectCounts <- count_instances env customObjects ;;
      let sorted := Js.sort_desc snd objectCounts in
      let lines :=
        map (fun io : nat * (CustomObject * Z) =>
               Str.of_nat (S io.1) +:+ ". **" +:+ co_label io.2.1 +:+ "** (`"
               +:+ co_resourceName io.2.1 +:+ "`) - **" +:+ Str.of_Z io.2.2
               +:+ "** records" +:+ Str.nl)
            (numbered 0 (firstn limit sorted)) in
      let totalInstances := fold_left Z.add (map snd objectCounts) 0%Z in
      ret (succeed (Glyph.chart +:+ " **Top " +:+ Str.of_nat limit
                    +:+ " Custom Objects by Instance Count**" +:+ Str.nl +:+ Str.nl
                    +:+ String.concat "" lines
                    +:+ Str.nl +:+ Glyph.trend +:+ " **Total:** " +:+ Str.of_Z totalInstances
                    +:+ " records across " +:+ Str.of_nat n +:+ " custom objects")
                   ts None)
    else
      ret (succeed (Glyph.clipboard +:+ " **Custom Objects (" +:+ Str.of_nat n +:+ ")**"
                    +:+ Str.nl +:+ Str.nl
                    +:+ String.concat ""
                          (map (fun obj => Glyph.bullet +:+ " **" +:+ co_label obj
                                           +:+ "** (`" +:+ co_resourceName obj +:+ "`)"
                                           +:+ Str.nl)
                               customObjects)
                    +:+ Str.nl +:+ Glyph.bulb +:+ " To query a custom object, try: "
                    +:+ Str.dq +:+ "list "
                    +:+ match customObjects with
                        | obj :: _ => co_resourceName obj
                        | [] => "custXXX"
                        end
                    +:+ Str.dq)
                   ts None).

(** *** Planning *)

(** The test of the loop that looks for a field of the schema in the
    message. *)
Definition mentions (userMessage : string) (attr : AttributeMetadata) : bool :=
  let userLower := Str.toLowerCase userMessage in
  Str.includes userMessage (displayName attr)
  || Str.includes userLower (Str.toLowerCase (displayName attr))
  || Str.includes userLower (Str.toLowerCase (apiName attr)).

(** The attribute at which the loop breaks. *)
Definition field_hint (userMessage : string) (attrs : list AttributeMetadata)
  : option AttributeMetadata :=
  List.find (mentions userMessage) attrs.

Definition systemPrompt (contextSummary objectLabel objectType resolvedFieldHint
    foundFieldApiName objectList customObjectList groupableList allFieldMappings : string)
  : string :=
    "You are a Clarity PPM API expert. Your job is to understand user requests and create the correct REST API plan."
    +:+ Str.nl +:+ Str.nl +:+ "CONVERSATION CONTEXT:" +:+ Str.nl
    +:+ (if Str.truthy contextSummary then contextSummary else "No previous context")
    +:+ Str.nl +:+ Str.nl +:+ "DETECTED TARGET OBJECT: " +:+ objectLabel +:+ " ("
    +:+ objectType +:+ ")" +:+ Str.nl +:+ Str.nl +:+ "CRITICAL RULES:" +:+ Str.nl
    +:+ "1. ALWAYS use apiName (not displayName) in endpoints and groupByField" +:+ Str.nl
    +:+ "2. The user is asking about: " +:+ objectLabel +:+ " (" +:+ objectType +:+ ")"
    +:+ Str.nl
    +:+ "3. If user mentions a field by display name, find the apiName from the mapping below"
    +:+ Str.nl +:+ "4. Hebrew display names are common - always map them to their apiName"
    +:+ Str.nl +:+ resolvedFieldHint +:+ Str.nl
    +:+ (if Str.truthy foundFieldApiName then "5. USE THIS EXACT FIELD: " +:+ Str.dq +:+ foundFieldApiName +:+ Str.dq else "")
    +:+ Str.nl +:+ Str.nl +:+ "AVAILABLE OBJECTS: " +:+ objectList +:+ Str.nl +:+ Str.nl
    +:+ "CUSTOM OBJECTS: " +:+ customObjectList +:+ Str.nl +:+ Str.nl
    +:+ "FIELDS FOR " +:+ Str.dq +:+ objectLabel +:+ Str.dq +:+ " (" +:+ objectType +:+ "):"
    +:+ Str.nl +:+ "GROUPABLE FIELDS: " +:+ groupableList +:+ Str.nl +:+ Str.nl
    +:+ "FIELD MAPPINGS (displayName ‚Üí apiName):" +:+ Str.nl +:+ "    "
    +:+ allFieldMappings +:+ Str.nl +:+ Str.nl +:+ "CLARITY REST API RULES:" +:+ Str.nl
    +:+ "1. Base endpoints: /{objectType}" +:+ Str.nl
    +:+ "2. TASKS ARE CHILD OF PROJECTS: /projects/{projectId}/tasks" +:+ Str.nl
    +:+ "3. Filter syntax: filter=((field = 'value'))" +:+ Str.nl
    +:+ "4. Supported operators: =, !=, >, <, >=, <=, in, notIn (NO 'like'!)" +:+ Str.nl
    +:+ "5. MAXIMUM LIMIT IS 500!" +:+ Str.nl
    +:+ "6. For counting: use limit=1 and read _totalCount" +:+ Str.nl
    +:+ "7. Fields selection: fields=field1,field2,field3" +:+ Str.nl +:+ Str.nl
    +:+ "RESPONSE FORMAT - Return ONLY valid JSON:" +:+ Str.nl +:+ "{" +:+ Str.nl
    +:+ "  " +:+ Str.dq +:+ "action" +:+ Str.dq +:+ ": " +:+ Str.dq +:+ "query|create|update|delete|analyze|describe|help|drilldown" +:+ Str.dq +:+ ","
    +:+ Str.nl +:+ "  " +:+ Str.dq +:+ "objectType" +:+ Str.dq +:+ ": " +:+ Str.dq
    +:+ objectType +:+ Str.dq +:+ "," +:+ Str.nl
    +:+ "  " +:+ Str.dq +:+ "method" +:+ Str.dq +:+ ": " +:+ Str.dq +:+ "GET|POST|PATCH|DELETE" +:+ Str.dq +:+ ","
    +:+ Str.nl
    +:+ "  " +:+ Str.dq +:+ "endpoint" +:+ Str.dq +:+ ": " +:+ Str.dq +:+ "the full endpoint path" +:+ Str.dq +:+ ","
    +:+ Str.nl +:+ "  " +:+ Str.dq +:+ "groupByField" +:+ Str.dq +:+ ": " +:+ Str.dq
    +:+ (if Str.truthy foundFieldApiName then foundFieldApiName else "field to group by")
    +:+ Str.dq +:+ "," +:+ Str.nl
    +:+ "  " +:+ Str.dq +:+ "filterField" +:+ Str.dq +:+ ": " +:+ Str.dq +:+ "field to filter by (for drilldown)" +:+ Str.dq +:+ ","
    +:+ Str.nl
    +:+ "  " +:+ Str.dq +:+ "filterValue" +:+ Str.dq +:+ ": " +:+ Str.dq +:+ "value to filter by (for drilldown)" +:+ Str.dq +:+ ","
    +:+ Str.nl
    +:+ "  " +:+ Str.dq +:+ "explanation" +:+ Str.dq +:+ ": " +:+ Str.dq +:+ "brief explanation" +:+ Str.dq
    +:+ Str.nl +:+ "}".

(** [/\{[\s\S]*\}/] *)
Definition re_json : re := seqs [lit "{"; star any; lit "}"].

(** [plan.groupByField = field] *)
Definition set_groupByField (field : string) (plan : APIPlan) : APIPlan :=
  {| action := action plan; objectType := objectType plan; method := method plan;
     endpoint := endpoint plan; body := body plan; groupByField := Some field;
     filterField := filterField plan; filterValue := filterValue plan;
     explanation := explanation plan |}.

Definition getAIPlan (env : Env) (userMessage : string) (context : ConversationContext)
  : M APIPlan :=
  targetObject <- detectTargetObject env userMessage (sessionId context) ;;
  let '(objectType, objectLabel) := targetObject in
  targetMetadata <- getObjectMetadata env objectType ;;
  customObjects <- MetadataService.getCustomObjects env ;;
  discovered <- read discoveredObjects ;;
  let objectList := Str.join ", " (firstn 50 discovered) in
  let customObjectList :=
    Str.join ", " (map (fun o => co_label o +:+ " (" +:+ co_resourceName o +:+ ")")
                       customObjects) in
  let hint := field_hint userMessage (attributes targetMetadata) in
  let resolvedFieldHint :=
    match hint with
    | Some attr =>
        Str.nl +:+ Str.nl +:+ Glyph.target +:+ " FIELD MATCH FOUND: User mentioned "
        +:+ Str.dq +:+ displayName attr +:+ Str.dq +:+ " which maps to apiName "
        +:+ Str.dq +:+ apiName attr +:+ Str.dq +:+ " (" +:+ dataType attr
        +:+ "). YOU MUST USE THIS EXACT APINAME: " +:+ Str.dq +:+ apiName attr
        +:+ Str.dq +:+ "!"
    | None => ""
    end in
  let foundFieldApiName :=
    match hint with Some attr => apiName attr | None => "" end in
  let groupableList :=
    Str.join ", "
      (map (fun a => Str.dq +:+ apiName a +:+ Str.dq +:+ " (" +:+ displayName a +:+ ")")
           (firstn 50 (svc_getGroupableFields env targetMetadata))) in
  let allFieldMappings :=
    Str.join (Str.nl +:+ "    ")
      (map (fun a => Str.dq +:+ displayName a +:+ Str.dq +:+ " " +:+ Glyph.arrow +:+ " "
                     +:+ Str.dq +:+ apiName a +:+ Str.dq)
           (List.filter (fun a => negb (Str.startsWith (apiName a) "_")
                                  || String.eqb (apiName a) "_internalId")
                        (attributes targetMetadata))) in
  contextSummary <- ctx (ContextService.getContextSummary (sessionId context)) ;;
  content <- ask (EReason
                    (systemPrompt contextSummary objectLabel objectType resolvedFieldHint
                       foundFieldApiName objectList customObjectList groupableList
                       allFieldMappings)
                    ("User request: " +:+ Str.dq +:+ userMessage +:+ Str.dq
                     +:+ Str.nl +:+ Str.nl +:+ "Return ONLY the JSON plan."))
                 (fun tr => messages_create env tr
                    (systemPrompt contextSummary objectLabel objectType resolvedFieldHint
                       foundFieldApiName objectList customObjectList groupableList
                       allFieldMappings)
                    ("User request: " +:+ Str.dq +:+ userMessage +:+ Str.dq
                     +:+ Str.nl +:+ Str.nl +:+ "Return ONLY the JSON plan.")) ;;
  match content with
  | None => throw "Unexpected response type from AI"
  | Some text =>
      match exec re_json text with
      | None => throw "Could not parse AI response as JSON"
      | Some jsonMatch =>
          match JSON_parse env (matched jsonMatch) with
          | Throw e => throw e
          | Ok plan =>
              if Str.truthy foundFieldApiName && String.eqb (action plan) "analyze"
              then ret (set_groupByField foundFieldApiName plan)
              else ret plan
          end
      end
  end.

(** *** Execution of a plan *)

(** A response without its time stamp, as the executors return it. *)
Record PlanResult := {
  r_success : bool;
  r_reply : string;
  r_chartData : option ChartData
}.

Definition failed (rep : string) : PlanResult :=
  {| r_success := false; r_reply := rep; r_chartData := None |}.

Definition done_ (rep : string) : PlanResult :=
  {| r_success := true; r_reply := rep; r_chartData := None |}.

Definition key_fields (metadata : ObjectMetadata) : list AttributeMetadata :=
  List.filter (fun a => negb (Str.startsWith (apiName a) "_")
                        || String.eqb (apiName a) "_internalId")
              (attributes metadata).

Definition executeDescribe (env : Env) (plan : APIPlan) : M PlanResult :=
  metadata <- getObjectMetadata env (objectType plan) ;;
  let groupable := svc_getGroupableFields env metadata in
  let lookupFields := List.filter isLookup (attributes metadata) in
  ret (done_
         (Glyph.clipboard +:+ " **" +:+ m_label metadata +:+ "** (`"
          +:+ resourceName metadata +:+ "`)" +:+ Str.nl +:+ Str.nl
          +:+ "**Total Fields:** " +:+ Str.of_nat (length (attributes metadata)) +:+ Str.nl
          +:+ "**Groupable Fields:** " +:+ Str.of_nat (length groupable) +:+ Str.nl
          +:+ "**Lookup Fields:** " +:+ Str.of_nat (length lookupFields)
          +:+ Str.nl +:+ Str.nl
          +:+ "**Key Fields:**" +:+ Str.nl
          +:+ String.concat ""
                (map (fun field =>
                        Glyph.bullet +:+ " **" +:+ displayName field +:+ "** (`"
                        +:+ apiName field +:+ "`) - " +:+ dataType field
                        +:+ (if isLookup field then " " +:+ Glyph.chain else "")
                        +:+ Str.nl)
                     (firstn 15 (key_fields metadata))))).

(** [endpoint.replace(/limit=\d+/, ...)]: the limit is 500 at most. *)
Definition cap_limit (endpoint : string) : string :=
  Js.replace_first (Seq (lit "limit=") (Group 1 (plus digit)))
    (fun m => "limit="
              +:+ Str.of_nat (Nat.min (Js.parseInt (default "" (group m 1))) 500))
    endpoint.

Definition query_record (objectType objectLabel : string) (records : list JRecord)
    (totalCount t : Z) : LastQuery :=
  {| q_objectType := objectType; q_objectLabel := objectLabel; q_action := "query";
     q_filters := None; q_results := Some records; q_totalCount := Some totalCount;
     q_groupByField := None; q_groupByDisplayName := None; q_chartData := None;
     q_timestamp := t |}.

(** The second half of [executeQuery], behind the project lookup. *)
Definition run_query (env : Env) (plan : APIPlan) (endpoint originalMessage : string)
    (sessionId : string) : M PlanResult :=
  try_catch
    (response <- ClarityApiClient.get env endpoint ;;
     let records := records_of response in
     let totalCount := total_of response records in
     objectLabel <- MetadataService.getObjectLabel env (objectType plan) ;;
     t <- get_now env ;;
     ctx_ (ContextService.updateLastQuery sessionId
             (Some (query_record (objectType plan) objectLabel records totalCount t))) ;;;
     if Str.includes endpoint "limit=1" && negb (Str.includes endpoint "limit=10")
     then
       let contextStr :=
         match extractProjectName originalMessage with
         | Some projectName =>
             if Str.truthy projectName
             then " in project " +:+ Str.dq +:+ projectName +:+ Str.dq else ""
         | None => ""
         end in
       ret (done_ (Glyph.chart +:+ " **Found " +:+ Str.of_Z totalCount +:+ " "
                   +:+ objectLabel +:+ "**" +:+ contextStr))
     else
       ret (done_ (Glyph.tick +:+ " **" +:+ Str.of_Z totalCount +:+ " " +:+ objectLabel
                   +:+ "**" +:+ Str.nl +:+ Str.nl
                   +:+ record_lines records +:+ and_more totalCount)))
    (fun error => ret (failed (Glyph.cross +:+ " Query failed: " +:+ error))).

Definition executeQuery (env : Env) (plan : APIPlan) (originalMessage sessionId : string)
  : M PlanResult :=
  let endpoint := cap_limit (endpoint plan) in
  if Str.includes endpoint "{projectId}" then
    match extractProjectName originalMessage with
    | Some projectName =>
        if Str.truthy projectName then
          project <- findRecord env "projects" projectName ;;
          match project with
          | Some r =>
              run_query env plan
                (Js.replace_first (lit "{projectId}")
                   (fun _ => jstring (f_internalId r)) endpoint)
                originalMessage sessionId
          | None =>
              ret (failed (Glyph.cross +:+ " Could not find project " +:+ Str.dq
                           +:+ projectName +:+ Str.dq))
          end
        else ret (failed (Glyph.cross +:+ " Please specify a project name"))
    | None => ret (failed (Glyph.cross +:+ " Please specify a project name"))
    end
  else run_query env plan endpoint originalMessage sessionId.


(** [distribution.set(k, (distribution.get(k) ?? 0) + 1)] on a [Map],
    which keeps its keys in the order of their first insertion. *)
Fixpoint bump (k : string) (d : list ChartItem) : list ChartItem :=
  match d with
  | [] => [{| label := k; value := 1 |}]
  | item :: d' =>
      if String.eqb (label item) k
      then {| label := k; value := S (value item) |} :: d'
      else item :: bump k d'
  end.

Definition display_value (field : string) (record : JRecord) : string :=
  let s := formatFieldValue (jget record field) in
  if Str.truthy s then s else "(No value)".

Definition tally (field : string) (records : list JRecord) : list ChartItem :=
  fold_left (fun d record => bump (display_value field record) d) records [].

(** The buckets of the chart, the largest first. *)
Definition distribution (field : string) (records : list JRecord) : list ChartItem :=
  Js.sort_desc (fun item => Z.of_nat (value item)) (tally field records).

Definition find_field (groupByField : string) (metadata : ObjectMetadata)
  : option AttributeMetadata :=
  List.find (fun a => String.eqb (Str.toLowerCase (apiName a)) (Str.toLowerCase groupByField)
                      || String.eqb (Str.toLowerCase (displayName a))
                                    (Str.toLowerCase groupByField))
            (attributes metadata).

Definition analyze_endpoint (objectType actualFieldName : string) : string :=
  "/" +:+ objectType +:+ "?fields=_internalId," +:+ actualFieldName +:+ "&limit=500".

Definition analyze_record (objectType objectLabel : string) (fieldMeta : AttributeMetadata)
    (records : list JRecord) (t : Z) : LastQuery :=
  {| q_objectType := objectType; q_objectLabel := objectLabel; q_action := "analyze";
     q_filters := None; q_results := None;
     q_totalCount := Some (Z.of_nat (length records));
     q_groupByField := Some (apiName fieldMeta);
     q_groupByDisplayName := Some (displayName fieldMeta);
     q_chartData := Some [(apiName fieldMeta, distribution (apiName fieldMeta) records)];
     q_timestamp := t |}.

Definition executeAnalyze (env : Env) (plan : APIPlan) (sessionId : string)
  : M PlanResult :=
  let groupByField := default "status" (groupByField plan) in
  metadata <- getObjectMetadata env (objectType plan) ;;
  match find_field groupByField metadata with
  | None =>
      let suggestions :=
        Str.join (Str.nl +:+ Glyph.bullet +:+ " ")
          (map (fun f => "`" +:+ apiName f +:+ "` (" +:+ displayName f +:+ ")")
               (firstn 15 (svc_getGroupableFields env metadata))) in
      ret (failed (Glyph.cross +:+ " Field " +:+ Str.dq +:+ groupByField +:+ Str.dq
                   +:+ " not found in " +:+ m_label metadata +:+ "." +:+ Str.nl +:+ Str.nl
                   +:+ "**Available fields:**" +:+ Str.nl +:+ Glyph.bullet +:+ " "
                   +:+ suggestions))
  | Some fieldMeta =>
      let actualFieldName := apiName fieldMeta in
      try_catch
        (response <- ClarityApiClient.get env
           (analyze_endpoint (objectType plan) actualFieldName) ;;
         let records := records_of response in
         let chartDataArray := distribution actualFieldName records in
         objectLabel <- MetadataService.getObjectLabel env (objectType plan) ;;
         let fieldDisplayName := displayName fieldMeta in
         t <- get_now env ;;
         ctx_ (ContextService.updateLastQuery sessionId
                 (Some (analyze_record (objectType plan) objectLabel fieldMeta records t))) ;;;
         let rep :=
           Glyph.chart +:+ " **" +:+ objectLabel +:+ " by " +:+ fieldDisplayName +:+ "** ("
           +:+ Str.of_nat (length records) +:+ " records)" +:+ Str.nl +:+ Str.nl
           +:+ String.concat ""
                 (map (fun item =>
                         Glyph.bullet +:+ " **" +:+ label item +:+ ":** "
                         +:+ Str.of_nat (value item) +:+ " ("
                         +:+ percent env (value item) (length records) +:+ "%)" +:+ Str.nl)
                      (firstn 10 chartDataArray))
           +:+ (if (10 <? length chartDataArray)%nat
                then Str.nl +:+ "_...and " +:+ Str.of_nat (length chartDataArray - 10)
                     +:+ " more categories_"
                else "")
           +:+ Str.nl +:+ Str.nl +:+ Glyph.sparkles +:+ " Click on any value to see the records" in
         ret {| r_success := true; r_reply := rep;
                r_chartData :=
                  Some {| groupableFields := [actualFieldName];
                          cd_chartData := [(actualFieldName, chartDataArray)];
                          fieldMetadata :=
                            [(actualFieldName, (fieldDisplayName, dataType fieldMeta))];
                          drillDownEnabled := Some true;
                          cd_objectType := Some (objectType plan);
                          cd_groupByField := Some actualFieldName |} |})
        (fun _ =>
           let suggestions :=
             Str.join ", "
               (map (fun f => "`" +:+ apiName f +:+ "`")
                    (firstn 10 (svc_getGroupableFields env metadata))) in
           ret (failed (Glyph.cross +:+ " Could not query field " +:+ Str.dq
                        +:+ actualFieldName +:+ Str.dq +:+ "." +:+ Str.nl +:+ Str.nl
                        +:+ "**Try:** " +:+ suggestions)))
  end.

(** [body[k] = v] *)
Fixpoint jset (r : JRecord) (k : string) (v : JValue) : JRecord :=
  match r with
  | [] => [(k, v)]
  | (k', v') :: r' =>
      if String.eqb k' k then (k, v) :: r' else (k', v') :: jset r' k v
  end.

(** [/\/projects\/\d+/] *)
Definition re_project_id : re := Seq (lit "/projects/") (plus digit).

(** [/\/projects\/[^/]+\//] *)
Definition re_project_segment : re :=
  seqs [lit "/projects/"; plus (Chr (fun c => negb (is_char "/"%char c))); lit "/"].

(** [/(?:named?|called)\s+Q?([^Q]+?)Q?(?:\s+in|\s+for|$)/i], where [Q] is
    the class of the two quotation marks *)
Definition re_named : re :=
  seqs [ Alt (Seq (liti "name") (opt (liti "d"))) (liti "called");
         plus ws; opt (Chr Js.quote);
         Group 1 (plus_lazy (Chr (fun c => negb (Js.quote c))));
         opt (Chr Js.quote);
         alts [Seq (plus ws) (liti "in"); Seq (plus ws) (liti "for"); Eol] ].

(** [/^\/cust|^\/oba/] *)
Definition re_custom_endpoint : re :=
  Alt (Seq Bol (lit "/cust")) (Seq Bol (lit "/oba")).

Definition is_alnum (c : ascii) : bool :=
  is_digit c || is_lower c || Str.is_upper c.

(** The end of [executeCreate]: the name and the code of the body, the
    request and the reply. *)
Definition create_record (env : Env) (plan : APIPlan) (endpoint originalMessage : string)
  : M PlanResult :=
  let body0 := default [] (body plan) in
  let body1 :=
    if Js.truthy (jget body0 "name") then body0
    else match exec re_named originalMessage with
         | Some m =>
             match group m 1 with
             | Some name => jset body0 "name" (JStr (Str.trim name))
             | None => body0
             end
         | None => body0
         end in
  body2 <-
    (if negb (Js.truthy (jget body1 "code"))
        && (String.eqb endpoint "/projects" || test re_custom_endpoint endpoint)
     then
       match jget body1 "name" with
       | Some (JStr name) =>
           if Str.truthy name then
             t <- get_now env ;;
             ret (jset body1 "code"
                    (JStr (Str.toLowerCase
                             (Js.replace_chars (fun c => negb (is_alnum c)) "_" name)
                           +:+ "_" +:+ Str.of_Z t)))
           else ret body1
       | other =>
           if Js.truthy other then throw "name.replace is not a function"
           else ret body1
       end
     else ret body1) ;;
  result <- ClarityApiClient.post env endpoint body2 ;;
  objectLabel <- MetadataService.getObjectLabel env (objectType plan) ;;
  ret (done_ (Glyph.tick +:+ " **" +:+ objectLabel +:+ " Created!**" +:+ Str.nl +:+ Str.nl
              +:+ Glyph.bullet +:+ " **Name:** " +:+ jstring (jget body2 "name") +:+ Str.nl
              +:+ Glyph.bullet +:+ " **ID:** " +:+ jstring (_internalId result))).

Definition executeCreate (env : Env) (plan : APIPlan) (originalMessage : string)
  : M PlanResult :=
  let endpoint := endpoint plan in
  if Str.includes endpoint "/projects/" && negb (test re_project_id endpoint) then
    match extractProjectName originalMessage with
    | Some projectName =>
        if Str.truthy projectName then
          project <- findRecord env "projects" projectName ;;
          match project with
          | Some r =>
              create_record env plan
                (Js.replace_first re_project_segment
                   (fun _ => "/projects/" +:+ jstring (f_internalId r) +:+ "/") endpoint)
                originalMessage
          | None =>
              ret (failed (Glyph.cross +:+ " Could not find project " +:+ Str.dq
                           +:+ projectName +:+ Str.dq))
          end
        else create_record env plan endpoint originalMessage
    | None => create_record env plan endpoint originalMessage
    end
  else create_record env plan endpoint originalMessage.

Definition executeUpdate (env : Env) (plan : APIPlan) (originalMessage : string)
  : M PlanResult :=
  match extractRecordName originalMessage with
  | Some recordName =>
      if Str.truthy recordName then
        record <- findRecord env (objectType plan) recordName ;;
        match record with
        | Some r =>
            ClarityApiClient.patch env
              ("/" +:+ objectType plan +:+ "/" +:+ jstring (f_internalId r))
              (default [] (body plan)) ;;;
            objectLabel <- MetadataService.getObjectLabel env (objectType plan) ;;
            ret (done_ (Glyph.tick +:+ " **" +:+ objectLabel +:+ " Updated!**"
                        +:+ Str.nl +:+ Str.nl +:+ Glyph.bullet +:+ " **Record:** "
                        +:+ jstring (nullish (f_name r) (Some (JStr recordName)))))
        | None =>
            ret (failed (Glyph.cross +:+ " Could not find " +:+ objectType plan +:+ " "
                         +:+ Str.dq +:+ recordName +:+ Str.dq))
        end
      else ret (failed (Glyph.cross +:+ " Could not determine which record to update"))
  | None => ret (failed (Glyph.cross +:+ " Could not determine which record to update"))
  end.

Definition executeDelete (env : Env) (plan : APIPlan) (originalMessage : string)
  : M PlanResult :=
  match extractRecordName originalMessage with
  | Some recordName =>
      if Str.truthy recordName then
        record <- findRecord env (objectType plan) recordName ;;
        match record with
        | Some r =>
            ClarityApiClient.delete env
              ("/" +:+ objectType plan +:+ "/" +:+ jstring (f_internalId r)) ;;;
            objectLabel <- MetadataService.getObjectLabel env (objectType plan) ;;
            ret (done_ (Glyph.tick +:+ " **" +:+ objectLabel +:+ " Deleted!**"
                        +:+ Str.nl +:+ Str.nl +:+ Glyph.bullet +:+ " **ID:** "
                        +:+ jstring (f_internalId r)))
        | None =>
            ret (failed (Glyph.cross +:+ " Could not find " +:+ objectType plan +:+ " "
                         +:+ Str.dq +:+ recordName +:+ Str.dq))
        end
      else ret (failed (Glyph.cross +:+ " Could not determine which record to delete"))
  | None => ret (failed (Glyph.cross +:+ " Could not determine which record to delete"))
  end.

(** *** Help *)

Definition getHelpResponse (env : Env) (ts : Z) : M AIResponse :=
  customObjects <- MetadataService.getCustomObjects env ;;
  caps <- read (fun w => getCapabilities env (trace w)) ;;
  let n := length customObjects in
  let features :=
    (if hasProjects caps
     then [Glyph.bullet +:+ " " +:+ Str.dq +:+ "Show project distribution by status" +:+ Str.dq;
           Glyph.bullet +:+ " " +:+ Str.dq +:+ "List projects" +:+ Str.dq +:+ " / "
           +:+ Str.dq +:+ "How many projects?" +:+ Str.dq]
     else [])
    ++ (if hasTasks caps
        then [Glyph.bullet +:+ " " +:+ Str.dq +:+ "List tasks" +:+ Str.dq +:+ " / "
              +:+ Str.dq +:+ "Analyze tasks by priority" +:+ Str.dq]
        else [])
    ++ (if hasCustomObjects caps && (0 <? n)%nat
        then [Glyph.bullet +:+ " " +:+ Str.dq +:+ "List custom objects" +:+ Str.dq;
              Glyph.bullet +:+ " " +:+ Str.dq +:+ "Show "
              +:+ Str.or_else (option_map co_label (List.head customObjects)) "custom object"
              +:+ " data" +:+ Str.dq]
        else [])
    ++ [Glyph.bullet +:+ " " +:+ Str.dq +:+ "Give me a link to project X" +:+ Str.dq;
        Glyph.bullet +:+ " " +:+ Str.dq +:+ "Show me the active ones" +:+ Str.dq
        +:+ " (after a chart)"] in
  let objectsList :=
    (if hasProjects caps then ["projects"] else [])
    ++ (if hasTasks caps then ["tasks"] else [])
    ++ (if hasResources caps then ["resources"] else []) in
  let customList :=
    if (0 <? n)%nat then Str.join ", " (map co_label (firstn 5 customObjects))
    else "none detected" in
  ret (succeed
         (Glyph.robot +:+ " **Clarity AI Assistant**" +:+ Str.nl +:+ Str.nl
          +:+ "I understand natural language and remember our conversation!"
          +:+ Str.nl +:+ Str.nl
          +:+ "**Try:**" +:+ Str.nl
          +:+ Str.join Str.nl (firstn 6 features) +:+ Str.nl +:+ Str.nl
          +:+ "**Available:** " +:+ Str.join ", " objectsList
          +:+ (if hasCustomObjects caps
               then " + " +:+ Str.of_nat n +:+ " custom objects" else "")
          +:+ Str.nl
          +:+ (if (0 <? n)%nat
               then "**Custom Objects:** " +:+ customList +:+ "..." +:+ Str.nl +:+ Str.nl
               else Str.nl)
          +:+ Glyph.bulb +:+ " After viewing a chart, click bars to drill down!")
         ts None).

Definition executePlan (env : Env) (plan : APIPlan) (originalMessage sessionId : string)
  : M PlanResult :=
  if String.eqb (action plan) "help" then
    r <- getHelpResponse env 0 ;;
    ret {| r_success := success r; r_reply := reply r; r_chartData := chartData r |}
  else if String.eqb (action plan) "describe" then executeDescribe env plan
  else if String.eqb (action plan) "query" then
    executeQuery env plan originalMessage sessionId
  else if String.eqb (action plan) "analyze" then executeAnalyze env plan sessionId
  else if String.eqb (action plan) "create" then executeCreate env plan originalMessage
  else if String.eqb (action plan) "update" then executeUpdate env plan originalMessage
  else if String.eqb (action plan) "delete" then executeDelete env plan originalMessage
  else ret (failed (Glyph.cross +:+ " Unknown action: " +:+ action plan)).

(** *** The entry point *)

(** [/^(hi|hello|hey|help|...)[\s!.?]*$/i] *)
Definition re_greeting : re :=
  seqs [ Bol;
         Group 1 (alts [liti "hi"; liti "hello"; liti "hey"; liti "help";
                        liti Glyph.greeting_1; liti Glyph.greeting_2]);
         star (Chr (fun c => Str.is_space c || is_char "!"%char c
                             || is_char "."%char c || is_char "?"%char c));
         Eol ].

Definition is_link_request (lowerMessage : string) : bool :=
  Str.includes lowerMessage "link" && negb (Str.includes lowerMessage "create")
  && negb (Str.includes lowerMessage "new").

Definition is_custom_objects_query (lowerMessage : string) : bool :=
  Str.includes lowerMessage "custom object"
  && negb (Str.includes lowerMessage "create")
  && negb (Str.includes lowerMessage "new")
  && negb (Str.includes lowerMessage "add")
  && negb (Str.includes lowerMessage "describe")
  && negb (Str.includes lowerMessage "fields")
  && negb (Str.includes lowerMessage Glyph.kw_describe)
  && negb (Str.includes lowerMessage Glyph.kw_fields).

(** Step 3: the answer to a link request, when it succeeds. *)
Definition link_step (env : Env) (message sessionId : string) (ts : Z)
  : M (option AIResponse) :=
  if is_link_request (Str.toLowerCase message) then
    linkResult <- handleLinkRequest env sessionId ts (Some message) ;;
    if success linkResult then
      _ <- ctx (ContextService.getContext sessionId) ;;
      ctx_ (ContextService.addToHistory sessionId
              (turn ts assistant (reply linkResult) (Some "link") None (Some true))) ;;;
      ret (Some linkResult)
    else ret None
  else ret None.

(** Step 4: the answer to a follow-up on the last chart, if any. *)
Definition followup_step (env : Env) (message sessionId : string) (ts : Z)
  : M (option AIResponse) :=
  let followUp := detectFollowUpIntent message in
  match f_type followUp with
  | Some Intent.link | None => ret None
  | Some intentType =>
      can <- ctx (ContextService.canDrillDown sessionId) ;;
      if can
      then handleFollowUp env sessionId intentType (extractedValue followUp) message ts
      else ret None
  end.

(** Steps 5 to 7: the plan of the reasoning service and its execution. *)
Definition plan_step (env : Env) (message sessionId : string)
    (context : ConversationContext) (ts : Z) : M AIResponse :=
  plan <- getAIPlan env message context ;;
  result <- executePlan env plan message sessionId ;;
  _ <- ctx (ContextService.getContext sessionId) ;;
  t <- get_now env ;;
  ctx_ (ContextService.addToHistory sessionId
          (turn t assistant (Str.take 200 (r_reply result)) (Some (action plan))
                (Some (objectType plan)) (Some (r_success result)))) ;;;
  _ <- ctx (ContextService.getContextSummary sessionId) ;;
  ret {| success := r_success result; reply := r_reply result;
         chartData := r_chartData result; timestamp := ts; deepLink := None |}.

(** The [try] block of [handleMessage]. *)
Definition handleMessage_try (env : Env) (message sessionId : string) (ts : Z)
  : M AIResponse :=
  context <- ctx (ContextService.getContext sessionId) ;;
  ctx_ (ContextService.addToHistory sessionId (turn ts user message None None None)) ;;;
  discovered <- read discoveredObjects ;;
  (if (length discovered =? 0)%nat then discoverObjects env else ret tt) ;;;
  if test re_greeting (Str.trim message) then getHelpResponse env ts
  else
    linked <- link_step env message sessionId ts ;;
    match linked with
    | Some response => ret response
    | None =>
        followed <- followup_step env message sessionId ts ;;
        match followed with
        | Some response => ret response
        | None =>
            if is_custom_objects_query (Str.toLowerCase message)
            then handleCustomObjectsQuery env message ts
            else plan_step env message sessionId context ts
        end
    end.

Definition handleMessage (env : Env) (message sessionId : string) : M AIResponse :=
  ts <- get_now env ;;
  try_catch (handleMessage_try env message sessionId ts)
            (fun error => ret (getErrorResponse error ts sessionId)).

End AIChatHandler.

(** ** Scenarios

    Concrete environments and worlds, on which the model is run. *)

Module Scenario.
Import ContextService.

(** Minute [n] of a day in 2026, in milliseconds since the epoch. *)
Definition minute (n : Z) : Z := (1793000000000 + n * 60 * 1000)%Z.

Definition touched_at (sid : string) (t : Z) : ConversationContext :=
  set_history [{| t_timestamp := t; t_role := user; t_message := "hello";
                  t_action := None; t_objectType := None; t_success := None |}]
              (createNewContext sid).

Definition attr (api display : string) : AttributeMetadata :=
  {| apiName := api; displayName := display; dataType := "string";
     isRequired := false; isReadOnly := false; isLookup := false;
     lookupType := None |}.

(** A project schema with a name and a status. *)
Definition projects_schema : ObjectMetadata :=
  {| resourceName := "projects"; m_label := "Projects"; pluralLabel := "Projects";
     isCustom := false;
     attributes := [attr "name" "Name"; attr "status" "Status"] |}.

Definition no_plan : APIPlan :=
  {| action := ""; objectType := ""; method := ""; endpoint := ""; body := None;
     groupByField := None; filterField := None; filterValue := None;
     explanation := "" |}.

(** The plan that the reasoning service proposes in the scenarios: an
    analysis of the projects by a field of its choice. *)
Definition analyze_by (field : string) : APIPlan :=
  {| action := "analyze"; objectType := "projects"; method := "GET";
     endpoint := "/projects"; body := None; groupByField := Some field;
     filterField := None; filterValue := None;
     explanation := "distribution of projects" |}.

Definition status_record (s : string) : JRecord :=
  [("_internalId", JNum 1); ("status", JStr s)].

Definition ok_records (records : list JRecord) : FetchOutcome :=
  RespOk {| _results := Some records; _totalCount := None; _internalId := None |}.

(** An environment in which the remote API answers every request with
    [answer], the reasoning service replies [text], which parses to
    [plan], and the metadata service knows the project schema and no
    custom object. *)
Definition env_with (answer : FetchOutcome) (text : string) (plan : APIPlan) : Env :=
  {| baseUrl := "https://clarity.example/ppm/rest/v1";
     maxRetries := 3;
     fetch := fun _ _ _ _ => answer;
     now := fun tr => (minute 0 + Z.of_nat (length tr))%Z;
     messages_create := fun _ _ _ => Ok (Some text);
     JSON_parse := fun _ => Ok plan;
     svc_discoverAllObjects := fun _ => Ok ["projects"; "tasks"];
     svc_getCustomObjects := fun _ => Ok [];
     svc_getObjectMetadata := fun _ _ => Ok projects_schema;
     svc_getObjectLabel := fun _ _ => Ok "Projects";
     svc_getGroupableFields := fun m => attributes m;
     getCapabilities := fun _ =>
       {| hasProjects := true; hasTasks := true; hasResources := true;
          hasCustomObjects := false |};
     clarityBaseUrl := "https://clarity.example";
     encodeURIComponent := fun s => s;
     percent := fun _ _ => "0.0" |}.

(** The handler before its first message. *)
Definition fresh : World :=
  {| contexts := ∅; discoveredObjects := []; metadataCache := ∅; trace := [] |}.

(** A session after the analysis of three projects by their status. *)
Definition three_projects : list JRecord :=
  [status_record "Active"; status_record "Active"; status_record "Completed"].

Definition analysed : ConversationContext :=
  set_lastQuery
    (Some (AIChatHandler.analyze_record "projects" "Projects" (attr "status" "Status")
             three_projects (minute 1)))
    (createNewContext "s1").

Definition after_analysis : World :=
  {| contexts := {["s1" := analysed]}; discoveredObjects := ["projects"; "tasks"];
     metadataCache := {["projects" := projects_schema]}; trace := [] |}.

(** The remote API holds the three projects. *)
Definition env_three : Env :=
  env_with (ok_records three_projects) "{}" (analyze_by "priority").


Definition response_of {A} (o : Outcome (option A) * World) (d : A) : A :=
  match o.1 with Ok (Some r) => r | _ => d end.

(** The drill-down into "active" after the analysis of the three
    projects. *)
Definition drilled : Outcome (option AIResponse) * World :=
  AIChatHandler.handleDrillDown env_three "s1" (Some "active")
    "show me the active ones" (minute 2) after_analysis.

Definition value_of {A} (o : Outcome A * World) (d : A) : A :=
  match o.1 with Ok r => r | _ => d end.







(** A server error whose text holds the digits 401. *)
Definition server_error : FetchOutcome := RespStatus 500 "upstream 4012 unavailable".

(** An environment whose remote API is down, every request throws,
    while the metadata service knows one custom object. *)
Definition risk_register : CustomObject :=
  {| co_label := "Risk Register"; co_resourceName := "custRisk" |}.

Definition env_down : Env :=
  {| baseUrl := "https://clarity.example/ppm/rest/v1";
     maxRetries := 3;
     fetch := fun _ _ _ _ => FetchThrows "connect ECONNREFUSED";
     now := fun tr => (minute 0 + Z.of_nat (length tr))%Z;
     messages_create := fun _ _ _ => Ok (Some "{}");
     JSON_parse := fun _ => Ok no_plan;
     svc_discoverAllObjects := fun _ => Ok ["projects"; "tasks"];
     svc_getCustomObjects := fun _ => Ok [risk_register];
     svc_getObjectMetadata := fun _ _ => Ok projects_schema;
     svc_getObjectLabel := fun _ _ => Ok "Projects";
     svc_getGroupableFields := fun m => attributes m;
     getCapabilities := fun _ =>
       {| hasProjects := true; hasTasks := true; hasResources := true;
          hasCustomObjects := true |};
     clarityBaseUrl := "https://clarity.example";
     encodeURIComponent := fun s => s;
     percent := fun _ _ => "0.0" |}.

(** The question about the custom objects with the most records, as
    the first message of a session. *)
Definition top_outcome : Outcome AIResponse * World :=
  AIChatHandler.handleMessage env_down "top custom objects" "s1" fresh.

End Scenario.

(** ** ToolRegistry (tools/ToolRegistry.ts)

    The registry of the sessions and their permissions, and the table
    of the tools. The clock is read where the code reads it: a method
    that calls [Date.now()] or [new Date()] takes the time [now]. *)

Module ToolRegistry.

Inductive Permission :=
| P_read | P_write | P_delete | P_analyze | P_export | P_admin
| P_custom_objects | P_projects | P_tasks | P_resources | P_financials.

#[global] Instance Permission_eq_dec : EqDecision Permission.
Proof. solve_decision. Defined.

(** [perms.includes(p)] *)
Definition includes (perms : list Permission) (p : Permission) : bool :=
  existsb (fun q => bool_decide (q = p)) perms.

Record ToolParameter := {
  p_name : string;
  p_type : string;
  p_required : bool;
  p_description : string;
  p_default : option string
}.

(** The capability flags, set by [validateCapabilities]. *)
Record ClarityCapabilities := {
  canRead : bool;
  canWrite : bool;
  canDelete : bool;
  hasProjects : bool;
  hasTasks : bool;
  hasResources : bool;
  hasCustomObjects : bool;
  customObjectCodes : list JValue;
  apiVersion : string;
  validatedAt : Z
}.

(** A tool; [isAvailable] reads the capability flags of the module. *)
Record ToolDefinition := {
  id : string;
  name : string;
  description : string;
  icon : string;
  category : string;
  requiredPermissions : list Permission;
  parameters : option (list ToolParameter);
  examples : option (list string);
  isAvailable : option (ClarityCapabilities -> bool)
}.

(** The flags before the first validation. *)
Definition initial_capabilities : ClarityCapabilities :=
  {| canRead := false; canWrite := false; canDelete := false;
     hasProjects := false; hasTasks := false; hasResources := false;
     hasCustomObjects := false; customObjectCodes := [];
     apiVersion := "unknown"; validatedAt := 0 |}.

Definition ALL_TOOLS : list ToolDefinition :=
  [
  {| id := "list_records"; name := "List Records";
     description := "List records from any object with optional filters";
     icon := "📋"; category := "query";
     requiredPermissions := [P_read];
     parameters := Some
       [ {| p_name := "object"; p_type := "string"; p_required := true;
            p_description := "Object type to query"; p_default := None |};
         {| p_name := "limit"; p_type := "number"; p_required := false;
            p_description := "Max records to return"; p_default := Some "20" |};
         {| p_name := "filter"; p_type := "string"; p_required := false;
            p_description := "Filter expression"; p_default := None |} ];
     examples := Some ["list projects"; "show all tasks"; "list custom object Y"];
     isAvailable := Some canRead |};
  {| id := "count_records"; name := "Count Records";
     description := "Count records in an object";
     icon := "🔢"; category := "query";
     requiredPermissions := [P_read];
     parameters := Some
       [ {| p_name := "object"; p_type := "string"; p_required := true;
            p_description := "Object type to count"; p_default := None |} ];
     examples := Some ["how many projects"; "count tasks"];
     isAvailable := Some canRead |};
  {| id := "get_record"; name := "Get Record Details";
     description := "Get details of a specific record";
     icon := "🔍"; category := "query";
     requiredPermissions := [P_read];
     parameters := Some
       [ {| p_name := "object"; p_type := "string"; p_required := true;
            p_description := "Object type"; p_default := None |};
         {| p_name := "id"; p_type := "string"; p_required := true;
            p_description := "Record ID or code"; p_default := None |} ];
     examples := Some ["show project X details"; "get task ABC info"];
     isAvailable := Some canRead |};
  {| id := "create_chart"; name := "Create Chart";
     description := "Create distribution chart grouped by a field";
     icon := "📊"; category := "analyze";
     requiredPermissions := [P_read; P_analyze];
     parameters := Some
       [ {| p_name := "object"; p_type := "string"; p_required := true;
            p_description := "Object type to analyze"; p_default := None |};
         {| p_name := "groupBy"; p_type := "string"; p_required := true;
            p_description := "Field to group by"; p_default := None |} ];
     examples := Some ["show project distribution by status"; "chart tasks by priority"];
     isAvailable := Some canRead |};
  {| id := "drill_down"; name := "Drill Down";
     description := "Show records matching a specific value from a chart";
     icon := "🔎"; category := "analyze";
     requiredPermissions := [P_read; P_analyze];
     parameters := Some
       [ {| p_name := "value"; p_type := "string"; p_required := true;
            p_description := "Value to filter by"; p_default := None |} ];
     examples := Some ["show me the active ones"; "drill down to completed"];
     isAvailable := Some canRead |};
  {| id := "get_deep_link"; name := "Get Deep Link";
     description := "Get a direct link to Clarity";
     icon := "🔗"; category := "query";
     requiredPermissions := [P_read];
     parameters := None;
     examples := Some ["give me a link"; "open in clarity"; "link to project X"];
     isAvailable := Some canRead |};
  {| id := "create_record"; name := "Create Record";
     description := "Create a new record in an object";
     icon := "➕"; category := "create";
     requiredPermissions := [P_write];
     parameters := Some
       [ {| p_name := "object"; p_type := "string"; p_required := true;
            p_description := "Object type"; p_default := None |};
         {| p_name := "name"; p_type := "string"; p_required := true;
            p_description := "Record name"; p_default := None |} ];
     examples := Some ["create project called X"; "add task Y"];
     isAvailable := Some canWrite |};
  {| id := "update_record"; name := "Update Record";
     description := "Update an existing record";
     icon := "✏️"; category := "update";
     requiredPermissions := [P_write];
     parameters := Some
       [ {| p_name := "object"; p_type := "string"; p_required := true;
            p_description := "Object type"; p_default := None |};
         {| p_name := "id"; p_type := "string"; p_required := true;
            p_description := "Record ID or code"; p_default := None |} ];
     examples := Some ["update project X status"; "change task Y priority"];
     isAvailable := Some canWrite |};
  {| id := "delete_record"; name := "Delete Record";
     description := "Delete a record";
     icon := "🗑️"; category := "delete";
     requiredPermissions := [P_delete];
     parameters := Some
       [ {| p_name := "object"; p_type := "string"; p_required := true;
            p_description := "Object type"; p_default := None |};
         {| p_name := "id"; p_type := "string"; p_required := true;
            p_description := "Record ID or code"; p_default := None |} ];
     examples := Some ["delete project X"; "remove task Y"];
     isAvailable := Some canDelete |};
  {| id := "export_data"; name := "Export Data";
     description := "Export data to various formats";
     icon := "📥"; category := "export";
     requiredPermissions := [P_read; P_export];
     parameters := None;
     examples := Some ["export to excel"; "download as CSV"];
     isAvailable := Some canRead |};
  {| id := "list_objects"; name := "List Objects";
     description := "List all available objects and custom objects";
     icon := "📦"; category := "admin";
     requiredPermissions := [P_read];
     parameters := None;
     examples := Some ["list custom objects"; "show available objects"];
     isAvailable := Some canRead |};
  {| id := "describe_object"; name := "Describe Object";
     description := "Show object metadata and fields";
     icon := "📋"; category := "admin";
     requiredPermissions := [P_read];
     parameters := Some
       [ {| p_name := "object"; p_type := "string"; p_required := true;
            p_description := "Object type to describe"; p_default := None |} ];
     examples := Some ["describe projects"; "what fields does X have"];
     isAvailable := Some canRead |}
  ].

Definition PERMISSION_PRESETS : list (string * list Permission) :=
  [ ("readonly", [P_read]);
    ("analyst", [P_read; P_analyze; P_export]);
    ("editor", [P_read; P_analyze; P_write]);
    ("manager", [P_read; P_analyze; P_write; P_export; P_custom_objects;
                 P_projects; P_tasks]);
    ("admin", [P_read; P_analyze; P_write; P_delete; P_export; P_admin;
               P_custom_objects; P_projects; P_tasks; P_resources; P_financials]) ].

(** The permissions of a session; [permissions] is [None] when the
    session was registered with [undefined] for them. *)
Record SessionPermissions := {
  sessionId : string;
  userId : option string;
  permissions : option (list Permission);
  allowedObjects : option (list string);
  deniedObjects : option (list string);
  createdAt : Z;
  expiresAt : option Z
}.

(** The state of the module: the sessions of the registry and the
    capability flags. *)
Record Registry := {
  sessionPermissions : gmap string SessionPermissions;
  clarityCapabilities : ClarityCapabilities
}.

Definition set_sessions (m : gmap string SessionPermissions) (reg : Registry) : Registry :=
  {| sessionPermissions := m; clarityCapabilities := clarityCapabilities reg |}.

Definition set_capabilities (caps : ClarityCapabilities) (reg : Registry) : Registry :=
  {| sessionPermissions := sessionPermissions reg; clarityCapabilities := caps |}.

(** The registry when the module is loaded. *)
Definition initial : Registry :=
  {| sessionPermissions := ∅; clarityCapabilities := initial_capabilities |}.

(** One test of [validateCapabilities]: whether the request succeeds. *)
Definition probe (env : Env) (endpoint : string) : M (option ApiResponse) :=
  try_catch (response <- ClarityApiClient.get env endpoint ;; ret (Some response))
            (fun _ => ret None).

(** The four tests and the flags they come to, which are stored in the
    module and returned. [now] is the time at the start. *)
Definition validateCapabilities (env : Env) (now : Z) (reg : Registry)
  : M (ClarityCapabilities * Registry) :=
  projects <- probe env "/projects?fields=_internalId&limit=1" ;;
  tasks <- probe env "/tasks?fields=_internalId&limit=1" ;;
  resources <- probe env "/resources?fields=_internalId&limit=1" ;;
  custom <- probe env "/customObjectMetadata" ;;
  let objects :=
    match custom with
    | Some response => default [] (_results response)
    | None => []
    end in
  let canRead := bool_decide (is_Some projects) in
  let capabilities :=
    {| canRead := canRead;
       canWrite := canRead;
       canDelete := canRead;
       hasProjects := bool_decide (is_Some projects);
       hasTasks := bool_decide (is_Some tasks);
       hasResources := bool_decide (is_Some resources);
       hasCustomObjects :=
         match custom with Some _ => (0 <? length objects)%nat | None => false end;
       customObjectCodes :=
         omap (fun o => if Js.truthy (jget o "resourceName")
                        then jget o "resourceName" else None)
              objects;
       apiVersion := "unknown";
       validatedAt := now |} in
  ret (capabilities, set_capabilities capabilities reg).

Definition getCapabilities (reg : Registry) : ClarityCapabilities :=
  clarityCapabilities reg.

(** Older than ten minutes. *)
Definition needsRefresh (now : Z) (reg : Registry) : bool :=
  (10 * 60 * 1000 <? now - validatedAt (clarityCapabilities reg))%Z.

(** The first argument of [registerSession]: a list of permissions,
    the name of a preset, or [undefined]. *)
Inductive Grant :=
| GrantList (perms : list Permission)
| GrantPreset (name : string)
| GrantUndefined.

Record Options := {
  o_userId : option string;
  o_allowedObjects : option (list string);
  o_deniedObjects : option (list string);
  o_expiresInMinutes : option Z
}.

Definition perms_of (g : Grant) : option (list Permission) :=
  match g with
  | GrantList perms => Some perms
  | GrantPreset name => Some (default [P_read] (assoc PERMISSION_PRESETS name))
  | GrantUndefined => None
  end.

(** [options?.expiresInMinutes ? new Date(Date.now() + ...) : undefined]:
    zero minutes are no expiry. *)
Definition expiry_of (now : Z) (minutes : option Z) : option Z :=
  match minutes with
  | Some m => if (m =? 0)%Z then None else Some (now + m * 60 * 1000)%Z
  | None => None
  end.

(** The session is stored before the line of the log is built, which
    throws when the permissions are [undefined]. *)
Definition registerSession (sid : string) (g : Grant) (options : option Options)
    (now : Z) (reg : Registry) : Outcome SessionPermissions * Registry :=
  let session :=
    {| sessionId := sid;
       userId := options ≫= o_userId;
       permissions := perms_of g;
       allowedObjects := options ≫= o_allowedObjects;
       deniedObjects := options ≫= o_deniedObjects;
       createdAt := now;
       expiresAt := expiry_of now (options ≫= o_expiresInMinutes) |} in
  let reg' := set_sessions (<[sid := session]> (sessionPermissions reg)) reg in
  match perms_of g with
  | Some _ => (Ok session, reg')
  | None => (Throw "Cannot read properties of undefined (reading 'join')", reg')
  end.

(** An expired session is deleted when it is looked up. *)
Definition getSessionPermissions (sid : string) (now : Z) (reg : Registry)
  : option SessionPermissions * Registry :=
  match sessionPermissions reg !! sid with
  | None => (None, reg)
  | Some session =>
      match expiresAt session with
      | Some t =>
          if (t <? now)%Z
          then (None, set_sessions (delete sid (sessionPermissions reg)) reg)
          else (Some session, reg)
      | None => (Some session, reg)
      end
  end.

(** [session?.permissions ?? ['read']] *)
Definition effective (session : option SessionPermissions) : list Permission :=
  default [P_read] (session ≫= permissions).

Definition usable (caps : ClarityCapabilities) (perms : list Permission)
    (tool : ToolDefinition) : bool :=
  if negb (forallb (includes perms) (requiredPermissions tool)) then false
  else match isAvailable tool with
       | Some available => if negb (available caps) then false else true
       | None => true
       end.

Definition getAvailableTools (sid : string) (now : Z) (reg : Registry)
  : list ToolDefinition * Registry :=
  let '(session, reg') := getSessionPermissions sid now reg in
  (List.filter (usable (clarityCapabilities reg') (effective session)) ALL_TOOLS, reg').

Definition canUseTool (sid toolId : string) (now : Z) (reg : Registry)
  : bool * Registry :=
  let '(availableTools, reg') := getAvailableTools sid now reg in
  (existsb (fun t => String.eqb (id t) toolId) availableTools, reg').

Definition canAccessObject (sid objectType : string) (now : Z) (reg : Registry)
  : bool * Registry :=
  let '(session, reg') := getSessionPermissions sid now reg in
  (match session with
   | None => true
   | Some s =>
       if match deniedObjects s with
          | Some denied => existsb (String.eqb objectType) denied
          | None => false
          end
       then false
       else match allowedObjects s with
            | Some ((_ :: _) as allowed) => existsb (String.eqb objectType) allowed
            | _ => true
            end
   end, reg').

Definition set_permissions (perms : list Permission) (s : SessionPermissions) :=
  {| sessionId := sessionId s; userId := userId s; permissions := Some perms;
     allowedObjects := allowedObjects s; deniedObjects := deniedObjects s;
     createdAt := createdAt s; expiresAt := expiresAt s |}.

(** Reads the map itself: an expired session is updated too. *)
Definition updateSessionPermissions (sid : string) (perms : list Permission)
    (reg : Registry) : bool * Registry :=
  match sessionPermissions reg !! sid with
  | None => (false, reg)
  | Some session =>
      (true, set_sessions (<[sid := set_permissions perms session]>
                             (sessionPermissions reg)) reg)
  end.

(** [Map.prototype.delete]: whether the session was there. *)
Definition removeSession (sid : string) (reg : Registry) : bool * Registry :=
  (bool_decide (is_Some (sessionPermissions reg !! sid)),
   set_sessions (delete sid (sessionPermissions reg)) reg).

(** The tools of each category, the categories in the order of their
    first tool. *)
Fixpoint push_tool (tool : ToolDefinition) (grouped : list (string * list ToolDefinition))
  : list (string * list ToolDefinition) :=
  match grouped with
  | [] => [(category tool, [tool])]
  | (c, ts) :: rest =>
      if String.eqb c (category tool) then (c, ts ++ [tool]) :: rest
      else (c, ts) :: push_tool tool rest
  end.

Definition getToolsByCategory (sid : string) (now : Z) (reg : Registry)
  : list (string * list ToolDefinition) * Registry :=
  let '(tools, reg') := getAvailableTools sid now reg in
  (fold_left (fun grouped tool => push_tool tool grouped) tools [], reg').

(** The answer of [formatToolsForClient]. *)
Record ClientTool := {
  ct_id : string;
  ct_name : string;
  ct_description : string;
  ct_icon : string;
  ct_category : string;
  ct_examples : list string
}.

Record ClientCapabilities := {
  cc_hasProjects : bool;
  cc_hasTasks : bool;
  cc_hasResources : bool;
  cc_hasCustomObjects : bool;
  cc_customObjectCount : nat;
  cc_validatedAt : Z
}.

Record ClientTools := {
  tools : list ClientTool;
  ct_permissions : list Permission;
  categories : list string;
  capabilities : ClientCapabilities
}.

(** [[...new Set(l)]]: the first occurrence of each element. *)
Fixpoint unique (l : list string) (seen : list string) : list string :=
  match l with
  | [] => []
  | x :: l' =>
      if existsb (String.eqb x) seen then unique l' seen
      else x :: unique l' (x :: seen)
  end.

Definition formatToolsForClient (sid : string) (now : Z) (reg : Registry)
  : ClientTools * Registry :=
  let '(session, reg1) := getSessionPermissions sid now reg in
  let '(available, reg2) := getAvailableTools sid now reg1 in
  let caps := clarityCapabilities reg2 in
  ({| tools :=
        map (fun t => {| ct_id := id t; ct_name := name t;
                         ct_description := description t; ct_icon := icon t;
                         ct_category := category t;
                         ct_examples := default [] (examples t) |})
            available;
      ct_permissions := effective session;
      categories := unique (map category available) [];
      capabilities :=
        {| cc_hasProjects := hasProjects caps; cc_hasTasks := hasTasks caps;
           cc_hasResources := hasResources caps;
           cc_hasCustomObjects := hasCustomObjects caps;
           cc_customObjectCount := length (customObjectCodes caps);
           cc_validatedAt := validatedAt caps |} |},
   reg2).

End ToolRegistry.

(** ** SessionManager (tools/SessionManager.ts) *)

Module SessionManager.
Import ToolRegistry.

Record SessionConfig := {
  c_sessionId : string;
  c_userId : option string;
  c_username : option string;
  c_role : option string;
  c_permissions : option (list Permission);
  c_allowedObjects : option (list string);
  c_deniedObjects : option (list string);
  c_metadata : option JRecord;
  c_expiresInMinutes : option Z
}.

Record SessionInfo := {
  i_sessionId : string;
  i_userId : option string;
  i_username : option string;
  i_permissions : option (list Permission);
  i_allowedTools : list string;
  i_createdAt : Z;
  i_expiresAt : option Z
}.

(** [{ ...config.metadata, username: config.username }] *)
Record Metadata := {
  members : JRecord;
  username : option string
}.

(** The state of the manager and of the registry it shares. *)
Record Manager := {
  sessionMetadata : gmap string Metadata;
  registry : Registry
}.

Definition initial : Manager :=
  {| sessionMetadata := ∅; registry := ToolRegistry.initial |}.

Definition with_registry (reg : Registry) (mgr : Manager) : Manager :=
  {| sessionMetadata := sessionMetadata mgr; registry := reg |}.

(** [config.permissions ?? (config.role ? PERMISSION_PRESETS[config.role]
    : ['read'])]; a role that is no key of the table gives [undefined]. *)
Definition grant_of (config : SessionConfig) : Grant :=
  match c_permissions config with
  | Some perms => GrantList perms
  | None =>
      if Str.otruthy (c_role config)
      then match assoc PERMISSION_PRESETS (default "" (c_role config)) with
           | Some perms => GrantList perms
           | None => GrantUndefined
           end
      else GrantList [P_read]
  end.

Definition createSession (config : SessionConfig) (now : Z) (mgr : Manager)
  : Outcome SessionInfo * Manager :=
  let sid := c_sessionId config in
  let '(registered, reg1) :=
    registerSession sid (grant_of config)
      (Some {| o_userId := c_userId config;
               o_allowedObjects := c_allowedObjects config;
               o_deniedObjects := c_deniedObjects config;
               o_expiresInMinutes := Some (default 60%Z (c_expiresInMinutes config)) |})
      now (registry mgr) in
  match registered with
  | Throw e => (Throw e, with_registry reg1 mgr)
  | Ok session =>
      let metadata :=
        match c_metadata config with
        | Some m => <[sid := {| members := m; username := c_username config |}]>
                      (sessionMetadata mgr)
        | None => sessionMetadata mgr
        end in
      let '(available, reg2) := getAvailableTools sid now reg1 in
      (Ok {| i_sessionId := sid;
             i_userId := c_userId config;
             i_username := c_username config;
             i_permissions := permissions session;
             i_allowedTools := map id available;
             i_createdAt := createdAt session;
             i_expiresAt := expiresAt session |},
       {| sessionMetadata := metadata; registry := reg2 |})
  end.

Record ClarityUser := {
  u_username : string;
  u_userId : string;
  u_groups : option (list string);
  u_isAdmin : option bool
}.

(** [groups?.some(g => g.toLowerCase().includes(word))] *)
Definition in_group (user : ClarityUser) (word : string) : bool :=
  match u_groups user with
  | Some groups => existsb (fun g => Str.includes (Str.toLowerCase g) word) groups
  | None => false
  end.

Definition role_of (user : ClarityUser) : string :=
  if default false (u_isAdmin user) then "admin"
  else if in_group user "manager" then "manager"
  else if in_group user "editor" then "editor"
  else if in_group user "analyst" then "analyst"
  else "readonly".

(** The metadata of the session has the one member [clarityGroups], an
    array that nothing reads; it is left out. *)
Definition createSessionFromClarityUser (sid : string) (user : ClarityUser) (now : Z)
    (mgr : Manager) : Outcome SessionInfo * Manager :=
  createSession
    {| c_sessionId := sid;
       c_userId := Some (u_userId user);
       c_username := Some (u_username user);
       c_role := Some (role_of user);
       c_permissions := None;
       c_allowedObjects := None;
       c_deniedObjects := None;
       c_metadata := Some [];
       c_expiresInMinutes := None |}
    now mgr.

Definition getSession (sid : string) (now : Z) (mgr : Manager)
  : option SessionInfo * Manager :=
  let '(found, reg1) := getSessionPermissions sid now (registry mgr) in
  match found with
  | None => (None, with_registry reg1 mgr)
  | Some session =>
      let '(available, reg2) := getAvailableTools sid now reg1 in
      (Some {| i_sessionId := sid;
               i_userId := userId session;
               i_username := sessionMetadata mgr !! sid ≫= username;
               i_permissions := permissions session;
               i_allowedTools := map id available;
               i_createdAt := createdAt session;
               i_expiresAt := expiresAt session |},
       with_registry reg2 mgr)
  end.

Record Access := { allowed : bool; reason : option string }.

Definition validateToolAccess (sid toolId : string) (now : Z) (mgr : Manager)
  : Access * Manager :=
  let '(session, reg1) := getSessionPermissions sid now (registry mgr) in
  match session with
  | None =>
      ({| allowed := false; reason := Some "Session not found or expired" |},
       with_registry reg1 mgr)
  | Some _ =>
      let '(can, reg2) := canUseTool sid toolId now reg1 in
      (if can then {| allowed := true; reason := None |}
       else {| allowed := false;
               reason := Some ("Insufficient permissions for tool: " +:+ toolId) |},
       with_registry reg2 mgr)
  end.

Definition validateObjectAccess (sid objectType : string) (now : Z) (mgr : Manager)
  : Access * Manager :=
  let '(can, reg1) := canAccessObject sid objectType now (registry mgr) in
  (if can then {| allowed := true; reason := None |}
   else {| allowed := false;
           reason := Some ("Access denied to object: " +:+ objectType) |},
   with_registry reg1 mgr).

Definition endSession (sid : string) (mgr : Manager) : bool * Manager :=
  let '(removed, reg1) := removeSession sid (registry mgr) in
  (removed, {| sessionMetadata := delete sid (sessionMetadata mgr); registry := reg1 |}).

Definition refreshSession (sid : string) (extendMinutes : Z) (now : Z) (mgr : Manager)
  : Outcome (option SessionInfo) * Manager :=
  let '(current, mgr1) := getSession sid now mgr in
  match current with
  | None => (Ok None, mgr1)
  | Some info =>
      let '(created, mgr2) :=
        createSession
          {| c_sessionId := sid;
             c_userId := i_userId info;
             c_username := i_username info;
             c_role := None;
             c_permissions := i_permissions info;
             c_allowedObjects := None;
             c_deniedObjects := None;
             c_metadata := None;
             c_expiresInMinutes := Some extendMinutes |}
          now mgr1 in
      (match created with Ok i => Ok (Some i) | Throw e => Throw e end, mgr2)
  end.

End SessionManager.

(** ** SuggestionService (services/SuggestionService.ts) *)

Module SuggestionService.

Record Suggestion := {
  text : string;
  emoji : string;
  action : string;
  priority : Z
}.

Definition suggestion (t e a : string) (p : Z) : Suggestion :=
  {| text := t; emoji := e; action := a; priority := p |}.

(** [chartValues[i]?.label], when it is not empty. *)
Definition label_at (chartValues : list ChartItem) (i : nat) : option string :=
  match nth_error chartValues i with
  | Some item => if Str.truthy (label item) then Some (label item) else None
  | None => None
  end.

Definition drill (value : string) (p : Z) : Suggestion :=
  suggestion ("Show me the " +:+ Str.dq +:+ value +:+ Str.dq +:+ " ones") "🔍"
             "drilldown" p.

Definition getAnalyzeSuggestions (context : ConversationContext) : list Suggestion :=
  (match lastQuery context with
   | Some q =>
       match q_chartData q, q_groupByField q with
       | Some chartData, Some groupByField =>
           if Str.truthy groupByField then
             (match assoc chartData groupByField with
              | Some ((_ :: _) as chartValues) =>
                  (match label_at chartValues 0 with
                   | Some topValue => [drill topValue 100]
                   | None => []
                   end)
                  ++ (match label_at chartValues 1 with
                      | Some secondValue => [drill secondValue 90]
                      | None => []
                      end)
              | _ => []
              end)
             ++ [suggestion "Group by a different field" "📊" "analyze" 70]
           else []
       | _, _ => []
       end
   | None => []
   end)
  ++ [ suggestion "Export to Excel" "📥" "export" 60;
       suggestion "Get a link to this view" "🔗" "link" 50 ].

Definition getQuerySuggestions (context : ConversationContext) : list Suggestion :=
  match lastQuery context with
  | Some q =>
      if Str.truthy (q_objectType q) then
        [ suggestion "Show distribution by status" "📊" "analyze" 100;
          suggestion "How many total?" "🔢" "count" 80;
          suggestion "Filter by specific criteria" "🔍" "filter" 70;
          suggestion ("Create a new "
                      +:+ (let singular := Js.drop_last (q_objectLabel q) in
                           if Str.truthy singular then singular else "record"))
                     "➕" "create" 50 ]
      else []
  | None => []
  end.

(** [lastQuery?.objectLabel || 'records'] *)
Definition label_or_records (context : ConversationContext) : string :=
  match lastQuery context with
  | Some q => if Str.truthy (q_objectLabel q) then q_objectLabel q else "records"
  | None => "records"
  end.

Definition getCreateSuggestions (context : ConversationContext) : list Suggestion :=
  [ suggestion "Create another one" "➕" "create" 100;
    suggestion ("List all " +:+ label_or_records context) "📋" "query" 80;
    suggestion "Show distribution" "📊" "analyze" 60 ].

Definition getModifySuggestions (context : ConversationContext) : list Suggestion :=
  [ suggestion ("List all " +:+ label_or_records context) "📋" "query" 100;
    suggestion "Show distribution" "📊" "analyze" 80;
    suggestion "Create a new one" "➕" "create" 60 ].

Definition getDefaultSuggestions (context : ConversationContext) : list Suggestion :=
  [ suggestion "Show project distribution by status" "📊" "analyze" 100;
    suggestion "List all projects" "📋" "query" 80;
    suggestion "How many tasks in the system?" "🔢" "count" 60;
    suggestion "List custom objects" "📦" "describe" 40 ].

(** The suggestions of the action, before they are sorted and cut. *)
Definition candidates (context : ConversationContext) (action : string)
  : list Suggestion :=
  if String.eqb action "analyze" then getAnalyzeSuggestions context
  else if String.eqb action "query" then getQuerySuggestions context
  else if String.eqb action "create" then getCreateSuggestions context
  else if String.eqb action "update" || String.eqb action "delete"
  then getModifySuggestions context
  else getDefaultSuggestions context.

Definition generateSuggestions (context : ConversationContext) (action : string)
    (maxSuggestions : nat) : list Suggestion :=
  firstn maxSuggestions (Js.sort_desc priority (candidates context action)).

(** The default of [maxSuggestions]. *)
Definition DEFAULT_MAX : nat := 4.

Definition formatSuggestionsForChat (suggestions : list Suggestion) : string :=
  match suggestions with
  | [] => ""
  | _ =>
      Str.nl +:+ Str.nl +:+ "💡 **Try asking:**" +:+ Str.nl
      +:+ String.concat ""
            (map (fun s => emoji s +:+ " " +:+ Str.dq +:+ text s +:+ Str.dq +:+ Str.nl)
                 suggestions)
  end.

Record Button := { b_label : string; b_value : string }.

Definition formatSuggestionsAsButtons (suggestions : list Suggestion) : list Button :=
  map (fun s => {| b_label := emoji s +:+ " " +:+ text s; b_value := text s |})
      suggestions.

End SuggestionService.

(** ** LookupService (services/LookupService.ts) *)

Module LookupService.

Record LookupValue := {
  code : string;
  displayValue : string
}.

(** The two maps of the service. *)
Record Cache := {
  lookupCache : gmap string (list LookupValue);
  lookupTimestamps : gmap string Z
}.

Definition empty_cache : Cache := {| lookupCache := ∅; lookupTimestamps := ∅ |}.

(** [CACHE_TTL.LOOKUPS]: one hour. *)
Definition CACHE_TTL_LOOKUPS : Z := 60 * 60 * 1000.

Definition to_value (item : JRecord) : LookupValue :=
  {| code :=
       jstring (nullish (jget item "code")
                  (nullish (jget item "_internalId") (Some (JStr ""))));
     displayValue :=
       jstring (nullish (jget item "displayValue")
                  (nullish (jget item "name")
                     (nullish (jget item "code") (Some (JStr ""))))) |}.

Definition fresh_at (now : Z) (lookupType : string) (cache : Cache) : bool :=
  bool_decide (is_Some (lookupCache cache !! lookupType))
  && (now - default 0%Z (lookupTimestamps cache !! lookupType) <? CACHE_TTL_LOOKUPS)%Z.

(** [now] is the time at the start of the call. *)
Definition getLookupValues (env : Env) (lookupType : string) (now : Z) (cache : Cache)
  : M (list LookupValue * Cache) :=
  if fresh_at now lookupType cache
  then ret (default [] (lookupCache cache !! lookupType), cache)
  else
    try_catch
      (response <- ClarityApiClient.get env
         ("/" +:+ lookupType +:+ "?fields=code,displayValue,name&limit=500") ;;
       let values := map to_value (AIChatHandler.records_of response) in
       ret (values,
            {| lookupCache := <[lookupType := values]> (lookupCache cache);
               lookupTimestamps := <[lookupType := now]> (lookupTimestamps cache) |}))
      (fun _ => ret ([], cache)).



Definition clearCache (cache : Cache) : Cache := empty_cache.

End LookupService.

(** ** MetadataService (services/MetadataService.ts): the discovery

    The handler is modelled against the service as an oracle; this is
    the discovery of the service itself, over the API client. *)

Module MetadataServiceImpl.

(** [CACHE_TTL.DISCOVERED_OBJECTS]: one hour. *)
Definition CACHE_TTL_DISCOVERED_OBJECTS : Z := 60 * 60 * 1000.

(** [STANDARD_OBJECTS] of constants.ts. *)
Definition STANDARD_OBJECTS : list string :=
  [ "projects"; "tasks"; "resources"; "ideas"; "risks"; "issues"; "timesheets";
    "assignments"; "investments"; "costPlans"; "benefitPlans"; "budgetPlans" ].

(** The equality of the keys of a [Map] and of the members of a [Set]
    and of [Array.prototype.includes]: primitives by value; an object
    of a parsed response is equal to no other value. *)
Definition same_value (a b : JValue) : bool :=
  match a, b with
  | JNull, JNull => true
  | JBool x, JBool y => Bool.eqb x y
  | JNum x, JNum y => (x =? y)%Z
  | JStr x, JStr y => String.eqb x y
  | _, _ => false
  end.

(** [set.add(x)], in the order of insertion. *)
Definition set_add (x : JValue) (names : list JValue) : list JValue :=
  if existsb (same_value x) names then names else names ++ [x].

(** [map.set(k, v)], in the order of insertion: a key that is there
    keeps its place. *)
Fixpoint map_set {K V} (eq : K -> K -> bool) (k : K) (v : V) (m : list (K * V))
  : list (K * V) :=
  match m with
  | [] => [(k, v)]
  | (k', v') :: m' =>
      if eq k' k then (k', v) :: m' else (k', v') :: map_set eq k v m'
  end.

Fixpoint map_get {K V} (eq : K -> K -> bool) (k : K) (m : list (K * V)) : option V :=
  match m with
  | [] => None
  | (k', v') :: m' => if eq k' k then Some v' else map_get eq k m'
  end.

Record CustomObjectEntry := { label : JValue; resourceName : JValue }.

(** The caches of the service that the discovery touches. *)
Record Service := {
  objectLabelsCache : list (JValue * JValue);
  labelToResourceCache : list (string * JValue);
  discoveredObjects : option (list JValue);
  discoveredObjectsTimestamp : Z;
  customObjectsCache : option (list CustomObjectEntry)
}.

Definition initial : Service :=
  {| objectLabelsCache := [];
     labelToResourceCache := [];
     discoveredObjects := None;
     discoveredObjectsTimestamp := 0;
     customObjectsCache := None |}.

Definition the (v : option JValue) : JValue := default JNull v.

Definition set_objectLabelsCache (m : list (JValue * JValue)) (svc : Service) : Service :=
  {| objectLabelsCache := m;
     labelToResourceCache := labelToResourceCache svc;
     discoveredObjects := discoveredObjects svc;
     discoveredObjectsTimestamp := discoveredObjectsTimestamp svc;
     customObjectsCache := customObjectsCache svc |}.

Definition set_labelToResourceCache (m : list (string * JValue)) (svc : Service)
  : Service :=
  {| objectLabelsCache := objectLabelsCache svc;
     labelToResourceCache := m;
     discoveredObjects := discoveredObjects svc;
     discoveredObjectsTimestamp := discoveredObjectsTimestamp svc;
     customObjectsCache := customObjectsCache svc |}.

Definition set_customObjectsCache (l : list CustomObjectEntry) (svc : Service)
  : Service :=
  {| objectLabelsCache := objectLabelsCache svc;
     labelToResourceCache := labelToResourceCache svc;
     discoveredObjects := discoveredObjects svc;
     discoveredObjectsTimestamp := discoveredObjectsTimestamp svc;
     customObjectsCache := Some l |}.

(** [this.discoveredObjects = names; this.discoveredObjectsTimestamp = now] *)
Definition set_discovered (names : list JValue) (now : Z) (svc : Service) : Service :=
  {| objectLabelsCache := objectLabelsCache svc;
     labelToResourceCache := labelToResourceCache svc;
     discoveredObjects := Some names;
     discoveredObjectsTimestamp := now;
     customObjectsCache := customObjectsCache svc |}.

(** The loop over the objects of the first response, on the set of
    names and the caches; what it has written stays when it throws. A
    label that is truthy and is no string has no [toLowerCase]. *)
Fixpoint note_objects (results : list JRecord) (objectNames : list JValue)
    (svc : Service) : Outcome (list JValue) * Service :=
  match results with
  | [] => (Ok objectNames, svc)
  | obj :: rest =>
      if Js.truthy (jget obj "resourceName") then
        let objectNames' := set_add (the (jget obj "resourceName")) objectNames in
        if Js.truthy (jget obj "label") then
          let svc1 :=
            set_objectLabelsCache
              (map_set same_value (the (jget obj "resourceName"))
                 (the (jget obj "label")) (objectLabelsCache svc)) svc in
          match jget obj "label" with
          | Some (JStr l) =>
              note_objects rest objectNames'
                (set_labelToResourceCache
                   (map_set String.eqb (Str.toLowerCase l)
                      (the (jget obj "resourceName")) (labelToResourceCache svc1))
                   svc1)
          | _ => (Throw "typedObj.label.toLowerCase is not a function", svc1)
          end
        else note_objects rest objectNames' svc
      else note_objects rest objectNames svc
  end.

Definition custom_entries (results : list JRecord) : list CustomObjectEntry :=
  map (fun obj => {| label := the (jget obj "label");
                     resourceName := the (jget obj "resourceName") |})
      (List.filter (fun obj => Js.truthy (jget obj "resourceName")
                               && Js.truthy (jget obj "label")) results).

Definition standard_names : list JValue := map JStr STANDARD_OBJECTS.

(** What follows the two responses. *)
Definition discovered (now : Z) (svc : Service) (allObjectsResponse
    customObjectsResponse : ApiResponse) : list JValue * Service :=
  match note_objects (AIChatHandler.records_of allObjectsResponse) [] svc with
  | (Ok objectNames, svc1) =>
      let svc2 :=
        set_customObjectsCache
          (custom_entries (AIChatHandler.records_of customObjectsResponse)) svc1 in
      let names := fold_left (fun acc obj => set_add (JStr obj) acc)
                             STANDARD_OBJECTS objectNames in
      (names, set_discovered names now svc2)
  | (Throw _, svc1) => (standard_names, set_discovered standard_names now svc1)
  end.

(** The two requests of the discovery. *)
Definition describe_all : string := "/describe?limit=500".

Definition describe_custom : string :=
  "/describe?filter=(isCustom = true) and (isSystem = false)&limit=500".

Definition fresh_at (now : Z) (svc : Service) : bool :=
  bool_decide (is_Some (discoveredObjects svc))
  && (now - discoveredObjectsTimestamp svc <? CACHE_TTL_DISCOVERED_OBJECTS)%Z.

(** [now] is the time at the start of the call. *)
Definition discoverAllObjects (env : Env) (forceRefresh : bool) (now : Z)
    (svc : Service) : M (list JValue * Service) :=
  if negb forceRefresh && fresh_at now svc
  then ret (default [] (discoveredObjects svc), svc)
  else
    try_catch
      (allObjectsResponse <- ClarityApiClient.get env describe_all ;;
       customObjectsResponse <- ClarityApiClient.get env describe_custom ;;
       ret (discovered now svc allObjectsResponse customObjectsResponse))
      (fun _ => ret (standard_names, set_discovered standard_names now svc)).

Definition getCustomObjects (env : Env) (now : Z) (svc : Service)
  : M (list CustomObjectEntry * Service) :=
  match customObjectsCache svc with
  | Some l => ret (l, svc)
  | None =>
      r <- discoverAllObjects env false now svc ;;
      ret (default [] (customObjectsCache r.2), r.2)
  end.

Definition resolveObjectName (nameOrLabel : string) (svc : Service) : option JValue :=
  let lower := Str.toLowerCase nameOrLabel in
  if existsb (same_value (JStr nameOrLabel)) (default [] (discoveredObjects svc))
  then Some (JStr nameOrLabel)
  else
    match map_get String.eqb lower (labelToResourceCache svc) with
    | Some resource => Some resource
    | None =>
        option_map snd
          (List.find (fun e => Str.includes (fst e) lower || Str.includes lower (fst e))
                     (labelToResourceCache svc))
    end.

End MetadataServiceImpl.

(** ** Further scenarios *)

Module Cases.
Import ToolRegistry.

(** A reader who is kept from the financials. *)
Definition reader : SessionManager.SessionConfig :=
  {| SessionManager.c_sessionId := "s1";
     SessionManager.c_userId := Some "u1";
     SessionManager.c_username := None;
     SessionManager.c_role := None;
     SessionManager.c_permissions := Some [P_read];
     SessionManager.c_allowedObjects := None;
     SessionManager.c_deniedObjects := Some ["financials"];
     SessionManager.c_metadata := None;
     SessionManager.c_expiresInMinutes := None |}.

Definition reader_session : SessionPermissions :=
  {| sessionId := "s1"; userId := Some "u1"; permissions := Some [P_read];
     allowedObjects := None; deniedObjects := Some ["financials"];
     createdAt := Scenario.minute 0;
     expiresAt := Some (Scenario.minute 60) |}.

(** The manager after the reader has opened the session. *)
Definition restricted : SessionManager.Manager :=
  (SessionManager.createSession reader (Scenario.minute 0) SessionManager.initial).2.


(** The same, with a number in the place of the label. *)
Definition described_oddly : ApiResponse :=
  {| _results := Some [[("resourceName", JStr "custRisk"); ("label", JNum 7)]];
     _totalCount := None; _internalId := None |}.

Definition env_described (response : ApiResponse) : Env :=
  Scenario.env_with (RespOk response) "" Scenario.no_plan.

(** The world after the first request of a discovery, and after the
    second one. *)
Definition after_all (env : Env) : World :=
  (ClarityApiClient.get env MetadataServiceImpl.describe_all Scenario.fresh).2.

Definition after_custom (env : Env) : World :=
  (ClarityApiClient.get env MetadataServiceImpl.describe_custom (after_all env)).2.

End Cases.

(** ** Vocabulary of the properties *)

Section Vocabulary.
Import AIChatHandler.

(** Every value that [m] returns satisfies [Q]. *)
Definition returns {A} (m : M A) (Q : A -> Prop) : Prop :=
  forall w a w', m w = (Ok a, w') -> Q a.

(** A failure has a reply and no chart. *)
Definition sound (r : AIResponse) : Prop :=
  success r = false -> reply r <> "" /\ chartData r = None.

Definition sound_result (r : PlanResult) : Prop :=
  r_success r = false -> r_reply r <> "" /\ r_chartData r = None.

Definition sound_option (o : option AIResponse) : Prop :=
  match o with Some r => sound r | None => True end.


End Vocabulary.

(** ** Vocabulary of the further properties *)

Module Further.

(** The last character in front of the rest of the input, when the
    text [w] has been read behind the character [prev]. *)
Fixpoint last_char (prev : option ascii) (w : string) : option ascii :=
  match w with
  | EmptyString => prev
  | String c w' => last_char (Some c) w'
  end.

(** The events of [k] attempts of a request in a row, from the
    iteration [attempt] of the retry loop on, the most recent first:
    the attempts, with a pause of [1000 * (attempt + 1)] milliseconds
    between one attempt and the next. *)
Fixpoint attempt_events (e : Event) (attempt k : nat) : list Event :=
  match k with
  | O => []
  | S k' =>
      attempt_events e (S attempt) k'
      ++ (match k' with
          | O => []
          | S _ => [ESleep (1000 * (Z.of_nat attempt + 1))]
          end)
      ++ [e]
  end.

(** Whatever [m] does, it records nothing but events that satisfy [P],
    behind the events on record. *)
Definition emits (P : Event -> Prop) {A} (m : M A) : Prop :=
  forall w o w', m w = (o, w') ->
    exists evs, trace w' = evs ++ trace w /\ Forall P evs.

(** An event that changes nothing on the remote side: a request that
    is a GET, a pause, a call of the reasoning service or of the
    metadata service. *)
Definition reads_only (e : Event) : Prop :=
  match e with
  | EFetch method _ _ => method = "GET"
  | _ => True
  end.

(** An event that neither changes anything on the remote side nor
    asks the reasoning service. *)
Definition quiet (e : Event) : Prop :=
  match e with
  | EFetch method _ _ => method = "GET"
  | EReason _ _ => False
  | _ => True
  end.

(** An event that is no call of the reasoning service. *)
Definition no_reasoning (e : Event) : Prop :=
  match e with
  | EReason _ _ => False
  | _ => True
  end.

(** The number of calls of the reasoning service among the events. *)
Definition reasonings (evs : list Event) : nat :=
  length (List.filter (fun e => match e with EReason _ _ => true | _ => false end) evs).

(** Whatever [m] does, it asks the reasoning service [n] times at
    most. *)
Definition asks_at_most (n : nat) {A} (m : M A) : Prop :=
  forall w o w', m w = (o, w') ->
    exists evs, trace w' = evs ++ trace w /\ reasonings evs <= n.

(** The actions of a plan that write to the remote API. *)
Definition is_write (action : string) : bool :=
  String.eqb action "create" || String.eqb action "update"
  || String.eqb action "delete".

(** The standard objects are among the discovered ones, once there are
    any. *)
Definition knows_standard (svc : MetadataServiceImpl.Service) : Prop :=
  forall l, MetadataServiceImpl.discoveredObjects svc = Some l ->
    forall n, In n MetadataServiceImpl.STANDARD_OBJECTS -> In (JStr n) l.

(** The labels of the objects of a response are strings, where the
    discovery reads them. *)
Definition string_labels (results : list JRecord) : Prop :=
  Forall (fun obj => Js.truthy (jget obj "resourceName") = true ->
                     Js.truthy (jget obj "label") = true ->
                     exists l, jget obj "label" = Some (JStr l)) results.


End Further.

(* ===================================================================== *)
(** * Properties *)

Example toLowerCase_ex : Str.toLowerCase "Show Me The ACTIVE ones" = "show me the active ones".
Proof. reflexivity. Qed.

Example of_Z_ex : Str.of_Z 1800000 = "1800000" /\ Str.of_Z 0 = "0" /\ Str.of_Z (-42) = "-42".
Proof. repeat split; reflexivity. Qed.

Example trim_ex : Str.trim "  hi there  " = "hi there".
Proof. reflexivity. Qed.

Example detect_active :
  detectFollowUpIntent "Show me the Active ones"
  = {| f_type := Some Intent.showSelected; extractedValue := Some "active" |}.
Proof. vm_compute. reflexivity. Qed.

Example detect_link :
  detectFollowUpIntent "give me a link"
  = {| f_type := Some Intent.link; extractedValue := None |}.
Proof. vm_compute. reflexivity. Qed.

Example detect_two_words :
  f_type (detectFollowUpIntent "show me the in progress ones") = None.
Proof. vm_compute. reflexivity. Qed.

Example detect_get :
  detectFollowUpIntent "please get me the completed"
  = {| f_type := Some Intent.showSelected; extractedValue := Some "completed" |}.
Proof. vm_compute. reflexivity. Qed.

Example detect_count :
  detectFollowUpIntent "how many are there?"
  = {| f_type := Some Intent.count; extractedValue := Some "are there" |}.
Proof. vm_compute. reflexivity. Qed.

(** ** The conversation store *)

Section StoreFacts.
Import ContextService.

Lemma slice_last_short {A} (n : nat) (h : list A) :
  length h <= n -> slice_last n h = h.
Proof.
  intros H. unfold slice_last.
  replace (length h - n) with 0 by lia. reflexivity.
Qed.

Lemma slice_last_length {A} (n : nat) (h : list A) :
  length (slice_last n h) = Nat.min n (length h).
Proof. unfold slice_last. rewrite length_drop. lia. Qed.

(** The last [n] elements of [a ++ b] only depend on the last [n]
    elements of [a]. *)
Lemma slice_last_app {A} (n : nat) (a b : list A) :
  slice_last n (slice_last n a ++ b) = slice_last n (a ++ b).
Proof.
  unfold slice_last.
  rewrite !length_app, length_drop, !drop_app, length_drop, drop_drop.
  f_equal; f_equal; lia.
Qed.

Lemma last_slice_last {A} (n : nat) (h : list A) :
  0 < n -> last (slice_last n h) = last h.
Proof.
  intros Hn. unfold slice_last.
  rewrite !last_lookup, lookup_drop, length_drop.
  destruct (decide (length h = 0)) as [E|E].
  - apply length_zero_iff_nil in E. by subst h.
  - f_equal. lia.
Qed.

(** The history that [addToHistory] keeps. *)
Lemma kept_slice (pushed : list ConversationTurn) :
  (if (MAX_HISTORY_LENGTH <? length pushed)%nat
   then slice_last MAX_HISTORY_LENGTH pushed else pushed)
  = slice_last MAX_HISTORY_LENGTH pushed.
Proof.
  destruct (MAX_HISTORY_LENGTH <? length pushed)%nat eqn:E; [reflexivity|].
  apply Nat.ltb_ge in E. symmetry. by apply slice_last_short.
Qed.

Lemma getContext_lookup sid st :
  (getContext sid st).2 !! sid = Some (getContext sid st).1.
Proof.
  unfold getContext. destruct (st !! sid) eqn:E; simpl; [done|].
  by rewrite lookup_insert_eq.
Qed.

Lemma getContext_other sid sid' st :
  sid ≠ sid' -> (getContext sid st).2 !! sid' = st !! sid'.
Proof.
  intros Hne. unfold getContext. destruct (st !! sid); simpl; [done|].
  by rewrite lookup_insert_ne.
Qed.

Lemma getContext_present sid st c :
  st !! sid = Some c -> getContext sid st = (c, st).
Proof. intros H. unfold getContext. by rewrite H. Qed.

Lemma getContext_absent sid st :
  st !! sid = None -> getContext sid st = (createNewContext sid, <[sid := createNewContext sid]> st).
Proof. intros H. unfold getContext. by rewrite H. Qed.

(** The sweep, session by session. *)
Lemma cleanup_lookup now st sid :
  cleanupExpiredContexts now st !! sid
  = match st !! sid with
    | Some c => if decide (expired now c) then None else Some c
    | None => None
    end.
Proof.
  unfold cleanupExpiredContexts. rewrite map_lookup_filter.
  destruct (st !! sid) as [c|]; simpl; [|done].
  destruct (decide (expired now c)); case_guard; simpl; done.
Qed.

Lemma trimmed_lastActivity c : lastActivity (trimmed c) = lastActivity c.
Proof.
  unfold lastActivity, trimmed. simpl.
  rewrite last_slice_last; [reflexivity | unfold MAX_HISTORY_LENGTH; lia].
Qed.

Lemma trims_getContext sid st full :
  trims st full ->
  (getContext sid st).1 = trimmed (getContext sid full).1
  /\ trims (getContext sid st).2 (getContext sid full).2.
Proof.
  intros H. unfold getContext. pose proof (H sid) as Hs.
  destruct (full !! sid) as [c|] eqn:E; simpl in Hs; rewrite Hs; simpl.
  - split; [reflexivity | exact H].
  - split; [reflexivity|]. intros sid'.
    destruct (decide (sid = sid')) as [->|Hne].
    + by rewrite !lookup_insert_eq.
    + rewrite !lookup_insert_ne by done. apply H.
Qed.

Lemma trims_insert sid c c' st full :
  trims st full -> c = trimmed c' -> trims (<[sid := c]> st) (<[sid := c']> full).
Proof.
  intros H -> sid'. destruct (decide (sid = sid')) as [->|Hne].
  - by rewrite !lookup_insert_eq.
  - rewrite !lookup_insert_ne by done. apply H.
Qed.

Lemma trims_step op st full :
  trims st full -> trims (step op st) (step_untrimmed op full).
Proof.
  intros H. destruct op as [sid|sid q|sid t|sid pg|sid pr|sid|now]; simpl.
  - exact (proj2 (trims_getContext sid st full H)).
  - unfold updateLastQuery.
    destruct (trims_getContext sid st full H) as [Hc Hst].
    destruct (getContext sid st) as [c st1], (getContext sid full) as [c' full1].
    simpl in *. subst c. by apply trims_insert.
  - unfold addToHistory, addToHistory_untrimmed.
    destruct (trims_getContext sid st full H) as [Hc Hst].
    destruct (getContext sid st) as [c st1], (getContext sid full) as [c' full1].
    simpl in *. subst c. apply trims_insert; [done|].
    rewrite kept_slice. unfold trimmed, set_history; simpl. f_equal.
    apply slice_last_app.
  - unfold setCurrentPage.
    destruct (trims_getContext sid st full H) as [Hc Hst].
    destruct (getContext sid st) as [c st1], (getContext sid full) as [c' full1].
    simpl in *. subst c. by apply trims_insert.
  - unfold updatePreferences.
    destruct (trims_getContext sid st full H) as [Hc Hst].
    destruct (getContext sid st) as [c st1], (getContext sid full) as [c' full1].
    simpl in *. subst c. by apply trims_insert.
  - intros sid'. unfold clearContext.
    destruct (decide (sid = sid')) as [->|Hne].
    + by rewrite !lookup_delete_eq.
    + rewrite !lookup_delete_ne by done. apply H.
  - intros sid'. rewrite !cleanup_lookup, (H sid').
    destruct (full !! sid') as [c'|]; simpl; [|done].
    pose proof (trimmed_lastActivity c') as E.
    destruct (decide (expired now (trimmed c'))) as [X|X],
             (decide (expired now c')) as [Y|Y];
      simpl; try done; unfold expired in *; rewrite E in *; contradiction.
Qed.

Lemma trims_run ops st full :
  trims st full -> trims (run ops st) (run_untrimmed ops full).
Proof.
  revert st full. induction ops as [|op ops IH]; intros st full H; simpl; [done|].
  apply IH, trims_step, H.
Qed.

End StoreFacts.

Section StoreClaims.
Import ContextService.

Lemma trims_empty : trims ∅ ∅.
Proof. intros sid. by rewrite !lookup_empty. Qed.

(** Appending to a session that does not exist yet records the turns
    as they come. *)
Lemma untrimmed_log sid (t : ConversationTurn) (ts : list ConversationTurn) st c :
  st !! sid = Some c ->
  exists c', run_untrimmed (map (OAddToHistory sid) ts) st !! sid = Some c'
             /\ history c' = history c ++ ts.
Proof.
  revert st c. induction ts as [|t' ts IH]; intros st c H; simpl.
  - exists c. by rewrite app_nil_r.
  - unfold addToHistory_untrimmed. rewrite (getContext_present _ _ _ H).
    edestruct (IH (<[sid := set_history (history c ++ [t']) c]> st)) as [c' [H1 H2]].
    { apply lookup_insert_eq. }
    exists c'. split; [exact H1|]. rewrite H2. simpl. by rewrite <- app_assoc.
Qed.

(** C5 (history bound). Whatever calls reach the conversation store,
    starting from the empty one, the history stored for a session
    has at most 20 turns and is made of the last 20 turns of all those
    appended to the session since its context was created, in the
    order in which they were appended; it has exactly 20 turns once more
    than 20 have been appended. In particular, appending the turns
    [t :: ts] to a new session leaves their last 20. *)
Theorem history_bound (ops : list Op) (sid : string) :
  match run ops ∅ !! sid, run_untrimmed ops ∅ !! sid with
  | Some c, Some full =>
      history c = slice_last 20 (history full)
      /\ length (history c) <= 20
      /\ (20 < length (history full) -> length (history c) = 20)
  | None, None => True
  | _, _ => False
  end
  /\ forall (t : ConversationTurn) (ts : list ConversationTurn),
       exists c, run (map (OAddToHistory sid) (t :: ts)) ∅ !! sid = Some c
                 /\ history c = slice_last 20 (t :: ts).
Proof.
  split.
  - pose proof (trims_run ops ∅ ∅ trims_empty sid) as H. rewrite H.
    destruct (run_untrimmed ops ∅ !! sid) as [full|]; simpl; [|done].
    change MAX_HISTORY_LENGTH with 20.
    pose proof (slice_last_length 20 (history full)).
    repeat split; lia.
  - intros t ts.
    pose proof (trims_run (map (OAddToHistory sid) (t :: ts)) ∅ ∅ trims_empty sid) as H.
    simpl in H. simpl. unfold addToHistory_untrimmed in H at 1.
    rewrite getContext_absent in H by apply lookup_empty.
    destruct (untrimmed_log sid t ts
                (<[sid := set_history (history (createNewContext sid) ++ [t])
                                      (createNewContext sid)]>
                   (<[sid := createNewContext sid]> ∅))
                (set_history (history (createNewContext sid) ++ [t])
                             (createNewContext sid)))
      as [c' [H1 H2]].
    { apply lookup_insert_eq. }
    rewrite H1 in H. simpl in H.
    exists (trimmed c'). split; [exact H|].
    unfold trimmed. simpl. rewrite H2. reflexivity.
Qed.

(** C6, as it is stated, does not hold: a session without any turn has
    no last history entry, and the sweep removes it all the same. *)
Lemma sweep_removes_untouched_session :
  ~ (forall (now : Z) (st : Store) (sid : string) (c : ConversationContext),
       st !! sid = Some c ->
       (cleanupExpiredContexts now st !! sid = None
        <-> exists t, last (history c) = Some t
                      /\ (now - t_timestamp t > CONTEXT_EXPIRY_MS)%Z)).
Proof.
  intros H.
  specialize (H 1793000000000%Z {["s1" := createNewContext "s1"]} "s1"
                (createNewContext "s1") (lookup_singleton_eq _ _)).
  destruct H as [H _].
  destruct H as [t [Ht _]]; [|discriminate Ht].
  rewrite cleanup_lookup, lookup_singleton_eq. reflexivity.
Qed.

(** C6 (expiry), amended. The sweep at time [now] removes exactly the
    sessions with [now - lastActivity > 30 minutes], where the last
    activity of a session is the time of its last history entry and
    the epoch when it has no entry; the other sessions are left as
    they are. So a session whose last turn is more than 30 minutes old
    is removed, one whose last turn is 30 minutes old or less (appended
    at minute 29, swept at minute 30) survives, and one without turns
    is removed by any sweep later than 30 minutes after the epoch. *)
Theorem sweep_expiry (now : Z) (st : Store) (sid : string) (c : ConversationContext) :
  st !! sid = Some c ->
  (cleanupExpiredContexts now st !! sid = None
   <-> (now - lastActivity c > CONTEXT_EXPIRY_MS)%Z)
  /\ (cleanupExpiredContexts now st !! sid = None
      \/ cleanupExpiredContexts now st !! sid = Some c)
  /\ (forall t, last (history c) = Some t ->
        (now - t_timestamp t > 30 * 60 * 1000)%Z ->
        cleanupExpiredContexts now st !! sid = None)
  /\ (forall t, last (history c) = Some t ->
        (now - t_timestamp t <= 30 * 60 * 1000)%Z ->
        cleanupExpiredContexts now st !! sid = Some c)
  /\ (history c = [] -> (30 * 60 * 1000 < now)%Z ->
      cleanupExpiredContexts now st !! sid = None).
Proof.
  intros H. rewrite cleanup_lookup, H.
  assert (L : forall t, last (history c) = Some t -> lastActivity c = t_timestamp t).
  { intros t Ht. unfold lastActivity. by rewrite Ht. }
  assert (L0 : history c = [] -> lastActivity c = 0%Z).
  { intros Hnil. unfold lastActivity. by rewrite Hnil. }
  change CONTEXT_EXPIRY_MS with (30 * 60 * 1000)%Z.
  destruct (decide (expired now c)) as [E|E]; unfold expired in E;
    change CONTEXT_EXPIRY_MS with (30 * 60 * 1000)%Z in E;
    (split; [|split; [|split; [|split]]]).
  - done.
  - by left.
  - done.
  - intros t Ht Hle. rewrite (L t Ht) in E. lia.
  - done.
  - split; [discriminate | contradiction].
  - by right.
  - intros t Ht Hgt. rewrite (L t Ht) in E. lia.
  - done.
  - intros Hnil Hnow. rewrite (L0 Hnil) in E. lia.
Qed.

Import Scenario.

Lemma sweep_expiry_witness :
  ({["s1" := touched_at "s1" (minute 29)]} : Store) !! "s1"
  = Some (touched_at "s1" (minute 29))
  /\ cleanupExpiredContexts (minute 30) {["s1" := touched_at "s1" (minute 29)]} !! "s1"
     = Some (touched_at "s1" (minute 29)).
Proof.
  split; [apply lookup_singleton_eq|].
  destruct (sweep_expiry (minute 30) {["s1" := touched_at "s1" (minute 29)]} "s1"
              (touched_at "s1" (minute 29)) (lookup_singleton_eq _ _))
    as (_ & _ & _ & H & _).
  eapply H; [reflexivity | unfold minute; simpl; lia].
Defined.

(** C10 (sweep of sessions without history). For a sweep that runs
    later than 30 minutes after the epoch, as every [Date.now()] of a
    running system is: a session with an empty history is removed,
    whenever it was created or changed, since its last activity is taken
    to be the epoch; so the context that [getContext] alone creates for
    a new session, also through [setCurrentPage] or [updatePreferences],
    is gone after the next sweep. *)
Theorem sweep_removes_empty_sessions (now : Z) (st : Store) (sid : string) :
  (CONTEXT_EXPIRY_MS < now)%Z ->
  (forall c, st !! sid = Some c -> history c = [] ->
             cleanupExpiredContexts now st !! sid = None)
  /\ (st !! sid = None ->
      (getContext sid st).2 !! sid = Some (createNewContext sid)
      /\ cleanupExpiredContexts now (getContext sid st).2 !! sid = None
      /\ (forall page, cleanupExpiredContexts now (setCurrentPage sid page st) !! sid = None)
      /\ (forall prefs,
            cleanupExpiredContexts now (updatePreferences sid prefs st) !! sid = None)).
Proof.
  intros Hnow.
  assert (G : forall st' c, st' !! sid = Some c -> history c = [] ->
              cleanupExpiredContexts now st' !! sid = None).
  { intros st' c H Hnil. rewrite cleanup_lookup, H.
    destruct (decide (expired now c)) as [E|E]; [done|].
    exfalso. apply E. unfold expired, lastActivity. rewrite Hnil. simpl. lia. }
  split; [apply G|].
  intros Habs. rewrite (getContext_absent _ _ Habs). simpl.
  split; [apply lookup_insert_eq|].
  split; [|split].
  - eapply G; [apply lookup_insert_eq | reflexivity].
  - intros page. unfold setCurrentPage. rewrite (getContext_absent _ _ Habs).
    eapply G; [apply lookup_insert_eq | reflexivity].
  - intros prefs. unfold updatePreferences. rewrite (getContext_absent _ _ Habs).
    eapply G; [apply lookup_insert_eq | reflexivity].
Qed.

Lemma sweep_removes_empty_sessions_witness :
  (CONTEXT_EXPIRY_MS < minute 0)%Z
  /\ cleanupExpiredContexts (minute 0)
       (setCurrentPage "s1" (Some {| p_objectType := "projects"; p_recordId := None;
                                     p_recordName := None; p_url := None |}) ∅) !! "s1"
     = None.
Proof.
  split; [reflexivity|].
  destruct (sweep_removes_empty_sessions (minute 0) ∅ "s1" ltac:(reflexivity))
    as [_ H].
  destruct (H (lookup_empty _)) as (_ & _ & Hpage & _).
  apply Hpage.
Defined.

End StoreClaims.

(** ** The effect monad *)

Section MonadFacts.

Lemma bind_ok {A B} (m : M A) (f : A -> M B) w b w' :
  bind m f w = (Ok b, w') ->
  exists a w1, m w = (Ok a, w1) /\ f a w1 = (Ok b, w').
Proof.
  unfold bind. destruct (m w) as [[a|e] w1]; intros H; [eauto | discriminate].
Qed.

Lemma bind_run {A B} (m : M A) (f : A -> M B) w a w1 :
  m w = (Ok a, w1) -> bind m f w = f a w1.
Proof. intros H. unfold bind. by rewrite H. Qed.

Lemma bind_fail {A B} (m : M A) (f : A -> M B) w e w1 :
  m w = (Throw e, w1) -> bind m f w = (Throw e, w1).
Proof. intros H. unfold bind. by rewrite H. Qed.

Lemma try_catch_ok {A} (m : M A) (h : string -> M A) w a w' :
  try_catch m h w = (Ok a, w') ->
  m w = (Ok a, w') \/ exists e w1, m w = (Throw e, w1) /\ h e w1 = (Ok a, w').
Proof.
  unfold try_catch. destruct (m w) as [[x|e] w1]; intros H; [left | right; eauto].
  congruence.
Qed.

Lemma world_eta (w : World) :
  {| contexts := contexts w; discoveredObjects := discoveredObjects w;
     metadataCache := metadataCache w; trace := trace w |} = w.
Proof. by destruct w. Qed.

Lemma ctx_run {A} (f : gmap string ConversationContext -> A * gmap string ConversationContext)
    (w : World) a :
  f (contexts w) = (a, contexts w) -> ctx f w = (Ok a, w).
Proof. intros H. unfold ctx. rewrite H. by rewrite world_eta. Qed.

(** A method of the context service leaves the trace alone. *)
Lemma ctx_trace {A} (f : gmap string ConversationContext -> A * gmap string ConversationContext)
    (w : World) o w' :
  ctx f w = (o, w') ->
  trace w' = trace w /\ exists a, o = Ok a /\ f (contexts w) = (a, contexts w').
Proof.
  unfold ctx. destruct (f (contexts w)) as [a st]. intros H.
  inversion H; subst. simpl. eauto.
Qed.

End MonadFacts.

(** ** The HTTP client *)

Section ClientFacts.
Import ClarityApiClient.

Lemma fetch_once_run env method url body w :
  fetch_once env method url body w
  = (Ok (fetch env (trace w) method url body),
     add_events [EFetch method url body] w).
Proof. reflexivity. Qed.

(** An attempt that fails with an authentication error ends the loop. *)
Lemma attempts_auth env method url body fuel attempt lastError w message :
  result_of (fetch env (trace w) method url body) = Throw message ->
  is_auth_error message = true ->
  attempts env method url body (S fuel) attempt lastError w
  = (Throw message, add_events [EFetch method url body] w).
Proof.
  intros H Hauth. simpl. unfold bind at 1. rewrite fetch_once_run, H, Hauth.
  reflexivity.
Qed.

(** When no attempt succeeds and no error looks like an authentication
    error, every attempt is made, with a pause of [1000 * (attempt + 1)]
    milliseconds behind each but the last, and an error is thrown. *)
Lemma attempts_exhausted env method url body :
  (forall tr, exists message,
      result_of (fetch env tr method url body) = Throw message
      /\ is_auth_error message = false) ->
  forall fuel attempt lastError w,
    exists message,
      attempts env method url body fuel attempt lastError w
      = (Throw message,
         add_events (backoff (EFetch method url body) (maxRetries env) fuel attempt) w)
      /\ (fuel = 0 -> message = default "Request failed" lastError).
Proof.
  intros Hfail. induction fuel as [|fuel IH]; intros attempt lastError w.
  - exists (default "Request failed" lastError). split; [|done].
    simpl. unfold throw, add_events. simpl. by rewrite world_eta.
  - destruct (Hfail (trace w)) as [message [Hm Hauth]].
    simpl. unfold bind at 1. rewrite fetch_once_run, Hm, Hauth.
    destruct (attempt <? maxRetries env - 1)%nat eqn:E.
    + unfold bind at 1. unfold emit at 1.
      destruct (IH (S attempt) (Some message)
                   (add_events [ESleep (1000 * (Z.of_nat attempt + 1))]
                      (add_events [EFetch method url body] w)))
        as [message' [H' _]].
      exists message'. split; [|discriminate].
      unfold bind, emit, add_events in *. simpl in *. rewrite H'.
      f_equal. f_equal. by rewrite <- !app_assoc.
    + unfold bind at 1. unfold ret at 1.
      destruct (IH (S attempt) (Some message)
                   (add_events [EFetch method url body] w))
        as [message' [H' _]].
      exists message'. split; [|discriminate].
      unfold add_events in *. simpl in *. rewrite H'.
      f_equal. f_equal. by rewrite <- !app_assoc.
Qed.

(** The loop only emits attempts at its URL and pauses, and changes
    nothing else. *)
Lemma attempts_events env method url body fuel attempt lastError w o w' :
  attempts env method url body fuel attempt lastError w = (o, w') ->
  exists evs,
    w' = add_events evs w
    /\ Forall (fun e => e = EFetch method url body \/ exists ms, e = ESleep ms) evs
    /\ (0 < fuel -> In (EFetch method url body) evs).
Proof.
  revert attempt lastError w. induction fuel as [|fuel IH]; intros attempt lastError w H.
  - simpl in H. inversion H; subst. exists []. split; [|split].
    + unfold add_events. simpl. by rewrite world_eta.
    + constructor.
    + lia.
  - simpl in H. unfold bind at 1 in H. rewrite fetch_once_run in H.
    destruct (result_of _) as [data|message].
    { inversion H; subst. exists [EFetch method url body].
      split; [done|]. split; [|intros _; by left].
      constructor; [by left | constructor]. }
    destruct (is_auth_error message).
    { inversion H; subst. exists [EFetch method url body].
      split; [done|]. split; [|intros _; by left].
      constructor; [by left | constructor]. }
    destruct (attempt <? maxRetries env - 1)%nat.
    + unfold bind at 1, emit at 1 in H.
      apply IH in H. destruct H as [evs [-> [Hall _]]].
      exists (evs ++ [ESleep (1000 * (Z.of_nat attempt + 1)); EFetch method url body]).
      split; [|split].
      * unfold add_events. simpl. by rewrite <- app_assoc.
      * apply Forall_app. split; [exact Hall|].
        constructor; [right; eauto|]. constructor; [by left | constructor].
      * intros _. apply in_or_app. right. right. by left.
    + unfold bind at 1, ret at 1 in H.
      apply IH in H. destruct H as [evs [-> [Hall _]]].
      exists (evs ++ [EFetch method url body]).
      split; [|split].
      * unfold add_events. simpl. by rewrite <- app_assoc.
      * apply Forall_app. split; [exact Hall|].
        constructor; [by left | constructor].
      * intros _. apply in_or_app. right. by left.
Qed.

(** A response with the status 401 or 403 is an authentication error. *)
Lemma status_auth status errorText :
  status = 401 \/ status = 403 ->
  exists message,
    result_of (RespStatus status errorText) = Throw message
    /\ is_auth_error message = true.
Proof.
  intros [-> | ->]; eexists; (split; [reflexivity|]);
    unfold is_auth_error; apply orb_true_iff; [left | right]; reflexivity.
Qed.

End ClientFacts.

Section ClientClaims.
Import ClarityApiClient Scenario.

(** A request that is answered with the status 401 or 403 throws after
    its first attempt. *)
Lemma request_auth_fails_fast env method endpoint body w status errorText :
  (0 < maxRetries env)%nat ->
  status = 401 \/ status = 403 ->
  fetch env (trace w) method (url_of env endpoint) body = RespStatus status errorText ->
  exists message,
    request env method endpoint body w
    = (Throw message, add_events [EFetch method (url_of env endpoint) body] w).
Proof.
  intros Hn Hs Hf. destruct (status_auth status errorText Hs) as [message [Hm Ha]].
  exists message. unfold request.
  destruct (maxRetries env) as [|n]; [lia|].
  apply attempts_auth; [by rewrite Hf | exact Ha].
Qed.

(** A request of which no attempt succeeds, and of which no error
    holds 401 or 403 in its message, is attempted [maxRetries] times,
    with pauses of 1000, 2000, ... milliseconds in between. *)
Lemma request_retries_with_backoff env method endpoint body w :
  (forall tr, exists message,
      result_of (fetch env tr method (url_of env endpoint) body) = Throw message
      /\ is_auth_error message = false) ->
  exists message,
    request env method endpoint body w
    = (Throw message,
       add_events (backoff (EFetch method (url_of env endpoint) body)
                           (maxRetries env) (maxRetries env) 0) w).
Proof.
  intros H. unfold request.
  destruct (attempts_exhausted env method (url_of env endpoint) body H
              (maxRetries env) 0 None w) as [message [Hm _]].
  eauto.
Qed.

(** C8 (retry policy), at an input on which the code departs from it.
    With three attempts configured, a request that the server answers
    with the status 500 and the text "upstream 4012 unavailable" is
    not retried: the message of the error holds "401", and the client
    throws after the first attempt. The same status with a text
    without these digits is attempted three times, with pauses of
    1000 and 2000 milliseconds. *)
Theorem request_not_retried_on_server_error :
  request (env_with server_error "" no_plan) "GET" "/projects" None fresh
  = (Throw "HTTP 500: upstream 4012 unavailable",
     add_events [EFetch "GET" "https://clarity.example/ppm/rest/v1/projects" None] fresh)
  /\ request (env_with (RespStatus 500 "upstream unavailable") "" no_plan)
             "GET" "/projects" None fresh
     = (Throw "HTTP 500: upstream unavailable",
        add_events
          [EFetch "GET" "https://clarity.example/ppm/rest/v1/projects" None;
           ESleep 2000;
           EFetch "GET" "https://clarity.example/ppm/rest/v1/projects" None;
           ESleep 1000;
           EFetch "GET" "https://clarity.example/ppm/rest/v1/projects" None] fresh).
Proof. split; vm_compute; reflexivity. Qed.

End ClientClaims.

(** ** The chat handler *)

Section HandlerFacts.
Import ContextService AIChatHandler.

Lemma getContext_run sid w c :
  contexts w !! sid = Some c -> ctx (getContext sid) w = (Ok c, w).
Proof. intros H. apply ctx_run. by apply getContext_present. Qed.

Lemma getDrillDownOptions_run sid w c :
  contexts w !! sid = Some c ->
  ctx (getDrillDownOptions sid) w = (Ok (options_of c), w).
Proof.
  intros H. apply ctx_run. unfold getDrillDownOptions.
  by rewrite (getContext_present _ _ _ H).
Qed.

Lemma findDrillDownMatch_run sid v w c :
  contexts w !! sid = Some c ->
  ctx (findDrillDownMatch sid v) w = (Ok (match_option (options_of c) v), w).
Proof.
  intros H. apply ctx_run. unfold findDrillDownMatch, getDrillDownOptions.
  by rewrite (getContext_present _ _ _ H).
Qed.

Lemma canDrillDown_run sid w c :
  contexts w !! sid = Some c ->
  ctx (canDrillDown sid) w
  = (Ok (match lastQuery c with Some q => has_chart q | None => false end), w).
Proof.
  intros H. apply ctx_run. unfold canDrillDown.
  by rewrite (getContext_present _ _ _ H).
Qed.

(** The options of a chart that was stored with its grouping field. *)
Lemma options_of_chart c q f cd items :
  lastQuery c = Some q -> q_groupByField q = Some f -> Str.truthy f = true ->
  q_chartData q = Some cd -> assoc cd f = Some items ->
  options_of c = map label items.
Proof.
  intros Hq Hf Ht Hcd Ha. unfold options_of. by rewrite Hq, Hcd, Hf, Ht, Ha.
Qed.

Lemma grouped_query_some c q f :
  lastQuery c = Some q -> q_groupByField q = Some f -> Str.truthy f = true ->
  Str.truthy (q_objectType q) = true ->
  grouped_query c = Some (q, f).
Proof. intros Hq Hf Ht Ho. unfold grouped_query. by rewrite Hq, Hf, Ht, Ho. Qed.

(** [handleDrillDown] on a session with a chart: a reply that lists the
    options when nothing is matched, and the request for the matched
    value otherwise. *)
Lemma handleDrillDown_run env sid extracted msg ts w c q f :
  contexts w !! sid = Some c ->
  grouped_query c = Some (q, f) ->
  handleDrillDown env sid extracted msg ts w
  = match matched_value (options_of c) extracted msg with
    | None => (Ok (Some (failure (no_match_reply (options_of c)) ts)), w)
    | Some v => drill_query env sid q f v ts w
    end.
Proof.
  intros Hc Hg. unfold handleDrillDown, matched_value.
  rewrite (bind_run _ _ _ _ _ (getContext_run _ _ _ Hc)), Hg.
  destruct (Str.otruthy extracted).
  - rewrite (bind_run _ _ _ _ _ (findDrillDownMatch_run _ _ _ _ Hc)).
    destruct (match_option (options_of c) (default "" extracted)) as [v|].
    + reflexivity.
    + unfold bind at 1.
      rewrite (bind_run _ _ _ _ _ (getDrillDownOptions_run _ _ _ Hc)). unfold ret at 1.
      destruct (find_truthy _ _); [reflexivity|].
      by rewrite (bind_run _ _ _ _ _ (getDrillDownOptions_run _ _ _ Hc)).
  - unfold bind at 1, ret at 1. unfold bind at 1.
    rewrite (bind_run _ _ _ _ _ (getDrillDownOptions_run _ _ _ Hc)). unfold ret at 1.
    destruct (find_truthy _ _); [reflexivity|].
    by rewrite (bind_run _ _ _ _ _ (getDrillDownOptions_run _ _ _ Hc)).
Qed.

Lemma updateLastQuery_lookup sid q st :
  updateLastQuery sid q st !! sid = Some (set_lastQuery q (getContext sid st).1).
Proof.
  unfold updateLastQuery. destruct (getContext sid st) as [c st1]. simpl.
  apply lookup_insert_eq.
Qed.

(** A drill-down that succeeds has got the records and has replaced the
    last query. *)
Lemma drill_query_ok env sid q f v ts w r w' :
  drill_query env sid q f v ts w = (Ok (Some r), w') ->
  success r = true ->
  exists response w1,
    ClarityApiClient.get env (drilldown_endpoint (q_objectType q) f v) w
    = (Ok response, w1)
    /\ w' = with_contexts
              (updateLastQuery sid
                 (Some (drilldown_record q f v (records_of response)
                          (total_of response (records_of response))
                          (now env (trace w1))))
                 (contexts w1)) w1.
Proof.
  intros H Hs. unfold drill_query in H.
  apply try_catch_ok in H. destruct H as [H | (e & w1 & _ & H)].
  - apply bind_ok in H. destruct H as (response & w1 & Hget & H).
    exists response, w1. split; [exact Hget|].
    unfold bind, get_now, ctx_, ctx, ret in H. simpl in H.
    inversion H; subst. reflexivity.
  - unfold ret in H. inversion H; subst. discriminate Hs.
Qed.

(** The methods of the context service do not change an existing
    context. *)
Lemma handleDrillDown_ok env sid extracted msg ts w r w' :
  handleDrillDown env sid extracted msg ts w = (Ok (Some r), w') ->
  success r = true ->
  exists c q f v,
    contexts w !! sid = Some c /\ grouped_query c = Some (q, f)
    /\ matched_value (options_of c) extracted msg = Some v
    /\ drill_query env sid q f v ts w = (Ok (Some r), w').
Proof.
  intros H Hs.
  destruct (contexts w !! sid) as [c|] eqn:Hc.
  - destruct (grouped_query c) as [[q f]|] eqn:Hg.
    + rewrite (handleDrillDown_run _ _ _ _ _ _ _ _ _ Hc Hg) in H.
      destruct (matched_value (options_of c) extracted msg) as [v|] eqn:Hm.
      * exists c, q, f, v. eauto.
      * inversion H; subst. discriminate Hs.
    + unfold handleDrillDown in H.
      rewrite (bind_run _ _ _ _ _ (getContext_run _ _ _ Hc)), Hg in H.
      discriminate H.
  - unfold handleDrillDown in H. unfold bind at 1 in H.
    unfold ctx in H. rewrite (getContext_absent _ _ Hc) in H. simpl in H.
    discriminate H.
Qed.

End HandlerFacts.

Section ChartFacts.
Import ContextService.

(** [canDrillDown] is false when the session has no stored chart. *)
Lemma canDrillDown_false sid st :
  (canDrillDown sid st).1 = false
  <-> forall c q, st !! sid = Some c -> lastQuery c = Some q -> has_chart q = false.
Proof.
  unfold canDrillDown, getContext. destruct (st !! sid) as [c|] eqn:E; simpl.
  - split.
    + intros H c' q [= <-] Hq. by rewrite Hq in H.
    + intros H. destruct (lastQuery c) as [q|] eqn:Hq; [by apply (H c q) | done].
  - split; [intros _ c q Hc; discriminate Hc | done].
Qed.

Lemma getContext_keeps_lastQuery sid st q :
  lastQuery (getContext sid st).1 = Some q ->
  exists c, st !! sid = Some c /\ lastQuery c = Some q.
Proof.
  unfold getContext. destruct (st !! sid) as [c|]; simpl; [eauto | discriminate].
Qed.

(** What a call leaves as the last query of a session: the one it had,
    or the one that an [updateLastQuery] of the session stores. *)
Lemma step_lastQuery sid op st c q :
  step op st !! sid = Some c -> lastQuery c = Some q ->
  (exists c0, st !! sid = Some c0 /\ lastQuery c0 = Some q)
  \/ op = OUpdateLastQuery sid (Some q).
Proof.
  intros Hc Hq.
  assert (Hget : forall sid0 c1 st1 c',
            getContext sid0 st = (c1, st1) -> lastQuery c' = lastQuery c1 ->
            <[sid0 := c']> st1 !! sid = Some c ->
            exists c0, st !! sid = Some c0 /\ lastQuery c0 = Some q).
  { intros sid0 c1 st1 c' E Hf H.
    assert (E1 : c1 = (getContext sid0 st).1) by by rewrite E.
    assert (E2 : st1 = (getContext sid0 st).2) by by rewrite E.
    destruct (decide (sid0 = sid)) as [->|Hne].
    - rewrite lookup_insert_eq in H. injection H as <-. rewrite Hf, E1 in Hq.
      by apply getContext_keeps_lastQuery.
    - rewrite lookup_insert_ne, E2, getContext_other in H by done. eauto. }
  destruct op as [sid0|sid0 q0|sid0 turn|sid0 page|sid0 prefs|sid0|now]; simpl in Hc.
  - left. destruct (decide (sid0 = sid)) as [->|Hne].
    + rewrite getContext_lookup in Hc. injection Hc as <-.
      by apply getContext_keeps_lastQuery.
    + rewrite getContext_other in Hc by done. eauto.
  - destruct (decide (sid0 = sid)) as [->|Hne].
    + right. rewrite updateLastQuery_lookup in Hc. injection Hc as <-.
      simpl in Hq. by subst q0.
    + left. unfold updateLastQuery in Hc.
      destruct (getContext sid0 st) as [c1 st1] eqn:E.
      rewrite lookup_insert_ne in Hc by done.
      assert (E2 : st1 = (getContext sid0 st).2) by by rewrite E.
      rewrite E2, getContext_other in Hc by done. eauto.
  - left. unfold addToHistory in Hc.
    destruct (getContext sid0 st) as [c1 st1] eqn:E.
    eapply Hget; [exact E | | exact Hc]; reflexivity.
  - left. unfold setCurrentPage in Hc.
    destruct (getContext sid0 st) as [c1 st1] eqn:E.
    eapply Hget; [exact E | | exact Hc]; reflexivity.
  - left. unfold updatePreferences in Hc.
    destruct (getContext sid0 st) as [c1 st1] eqn:E.
    eapply Hget; [exact E | | exact Hc]; reflexivity.
  - left. unfold clearContext in Hc. destruct (decide (sid0 = sid)) as [->|Hne].
    + by rewrite lookup_delete_eq in Hc.
    + rewrite lookup_delete_ne in Hc by done. eauto.
  - left. rewrite cleanup_lookup in Hc. destruct (st !! sid) as [c0|]; [|done].
    destruct (decide (expired now c0)); [done|]. injection Hc as <-. eauto.
Qed.

Lemma step_keeps_chartless sid op st :
  stores_chart sid op = false ->
  (canDrillDown sid st).1 = false ->
  (canDrillDown sid (step op st)).1 = false.
Proof.
  rewrite !canDrillDown_false. intros Hop H c q Hc Hq.
  destruct (step_lastQuery _ _ _ _ _ Hc Hq) as [(c0 & Hc0 & Hq0) | ->].
  - by apply (H c0 q).
  - simpl in Hop. by rewrite String.eqb_refl in Hop.
Qed.

Lemma run_keeps_chartless sid ops st :
  Forall (fun op => stores_chart sid op = false) ops ->
  (canDrillDown sid st).1 = false ->
  (canDrillDown sid (run ops st)).1 = false.
Proof.
  unfold run. intros Hops. revert st.
  induction Hops as [|op ops Hop _ IH]; intros st H; simpl; [exact H|].
  apply IH. by apply step_keeps_chartless.
Qed.

End ChartFacts.

Section DrillDownClaims.
Import ContextService AIChatHandler Scenario.

(** C4 (drill-down without a match). In a session whose last chart has
    the labels "Active" and "Completed", a drill-down of which the
    extracted value matches neither label (exactly or as a substring,
    either way, whatever the case of the letters) and of which the
    message holds neither label, returns a failure that lists these two
    labels and no other, and leaves the world as it is: no request is
    made and nothing is recorded. *)
Theorem drilldown_no_match env sid extracted msg ts w c q f cd n1 n2 :
  contexts w !! sid = Some c ->
  lastQuery c = Some q ->
  q_groupByField q = Some f -> Str.truthy f = true ->
  Str.truthy (q_objectType q) = true ->
  q_chartData q = Some cd ->
  assoc cd f = Some [ {| label := "Active"; value := n1 |};
                      {| label := "Completed"; value := n2 |} ] ->
  (Str.otruthy extracted = true ->
   match_option ["Active"; "Completed"] (default "" extracted) = None) ->
  Str.includes (Str.toLowerCase msg) "active" = false ->
  Str.includes (Str.toLowerCase msg) "completed" = false ->
  handleDrillDown env sid extracted msg ts w
  = (Ok (Some
           {| success := false;
              reply :=
                Glyph.question +:+ " I couldn't determine which value you want to see."
                +:+ Str.nl +:+ Str.nl
                +:+ "**Available options from the last chart:**" +:+ Str.nl
                +:+ Glyph.bullet +:+ " " +:+ Str.dq +:+ "Active" +:+ Str.dq +:+ Str.nl
                +:+ Glyph.bullet +:+ " " +:+ Str.dq +:+ "Completed" +:+ Str.dq
                +:+ Str.nl +:+ Str.nl +:+ "Please specify one of these values.";
              chartData := None; timestamp := ts; deepLink := None |}),
     w).
Proof.
  intros Hc Hq Hf Ht Ho Hcd Ha Hx Hm1 Hm2.
  rewrite (handleDrillDown_run env sid extracted msg ts w c q f Hc
             (grouped_query_some c q f Hq Hf Ht Ho)).
  rewrite (options_of_chart c q f cd _ Hq Hf Ht Hcd Ha). simpl map.
  assert (Hnone : matched_value ["Active"; "Completed"] extracted msg = None).
  { unfold matched_value.
    destruct (Str.otruthy extracted); [rewrite (Hx eq_refl)|];
      unfold find_truthy; cbn [List.find];
      change (Str.toLowerCase "Active") with "active";
      change (Str.toLowerCase "Completed") with "completed";
      by rewrite Hm1, Hm2. }
  rewrite Hnone. reflexivity.
Qed.

Lemma drilldown_no_match_witness :
  handleDrillDown (env_with server_error "" no_plan) "s1" (Some "pending")
    "show me the pending ones" (minute 2) after_analysis
  = (Ok (Some (failure (no_match_reply ["Active"; "Completed"]) (minute 2))),
     after_analysis).
Proof.
  apply (drilldown_no_match (env_with server_error "" no_plan) "s1" (Some "pending")
           "show me the pending ones" (minute 2) after_analysis analysed
           (AIChatHandler.analyze_record "projects" "Projects" (attr "status" "Status")
              three_projects (minute 1))
           "status"
           [("status", AIChatHandler.distribution "status" three_projects)] 2 1);
    reflexivity.
Defined.

(** C9 (one drill-down per chart). A drill-down that succeeds replaces
    the last query of the session by one with the action "drilldown"
    and the filter of the drill-down, and with neither chart data nor a
    grouping field. So [canDrillDown] is false right after it, the
    follow-up step of [handleMessage] answers no message of the session
    then, and [canDrillDown] stays false through every sequence of
    calls to the store in which no analysis stores a chart for the
    session. *)
Theorem drilldown_ends_drilldown env sid extracted msg ts w r w' :
  handleDrillDown env sid extracted msg ts w = (Ok (Some r), w') ->
  success r = true ->
  exists c q f v,
    contexts w' !! sid = Some c /\ lastQuery c = Some q
    /\ q_action q = "drilldown" /\ q_filters q = Some [(f, v)]
    /\ q_chartData q = None /\ q_groupByField q = None
    /\ canDrillDown sid (contexts w') = (false, contexts w')
    /\ (forall env' message ts',
          followup_step env' message sid ts' w' = (Ok None, w'))
    /\ forall ops,
         Forall (fun op => stores_chart sid op = false) ops ->
         (canDrillDown sid (run ops (contexts w'))).1 = false.
Proof.
  intros H Hs.
  destruct (handleDrillDown_ok _ _ _ _ _ _ _ _ H Hs) as (c0 & q0 & f & v & _ & _ & _ & Hd).
  destruct (drill_query_ok _ _ _ _ _ _ _ _ _ Hd Hs) as (response & w1 & _ & ->).
  set (Q := drilldown_record q0 f v _ _ _).
  set (c := set_lastQuery (Some Q) (getContext sid (contexts w1)).1).
  assert (Hc : contexts (with_contexts (updateLastQuery sid (Some Q) (contexts w1)) w1)
               !! sid = Some c) by apply updateLastQuery_lookup.
  exists c, Q, f, v. repeat split; try done.
  - unfold canDrillDown. by rewrite (getContext_present _ _ _ Hc).
  - intros env' message ts'. unfold followup_step.
    destruct (f_type (detectFollowUpIntent message)) as [[]|]; try reflexivity;
      by rewrite (bind_run _ _ _ _ _ (canDrillDown_run _ _ _ Hc)).
  - intros ops Hops. apply run_keeps_chartless; [exact Hops|].
    unfold canDrillDown. by rewrite (getContext_present _ _ _ Hc).
Qed.

Lemma drilldown_ends_drilldown_witness :
  handleDrillDown env_three "s1" (Some "active") "show me the active ones" (minute 2)
    after_analysis
  = (Ok (Some (response_of drilled (failure "" 0))), drilled.2)
  /\ success (response_of drilled (failure "" 0)) = true
  /\ canDrillDown "s1" (contexts drilled.2) = (false, contexts drilled.2).
Proof.
  pose proof (eq_refl : handleDrillDown env_three "s1" (Some "active")
                          "show me the active ones" (minute 2) after_analysis
                        = (Ok (Some (response_of drilled (failure "" 0))), drilled.2))
    as E.
  pose proof (eq_refl : success (response_of drilled (failure "" 0)) = true) as S.
  split; [exact E|]. split; [exact S|].
  destruct (drilldown_ends_drilldown _ _ _ _ _ _ _ _ E S)
    as (c & q & f & v & _ & _ & _ & _ & _ & _ & H & _).
  exact H.
Defined.

End DrillDownClaims.

(** ** The distribution of an analysis *)

Section DistributionFacts.
Import AIChatHandler.












End DistributionFacts.

Example distribution_of_three_projects :
  AIChatHandler.distribution "status" Scenario.three_projects
  = [ {| label := "Active"; value := 2 |}; {| label := "Completed"; value := 1 |} ].
Proof. reflexivity. Qed.

Section AnalysisClaims.
Import ContextService AIChatHandler Scenario.









End AnalysisClaims.

Section PlanClaims.
Import ContextService AIChatHandler Scenario.





End PlanClaims.

(** ** What the handlers return *)

Section Returns.
Import ContextService AIChatHandler.

Lemma returns_ret {A} (a : A) (Q : A -> Prop) : Q a -> returns (ret a) Q.
Proof. intros H w a' w' E. unfold ret in E. by inversion E; subst. Qed.

Lemma returns_throw {A} e (Q : A -> Prop) : returns (throw e) Q.
Proof. intros w a w' E. discriminate E. Qed.

Lemma returns_bind {A B} (m : M A) (f : A -> M B) (Q : B -> Prop) :
  (forall a, returns (f a) Q) -> returns (bind m f) Q.
Proof.
  intros H w b w' E. apply bind_ok in E. destruct E as (a & w1 & _ & E).
  by apply (H a w1 b w').
Qed.

Lemma returns_try_catch {A} (m : M A) (h : string -> M A) (Q : A -> Prop) :
  returns m Q -> (forall e, returns (h e) Q) -> returns (try_catch m h) Q.
Proof.
  intros Hm Hh w a w' E. apply try_catch_ok in E.
  destruct E as [E | (e & w1 & _ & E)]; [by apply (Hm w a w') | by apply (Hh e w1 a w')].
Qed.

Lemma nonempty_append s t : s <> "" -> s +:+ t <> "".
Proof. destruct s; [done | discriminate]. Qed.

Lemma sound_failure rep ts : rep <> "" -> sound (failure rep ts).
Proof. intros H _. by split. Qed.

Lemma sound_succeed rep ts href : sound (succeed rep ts href).
Proof. intros H. discriminate H. Qed.

Lemma sound_failed rep : rep <> "" -> sound_result (failed rep).
Proof. intros H _. by split. Qed.

Lemma sound_done rep : sound_result (done_ rep).
Proof. intros H. discriminate H. Qed.

End Returns.

(** Walks through a handler, down to the responses that it returns. *)
Ltac returns_step :=
  match goal with
  | |- returns (bind _ _) _ => apply returns_bind; intros
  | |- returns (ret _) _ => apply returns_ret
  | |- returns (throw _) _ => apply returns_throw
  | |- returns (try_catch _ _) _ => apply returns_try_catch; [|intros]
  | |- returns (match ?x with _ => _ end) _ => destruct x
  | |- returns (let '(_, _) := ?x in _) _ => destruct x
  | |- sound_option (Some _) => simpl
  | |- sound_option None => exact I
  | |- sound (AIChatHandler.succeed _ _ _) => apply sound_succeed
  | |- sound (AIChatHandler.failure _ _) =>
      apply sound_failure; try (apply nonempty_append; vm_compute; discriminate)
  | |- sound_result (AIChatHandler.done_ _) => apply sound_done
  | |- sound_result (AIChatHandler.failed _) =>
      apply sound_failed; try (apply nonempty_append; vm_compute; discriminate)
  end.

Ltac returns_auto := repeat returns_step.

Section HandlersReturn.
Import ContextService AIChatHandler.

Lemma getErrorResponse_sound e ts sid :
  success (getErrorResponse e ts sid) = false
  /\ chartData (getErrorResponse e ts sid) = None
  /\ reply (getErrorResponse e ts sid) <> "".
Proof.
  unfold getErrorResponse.
  destruct (Str.includes e "404" || Str.includes e "not found");
    [|destruct (Str.includes e "401" || Str.includes e "403" || Str.includes e "auth");
      [|destruct (Str.includes e "timeout" || Str.includes e "ECONNREFUSED")]];
    (split; [reflexivity|]; split; [reflexivity|]);
    apply nonempty_append; vm_compute; discriminate.
Qed.

Lemma generateContextLink_sound env c ts : sound (generateContextLink env c ts).
Proof.
  unfold generateContextLink. destruct (typed_query c).
  - destruct (q_filters _) as [[|]|]; apply sound_succeed.
  - apply sound_failure. vm_compute. discriminate.
Qed.

Lemma handleLinkRequest_sound env sid ts msg :
  returns (handleLinkRequest env sid ts msg) sound.
Proof.
  unfold handleLinkRequest. returns_auto; apply generateContextLink_sound.
Qed.

Lemma handleCountFollowUp_sound sid ts : returns (handleCountFollowUp sid ts) sound.
Proof. unfold handleCountFollowUp. returns_auto. Qed.

Lemma drill_query_sound env sid q f v ts :
  returns (drill_query env sid q f v ts) sound_option.
Proof. unfold drill_query. returns_auto. Qed.

Lemma handleDrillDown_sound env sid x msg ts :
  returns (handleDrillDown env sid x msg ts) sound_option.
Proof. unfold handleDrillDown. returns_auto. apply drill_query_sound. Qed.

Lemma returns_some (m : M AIResponse) :
  returns m sound -> returns (bind m (fun r => ret (Some r))) sound_option.
Proof.
  intros H w o w' E. apply bind_ok in E. destruct E as (r & w1 & E1 & E2).
  unfold ret in E2. inversion E2; subst. simpl. by apply (H w r w').
Qed.

Lemma handleFollowUp_sound env sid t x msg ts :
  returns (handleFollowUp env sid t x msg ts) sound_option.
Proof.
  unfold handleFollowUp. apply returns_bind. intros _.
  destruct t; simpl.
  - apply handleDrillDown_sound.
  - returns_auto.
  - apply returns_some, handleCountFollowUp_sound.
  - returns_auto.
  - returns_auto.
  - apply returns_some, handleLinkRequest_sound.
Qed.

Lemma handleCustomObjectsQuery_sound env msg ts :
  returns (handleCustomObjectsQuery env msg ts) sound.
Proof. unfold handleCustomObjectsQuery. returns_auto. Qed.

Lemma getHelpResponse_sound env ts : returns (getHelpResponse env ts) sound.
Proof. unfold getHelpResponse. returns_auto. Qed.

End HandlersReturn.

Section EntryPoint.
Import ContextService AIChatHandler Scenario.

Lemma run_query_sound env plan endpoint msg sid :
  returns (run_query env plan endpoint msg sid) sound_result.
Proof. unfold run_query. returns_auto. Qed.

Lemma executeQuery_sound env plan msg sid :
  returns (executeQuery env plan msg sid) sound_result.
Proof. unfold executeQuery. returns_auto; apply run_query_sound. Qed.

Lemma executeDescribe_sound env plan : returns (executeDescribe env plan) sound_result.
Proof. unfold executeDescribe. returns_auto. Qed.

Lemma executeAnalyze_sound env plan sid :
  returns (executeAnalyze env plan sid) sound_result.
Proof.
  unfold executeAnalyze. returns_auto. intros H. discriminate H.
Qed.

Lemma create_record_sound env plan endpoint msg :
  returns (create_record env plan endpoint msg) sound_result.
Proof. unfold create_record. returns_auto. Qed.

Lemma executeCreate_sound env plan msg :
  returns (executeCreate env plan msg) sound_result.
Proof. unfold executeCreate. returns_auto; apply create_record_sound. Qed.

Lemma executeUpdate_sound env plan msg :
  returns (executeUpdate env plan msg) sound_result.
Proof. unfold executeUpdate. returns_auto. Qed.

Lemma executeDelete_sound env plan msg :
  returns (executeDelete env plan msg) sound_result.
Proof. unfold executeDelete. returns_auto. Qed.

Lemma executePlan_sound env plan msg sid :
  returns (executePlan env plan msg sid) sound_result.
Proof.
  unfold executePlan.
  destruct (String.eqb (action plan) "help").
  { intros w r w' E. apply bind_ok in E. destruct E as (h & w1 & E1 & E2).
    unfold ret in E2. inversion E2; subst.
    exact (getHelpResponse_sound env 0 w h w' E1). }
  destruct (String.eqb (action plan) "describe"); [apply executeDescribe_sound|].
  destruct (String.eqb (action plan) "query"); [apply executeQuery_sound|].
  destruct (String.eqb (action plan) "analyze"); [apply executeAnalyze_sound|].
  destruct (String.eqb (action plan) "create"); [apply executeCreate_sound|].
  destruct (String.eqb (action plan) "update"); [apply executeUpdate_sound|].
  destruct (String.eqb (action plan) "delete"); [apply executeDelete_sound|].
  returns_auto.
Qed.

Lemma plan_step_sound env msg sid context ts :
  returns (plan_step env msg sid context ts) sound.
Proof.
  unfold plan_step. apply returns_bind. intros plan.
  intros w r w' E. apply bind_ok in E. destruct E as (result & w1 & E1 & E2).
  pose proof (executePlan_sound env plan msg sid w result w1 E1) as Hres.
  unfold bind, ctx, ctx_, get_now, ret in E2.
  destruct (getContext sid (contexts w1)) as [c0 st0]. simpl in E2.
  destruct (getContextSummary sid _) as [summary st1]. simpl in E2.
  inversion E2; subst. exact Hres.
Qed.

Lemma link_step_sound env msg sid ts :
  returns (link_step env msg sid ts) sound_option.
Proof.
  unfold link_step. destruct (is_link_request _); [|returns_auto].
  intros w o w' E. apply bind_ok in E. destruct E as (r & w1 & E1 & E2).
  pose proof (handleLinkRequest_sound env sid ts (Some msg) w r w1 E1) as Hr.
  destruct (success r).
  - unfold bind, ctx, ctx_, ret in E2.
    destruct (getContext sid (contexts w1)) as [c0 st0]. simpl in E2.
    inversion E2; subst. exact Hr.
  - unfold ret in E2. inversion E2; subst. exact I.
Qed.

Lemma followup_step_sound env msg sid ts :
  returns (followup_step env msg sid ts) sound_option.
Proof.
  unfold followup_step.
  destruct (f_type (detectFollowUpIntent msg)) as [[]|]; returns_auto;
    apply handleFollowUp_sound.
Qed.

Lemma handleMessage_try_sound env msg sid ts :
  returns (handleMessage_try env msg sid ts) sound.
Proof.
  unfold handleMessage_try. do 4 (apply returns_bind; intros).
  destruct (Regex.test re_greeting (Str.trim msg)); [apply getHelpResponse_sound|].
  intros w r w' E. apply bind_ok in E. destruct E as (linked & w1 & E1 & E2).
  pose proof (link_step_sound env msg sid ts w linked w1 E1) as Hl.
  destruct linked as [response|].
  { unfold ret in E2. inversion E2; subst. exact Hl. }
  apply bind_ok in E2. destruct E2 as (followed & w2 & E2 & E3).
  pose proof (followup_step_sound env msg sid ts w1 followed w2 E2) as Hf.
  destruct followed as [response|].
  { unfold ret in E3. inversion E3; subst. exact Hf. }
  destruct (is_custom_objects_query _).
  - exact (handleCustomObjectsQuery_sound env msg ts w2 r w' E3).
  - exact (plan_step_sound env msg sid _ ts w2 r w' E3).
Qed.

(** The count of the records of the custom objects throws nothing: a
    request that fails counts as no record. *)
Lemma count_instances_never_throws env customObjects w :
  exists counts w',
    count_instances env customObjects w = (Ok counts, w')
    /\ map fst counts = customObjects.
Proof.
  revert w. induction customObjects as [|obj rest IH]; intros w; simpl.
  - by exists [], w.
  - unfold bind at 1, try_catch.
    destruct (bind (ClarityApiClient.get env _) _ w) as [[n|e] w1].
    + destruct (IH w1) as (counts & w2 & E & Hm).
      exists ((obj, n) :: counts), w2. unfold bind, ret. rewrite E. simpl.
      by rewrite Hm.
    + unfold ret at 1. destruct (IH w1) as (counts & w2 & E & Hm).
      exists ((obj, 0%Z) :: counts), w2. unfold bind, ret. rewrite E. simpl.
      by rewrite Hm.
Qed.

(** C7, as it is stated, does not hold for every error: when the
    remote API is down, the requests that count the records of the
    custom objects throw, each after its retries, and [handleMessage]
    answers "top custom objects" with a success that shows no record
    for the object. *)
Lemma count_error_answered_as_success :
  ~ (forall env message sid w r w',
       (forall tr m u b, exists e, fetch env tr m u b = FetchThrows e) ->
       handleMessage env message sid w = (Ok r, w') ->
       (exists m u b, In (EFetch m u b) (trace w') /\ ~ In (EFetch m u b) (trace w)) ->
       success r = false).
Proof.
  intros H.
  assert (E : handleMessage env_down "top custom objects" "s1" fresh
              = (Ok (value_of top_outcome (failure "" 0)), top_outcome.2))
    by (vm_compute; reflexivity).
  specialize (H env_down "top custom objects" "s1" fresh _ _
                (fun _ _ _ _ => ex_intro _ "connect ECONNREFUSED" eq_refl) E).
  assert (Hs : success (value_of top_outcome (failure "" 0)) = true)
    by (vm_compute; reflexivity).
  rewrite H in Hs; [discriminate Hs|].
  exists "GET", "https://clarity.example/ppm/rest/v1/custRisk?fields=_internalId&limit=1", None.
  split; [|intros []].
  vm_compute. tauto.
Qed.

(** C7 (total entry point), amended. For every message, session and
    world, in every environment, [handleMessage] returns a response,
    with its members [success], [reply] and [chartData], and throws
    nothing: when its [try] block throws an error, the response is that
    of [getErrorResponse] for this error, which is a failure with a
    reply that is not empty and without chart data. Every failure that
    [handleMessage] returns has a reply that is not empty and no chart
    data. An error that a step handles itself does not leave the [try]
    block, and the response need not be a failure. *)
Theorem handleMessage_total env (message sid : string) (w : World) :
  exists r w',
    handleMessage env message sid w = (Ok r, w')
    /\ (forall e w1,
          handleMessage_try env message sid (now env (trace w)) w = (Throw e, w1) ->
          r = getErrorResponse e (now env (trace w)) sid /\ w' = w1
          /\ success r = false /\ chartData r = None /\ reply r <> "")
    /\ (success r = false -> reply r <> "" /\ chartData r = None).
Proof.
  unfold handleMessage, bind, get_now, try_catch.
  destruct (handleMessage_try env message sid (now env (trace w)) w) as [[r|e] w1] eqn:E.
  - exists r, w1. split; [reflexivity|]. split; [intros e' w2 X; discriminate X|].
    exact (handleMessage_try_sound env message sid _ w r w1 E).
  - exists (getErrorResponse e (now env (trace w)) sid), w1.
    destruct (getErrorResponse_sound e (now env (trace w)) sid) as (H1 & H2 & H3).
    split; [reflexivity|]. split.
    + intros e' w2 X. inversion X; subst. auto.
    + auto.
Qed.

End EntryPoint.

(** ** The trace only grows *)

Section Grows.
Import ContextService AIChatHandler.














End Grows.



Section HandlersGrow.
Import ContextService AIChatHandler.







End HandlersGrow.


Section LinkClaims.
Import ContextService AIChatHandler Scenario.












End LinkClaims.

(* ===================================================================== *)
(** * Further properties *)

Import Further.

Section StoreExtras.
Import ContextService.

Lemma getContext_snd_insert sid st c :
  (getContext sid st).2 !! sid = Some c -> c = (getContext sid st).1.
Proof. rewrite getContext_lookup. congruence. Qed.

(** X1 (sessions are independent). A call of the context service for
    one session, a read or a write, leaves the context of every other
    session as it is. *)
Theorem calls_leave_other_sessions sid sid' (st : gmap string ConversationContext) :
  sid <> sid' ->
  (getContext sid st).2 !! sid' = st !! sid'
  /\ (forall q, updateLastQuery sid q st !! sid' = st !! sid')
  /\ (forall turn, addToHistory sid turn st !! sid' = st !! sid')
  /\ (forall page, setCurrentPage sid page st !! sid' = st !! sid')
  /\ (forall prefs, updatePreferences sid prefs st !! sid' = st !! sid')
  /\ clearContext sid st !! sid' = st !! sid'
  /\ (canDrillDown sid st).2 !! sid' = st !! sid'
  /\ (getDrillDownOptions sid st).2 !! sid' = st !! sid'
  /\ (forall v, (findDrillDownMatch sid v st).2 !! sid' = st !! sid')
  /\ (forall v, (buildDrillDownRequest sid v st).2 !! sid' = st !! sid')
  /\ (getLastObjectType sid st).2 !! sid' = st !! sid'
  /\ (getLastObjectLabel sid st).2 !! sid' = st !! sid'
  /\ (getContextSummary sid st).2 !! sid' = st !! sid'.
Proof.
  intros Hne.
  pose proof (getContext_other sid sid' st Hne) as G.
  unfold updateLastQuery, addToHistory, setCurrentPage, updatePreferences, clearContext,
    canDrillDown, findDrillDownMatch, getDrillDownOptions, buildDrillDownRequest,
    getLastObjectType, getLastObjectLabel, getContextSummary.
  destruct (getContext sid st) as [c st1]. simpl in G.
  repeat split; intros; simpl; rewrite ?lookup_insert_ne, ?lookup_delete_ne by done;
    done.
Qed.

End StoreExtras.

Section StoreExtras2.
Import ContextService Scenario.

Lemma calls_leave_other_sessions_witness :
  "s1" <> "s2"
  /\ updateLastQuery "s1" None (contexts after_analysis) !! "s2"
     = contexts after_analysis !! "s2"
  /\ clearContext "s2" (contexts after_analysis) !! "s1" = Some analysed.
Proof.
  split; [discriminate|]. split.
  - destruct (calls_leave_other_sessions "s1" "s2" (contexts after_analysis)
                ltac:(discriminate)) as (_ & H & _).
    apply H.
  - destruct (calls_leave_other_sessions "s2" "s1" (contexts after_analysis)
                ltac:(discriminate)) as (_ & _ & _ & _ & _ & H & _).
    rewrite H. reflexivity.
Defined.

Lemma merge_preferences_assoc old p1 p2 :
  merge_preferences (Some (merge_preferences old p1)) p2
  = merge_preferences old (merge_preferences (Some p1) p2).
Proof.
  unfold merge_preferences. destruct p1, p2, old as [[]|]; simpl;
    repeat match goal with |- context [match ?x with _ => _ end] => destruct x end;
    reflexivity.
Qed.

(** X2 (preferences accumulate). [updatePreferences] replaces the
    members that the update gives and keeps the others, and touches
    nothing else of the context; two updates in a row come to one
    update with the second one laid over the first. *)
Theorem updatePreferences_accumulates sid p1 p2 (st : gmap string ConversationContext) :
  let c := (getContext sid st).1 in
  let c1 := set_preferences (Some (merge_preferences (preferences c) p1)) c in
  updatePreferences sid p1 st !! sid = Some c1
  /\ lastQuery c1 = lastQuery c /\ history c1 = history c
  /\ currentPage c1 = currentPage c
  /\ (forall member : Preferences -> option string,
        In member [preferredChartType; language; detailLevel] ->
        preferences c1 ≫= member
        = match member p1 with
          | Some x => Some x
          | None => preferences c ≫= member
          end)
  /\ updatePreferences sid p2 (updatePreferences sid p1 st)
     = updatePreferences sid (merge_preferences (Some p1) p2) st.
Proof.
  intros c c1.
  assert (H1 : updatePreferences sid p1 st = <[sid := c1]> (getContext sid st).2).
  { unfold updatePreferences, c1, c. by destruct (getContext sid st). }
  split; [rewrite H1; apply lookup_insert_eq|].
  split; [done|]. split; [done|]. split; [done|].
  split.
  - intros member [<-|[<-|[<-|[]]]]; simpl;
      [destruct (preferredChartType p1) | destruct (language p1)
       | destruct (detailLevel p1)]; try reflexivity;
      by destruct (preferences c).
  - rewrite H1. unfold updatePreferences at 1.
    rewrite (getContext_present sid _ c1) by apply lookup_insert_eq.
    rewrite insert_insert_eq.
    unfold updatePreferences. fold c.
    destruct (getContext sid st) as [c' st1] eqn:E. simpl in *. subst c. f_equal.
    unfold c1, set_preferences. simpl. f_equal. f_equal.
    apply merge_preferences_assoc.
Qed.

End StoreExtras2.

Section MatchExtras.
Import ContextService Scenario.




(** X4 (no chart, no drill-down). In a session of which [canDrillDown]
    is false, there is no drill-down option and no value selects a
    label. *)
Theorem no_chart_no_options sid (st : gmap string ConversationContext) :
  (canDrillDown sid st).1 = false ->
  (getDrillDownOptions sid st).1 = []
  /\ forall userValue, (findDrillDownMatch sid userValue st).1 = None.
Proof.
  unfold canDrillDown, findDrillDownMatch, getDrillDownOptions.
  destruct (getContext sid st) as [c st1]. simpl. intros H.
  assert (O : options_of c = []).
  { unfold options_of. destruct (lastQuery c) as [q|]; [|done].
    unfold has_chart in H. destruct (q_chartData q); [|done].
    destruct (q_groupByField q) as [f|]; [|done]. simpl in H. by rewrite H. }
  by rewrite O.
Qed.

Lemma no_chart_no_options_witness :
  (canDrillDown "s1" (contexts drilled.2)).1 = false
  /\ (findDrillDownMatch "s1" "active" (contexts drilled.2)).1 = None.
Proof.
  split; [reflexivity|].
  apply (no_chart_no_options "s1" (contexts drilled.2) eq_refl).
Defined.

(** X5 (a read registers the session). Every method of the context
    service that reads a session starts with [getContext]: on a session
    that the store does not hold, it answers as for an empty session
    and leaves a new, empty context for it in the store. *)
Theorem reads_register_sessions sid (st : gmap string ConversationContext) :
  st !! sid = None ->
  let st' := <[sid := createNewContext sid]> st in
  canDrillDown sid st = (false, st')
  /\ getDrillDownOptions sid st = ([], st')
  /\ (forall v, findDrillDownMatch sid v st = (None, st'))
  /\ (forall v, buildDrillDownRequest sid v st = (None, st'))
  /\ getLastObjectType sid st = (None, st')
  /\ getLastObjectLabel sid st = (None, st')
  /\ getContextSummary sid st = ("", st')
  /\ history (createNewContext sid) = [] /\ lastQuery (createNewContext sid) = None.
Proof.
  intros H st'.
  unfold canDrillDown, findDrillDownMatch, getDrillDownOptions, buildDrillDownRequest,
    getLastObjectType, getLastObjectLabel, getContextSummary.
  rewrite (getContext_absent _ _ H). repeat split.
Qed.

Lemma reads_register_sessions_witness :
  (∅ : gmap string ConversationContext) !! "s1" = None
  /\ canDrillDown "s1" ∅ = (false, {["s1" := createNewContext "s1"]}).
Proof.
  split; [reflexivity|].
  destruct (reads_register_sessions "s1" ∅ (lookup_empty _)) as [H _].
  exact H.
Defined.

End MatchExtras.

Section RegexFacts.
Import Regex.

Variable Q : ascii -> Prop.

(** Every character of [s] satisfies [Q]. *)
Let all (s : string) : Prop := Forall Q (String.list_ascii_of_string s).
Let caps_all (caps : Caps) : Prop := Forall (fun it : nat * string => all it.2) caps.

Lemma all_tail c s : all (String c s) -> all s.
Proof. unfold all. simpl. by inversion 1. Qed.

Lemma all_substring s : all s -> forall n m, all (String.substring n m s).
Proof.
  unfold all. induction s as [|c s IH]; intros H n m.
  - destruct n, m; constructor.
  - simpl in H. inversion H; subst. destruct n; simpl.
    + destruct m; simpl; [constructor|]. constructor; [done|]. by apply IH.
    + by apply IH.
Qed.

(** The captures of a match are made of characters of the input. *)
Lemma mt_all {A} (R : A -> Prop) (r : re) :
  forall prev s caps (k : option ascii -> string -> Caps -> option A),
    all s -> caps_all caps ->
    (forall p' s' c', all s' -> caps_all c' -> forall x, k p' s' c' = Some x -> R x) ->
    forall x, mt r prev s caps k = Some x -> R x.
Proof.
  induction r as [|p|a IHa b IHb|a IHa b IHb|greedy a IHa|i a IHa| | |];
    intros prev s caps k Hs Hc Hk x; simpl.
  - by apply Hk.
  - destruct s as [|c s']; [discriminate|].
    destruct (p c); [|discriminate]. apply Hk; [by eapply all_tail | done].
  - apply IHa; [done | done |]. intros p' s' c' Hs' Hc'. by apply IHb.
  - destruct (mt a prev s caps k) as [y|] eqn:E.
    + intros [= <-]. by eapply IHa.
    + by apply IHb.
  - generalize (String.length s). intros n. revert prev s caps Hs Hc x.
    induction n as [|n IHn]; intros prev s caps Hs Hc x; [by apply Hk|].
    destruct greedy.
    + match goal with |- context [mt a prev s caps ?k'] =>
        destruct (mt a prev s caps k') as [y|] eqn:E end.
      * intros [= <-]. revert E. apply IHa; [done | done |].
        intros p' s' c' Hs' Hc' z.
        destruct (String.length s' <? String.length s)%nat; [|discriminate].
        by apply IHn.
      * by apply Hk.
    + destruct (k prev s caps) as [y|] eqn:E.
      * intros [= <-]. by eapply Hk.
      * apply IHa; [done | done |].
        intros p' s' c' Hs' Hc' z.
        destruct (String.length s' <? String.length s)%nat; [|discriminate].
        by apply IHn.
  - apply IHa; [done | done |]. intros p' s' c' Hs' Hc'. apply Hk; [done|].
    constructor; [|done]. simpl. by apply all_substring.
  - destruct prev; [discriminate|]. by apply Hk.
  - destruct s; [|discriminate]. by apply Hk.
  - destruct (xorb _ _); [|discriminate]. by apply Hk.
Qed.

Lemma search_all r : forall s prev pre m,
  all s -> search r prev pre s = Some m -> caps_all (groups m).
Proof.
  induction s as [|c s IH]; intros prev pre m Hs; simpl.
  - destruct (mt r prev "" [] _) as [[rest caps]|] eqn:E; [|discriminate].
    intros [= <-]. simpl.
    revert E. apply (mt_all (fun x : string * Caps => caps_all x.2)); [done | constructor |].
    intros p' s' c' _ Hc' x [= <-]. done.
  - destruct (mt r prev (String c s) [] _) as [[rest caps]|] eqn:E.
    + intros [= <-]. simpl.
      revert E. apply (mt_all (fun x : string * Caps => caps_all x.2)); [done | constructor |].
      intros p' s' c' _ Hc' x [= <-]. done.
    + apply IH. by eapply all_tail.
Qed.

Lemma cap_all caps i t : caps_all caps -> cap caps i = Some t -> all t.
Proof.
  induction caps as [|[j u] caps IH]; simpl; [discriminate|].
  intros H. inversion H; subst. destruct (j =? i)%nat; [by intros [= <-] | by apply IH].
Qed.

Lemma all_trimStart s : all s -> all (Str.trimStart s).
Proof.
  induction s as [|c s IH]; simpl; [done|]. intros H.
  destruct (Str.is_space c); [|done]. apply IH. by eapply all_tail.
Qed.

Lemma all_rev_string s : forall acc, all s -> all acc -> all (Str.rev_string s acc).
Proof.
  induction s as [|c s IH]; intros acc Hs Ha; simpl; [done|].
  unfold all in Hs. simpl in Hs. inversion Hs; subst.
  apply IH; [done|]. unfold all. simpl. by constructor.
Qed.

Lemma all_trim s : all s -> all (Str.trim s).
Proof.
  intros H. unfold Str.trim, Str.trimEnd.
  apply all_rev_string; [|constructor].
  apply all_trimStart, all_rev_string; [|constructor]. by apply all_trimStart.
Qed.

Lemma detect_all table s v :
  all s -> extractedValue (detect table s) = Some v -> all v.
Proof.
  intros Hs. induction table as [|[intent patterns] table IH]; simpl; [discriminate|].
  destruct (first_match patterns s) as [m|] eqn:E; [|done]. simpl.
  assert (Hm : caps_all (groups m)).
  { clear IH. induction patterns as [|p ps IHp]; simpl in E; [discriminate|].
    destruct (exec p s) as [m'|] eqn:X.
    - injection E as ->. by eapply search_all.
    - by apply IHp. }
  unfold extract, truthy_group, group.
  destruct (cap (groups m) 3) as [t|] eqn:C3.
  - destruct (Str.truthy t).
    + intros [= <-]. eapply all_trim, cap_all; eauto.
    + destruct (cap (groups m) 2) as [u|] eqn:C2.
      * destruct (Str.truthy u).
        -- intros [= <-]. eapply all_trim, cap_all; eauto.
        -- destruct (cap (groups m) 1) as [x|] eqn:C1; [|discriminate].
           intros [= <-]. eapply all_trim, cap_all; eauto.
      * destruct (cap (groups m) 1) as [x|] eqn:C1; [|discriminate].
        intros [= <-]. eapply all_trim, cap_all; eauto.
  - destruct (cap (groups m) 2) as [u|] eqn:C2.
    + destruct (Str.truthy u).
      * intros [= <-]. eapply all_trim, cap_all; eauto.
      * destruct (cap (groups m) 1) as [x|] eqn:C1; [|discriminate].
        intros [= <-]. eapply all_trim, cap_all; eauto.
    + destruct (cap (groups m) 1) as [x|] eqn:C1; [|discriminate].
      intros [= <-]. eapply all_trim, cap_all; eauto.
Qed.

End RegexFacts.

Section LowerFacts.

Lemma lower_ascii_idem c : Str.lower_ascii (Str.lower_ascii c) = Str.lower_ascii c.
Proof. destruct c as [[] [] [] [] [] [] [] []]; reflexivity. Qed.

Lemma toLowerCase_lowered s :
  Forall (fun c => Str.lower_ascii c = c) (String.list_ascii_of_string (Str.toLowerCase s)).
Proof.
  induction s as [|c s IH]; simpl; constructor; [apply lower_ascii_idem | done].
Qed.

Lemma lowered_toLowerCase s :
  Forall (fun c => Str.lower_ascii c = c) (String.list_ascii_of_string s) ->
  Str.toLowerCase s = s.
Proof.
  induction s as [|c s IH]; simpl; [done|]. inversion 1; subst.
  rewrite IH by done. congruence.
Qed.

(** X6 (the extracted value is in lower case). The value that
    [detectFollowUpIntent] extracts from a message is cut out of the
    message in lower case: it holds no upper-case letter, whatever the
    case of the message. *)
Theorem extracted_value_is_lower_case message v :
  extractedValue (detectFollowUpIntent message) = Some v ->
  Str.toLowerCase v = v.
Proof.
  intros H. apply lowered_toLowerCase.
  eapply detect_all; [|exact H]. apply toLowerCase_lowered.
Qed.

Lemma extracted_value_is_lower_case_witness :
  extractedValue (detectFollowUpIntent "Show me the ACTIVE Ones") = Some "active"
  /\ Str.toLowerCase "active" = "active".
Proof.
  split; [vm_compute; reflexivity|].
  apply (extracted_value_is_lower_case "Show me the ACTIVE Ones" "active").
  vm_compute. reflexivity.
Defined.

End LowerFacts.

Section GreedyFacts.
Import Regex.

Lemma star_chr_step {A} p c s prev caps (k : option ascii -> string -> Caps -> option A) :
  p c = true ->
  mt (Star true (Chr p)) prev (String c s) caps k
  = match mt (Star true (Chr p)) (Some c) s caps k with
    | Some x => Some x
    | None => k prev (String c s) caps
    end.
Proof.
  intros Hp. simpl. rewrite Hp.
  replace (String.length s <? S (String.length s))%nat with true; [reflexivity|].
  symmetry. apply Nat.ltb_lt. lia.
Qed.

Lemma star_chr_stop {A} p s prev caps (k : option ascii -> string -> Caps -> option A) :
  match s with String c _ => p c = false | EmptyString => True end ->
  mt (Star true (Chr p)) prev s caps k = k prev s caps.
Proof.
  destruct s as [|c s]; simpl; [reflexivity|]. intros Hp. by rewrite Hp.
Qed.

(** A greedy star of a character class takes a whole run of the class
    when the rest of the pattern matches behind the run. *)
Lemma star_chr_run {A} p w : forall rest prev caps (k : option ascii -> string -> Caps -> option A) x,
  Forall (fun c => p c = true) (String.list_ascii_of_string w) ->
  k (last_char prev w) rest caps = Some x ->
  match rest with String c _ => p c = false | EmptyString => True end ->
  mt (Star true (Chr p)) prev (w +:+ rest) caps k = Some x.
Proof.
  induction w as [|c w IH]; intros rest prev caps k x Hw Hk Hr.
  - change ("" +:+ rest) with rest. rewrite star_chr_stop by done. exact Hk.
  - simpl in Hw. inversion Hw; subst.
    change (String c w +:+ rest) with (String c (w +:+ rest)).
    rewrite star_chr_step by done. by rewrite (IH rest (Some c) caps k x).
Qed.

Lemma length_append a b :
  String.length (a +:+ b) = String.length a + String.length b.
Proof. induction a as [|c a IH]; simpl; [done|]. by rewrite IH. Qed.

Lemma substring_length_prefix w : forall rest,
  String.substring 0 (String.length w) (w +:+ rest) = w.
Proof.
  induction w as [|c w IH]; intros rest; simpl.
  - by destruct rest.
  - by rewrite IH.
Qed.

Lemma substring_prefix w rest :
  String.substring 0 (String.length (w +:+ rest) - String.length rest) (w +:+ rest) = w.
Proof.
  rewrite length_append.
  replace (String.length w + String.length rest - String.length rest)
    with (String.length w) by lia.
  apply substring_length_prefix.
Qed.

End GreedyFacts.

Section Click.
Import Regex.

Lemma mt_seq {A} a b prev s caps (k : option ascii -> string -> Caps -> option A) :
  mt (Seq a b) prev s caps k
  = mt a prev s caps (fun p' s' c' => mt b p' s' c' k).
Proof. reflexivity. Qed.

Lemma mt_group {A} i a prev s caps (k : option ascii -> string -> Caps -> option A) :
  mt (Group i a) prev s caps k
  = mt a prev s caps
       (fun p' s' c' =>
          k p' s' ((i, String.substring 0 (String.length s - String.length s') s) :: c')).
Proof. reflexivity. Qed.

Lemma mt_opt_some {A} r prev s caps (k : option ascii -> string -> Caps -> option A) x :
  mt r prev s caps k = Some x -> mt (opt r) prev s caps k = Some x.
Proof. intros H. unfold opt. simpl. by rewrite H. Qed.

Lemma mt_chr {A} p c s prev caps (k : option ascii -> string -> Caps -> option A) :
  p c = true -> mt (Chr p) prev (String c s) caps k = k (Some c) s caps.
Proof. intros H. simpl. by rewrite H. Qed.

(** A literal of the pattern matches the same text in the input. *)
Lemma mt_liti {A} t : forall rest prev caps (k : option ascii -> string -> Caps -> option A),
  t <> "" ->
  mt (liti t) prev (Str.toLowerCase t +:+ rest) caps k
  = k (last_char prev (Str.toLowerCase t)) rest caps.
Proof.
  induction t as [|c t IH]; intros rest prev caps k Hne; [done|].
  assert (Hc : is_char_i c (Str.lower_ascii c) = true).
  { unfold is_char_i. apply Ascii.eqb_eq.
    destruct c as [[] [] [] [] [] [] [] []]; reflexivity. }
  destruct t as [|d t].
  - simpl. by rewrite Hc.
  - change (liti (String c (String d t))) with (Seq (Chr (is_char_i c)) (liti (String d t))).
    rewrite mt_seq.
    change (Str.toLowerCase (String c (String d t)) +:+ rest)
      with (String (Str.lower_ascii c) (Str.toLowerCase (String d t) +:+ rest)).
    rewrite mt_chr by done. by rewrite IH.
Qed.

Lemma click_pattern c w' :
  is_word c = true ->
  Forall (fun c => is_word c = true) (String.list_ascii_of_string w') ->
  exists m,
    exec (seqs [liti "show"; star ws; opt (Group 1 (Seq (liti "me") (star ws)));
                opt (Group 2 (Seq (liti "the") (star ws)));
                Group 3 (plus word); star ws; liti "one"; opt (liti "s")])
         ("show me the " +:+ String c w' +:+ " ones") = Some m
    /\ groups m = [(3, String c w'); (2, "the "); (1, "me ")].
Proof.
  intros Hc Hw.
  assert (Hsp : Str.is_space c = false).
  { revert Hc. destruct c as [[] [] [] [] [] [] [] []]; vm_compute; congruence. }
  unfold exec, search.
  set (k0 := fun (_ : option ascii) (rest : string) (caps : Caps) => Some (rest, caps)).
  set (s := "show me the " +:+ String c w' +:+ " ones").
  assert (E : mt (seqs [liti "show"; star ws; opt (Group 1 (Seq (liti "me") (star ws)));
                opt (Group 2 (Seq (liti "the") (star ws)));
                Group 3 (plus word); star ws; liti "one"; opt (liti "s")]) None s [] k0
              = Some ("", [(3, String c w'); (2, "the "); (1, "me ")])).
  { cbn [seqs]. unfold s.
    rewrite mt_seq.
    rewrite (mt_liti "show" (" me the " +:+ String c w' +:+ " ones")) by done.
    rewrite mt_seq.
    apply (star_chr_run Str.is_space " " ("me the " +:+ String c w' +:+ " ones"));
      [repeat constructor | | reflexivity].
    rewrite mt_seq. apply mt_opt_some. rewrite mt_group, mt_seq.
    rewrite (mt_liti "me" (" the " +:+ String c w' +:+ " ones")) by done.
    apply (star_chr_run Str.is_space " " ("the " +:+ String c w' +:+ " ones"));
      [repeat constructor | | reflexivity].
    rewrite mt_seq. apply mt_opt_some. rewrite mt_group, mt_seq.
    rewrite (mt_liti "the" (" " +:+ String c w' +:+ " ones")) by done.
    apply (star_chr_run Str.is_space " " (String c w' +:+ " ones"));
      [repeat constructor | | exact Hsp].
    rewrite mt_seq, mt_group. unfold plus. rewrite mt_seq.
    change (String c w' +:+ " ones") with (String c (w' +:+ " ones")).
    unfold word at 1. rewrite mt_chr by exact Hc.
    apply (star_chr_run is_word w' " ones"); [exact Hw | | reflexivity].
    rewrite mt_seq.
    apply (star_chr_run Str.is_space " " "ones"); [repeat constructor | | reflexivity].
    rewrite mt_seq. rewrite (mt_liti "one" "s") by done.
    apply mt_opt_some. rewrite (mt_liti "s" "") by done.
    unfold k0. f_equal. f_equal.
    change (String c (w' +:+ " ones")) with (String c w' +:+ " ones").
    rewrite (substring_prefix (String c w') " ones").
    rewrite (substring_prefix "the " (String c w' +:+ " ones")).
    change ("me the " +:+ (String c w' +:+ " ones"))
      with ("me " +:+ ("the " +:+ (String c w' +:+ " ones"))).
    rewrite (substring_prefix "me " ("the " +:+ (String c w' +:+ " ones"))).
    reflexivity. }
  destruct s as [|c0 s0] eqn:Hs; [discriminate Hs|].
  rewrite E. eexists. split; reflexivity.
Qed.

Lemma toLowerCase_app a b :
  Str.toLowerCase (a +:+ b) = Str.toLowerCase a +:+ Str.toLowerCase b.
Proof.
  induction a as [|c a IH]; [done|].
  change (String (Str.lower_ascii c) (Str.toLowerCase (a +:+ b))
          = String (Str.lower_ascii c) (Str.toLowerCase a +:+ Str.toLowerCase b)).
  by rewrite IH.
Qed.

Lemma is_word_lower c : is_word (Str.lower_ascii c) = is_word c.
Proof. destruct c as [[] [] [] [] [] [] [] []]; reflexivity. Qed.

Lemma is_word_not_space c : is_word c = true -> Str.is_space c = false.
Proof. destruct c as [[] [] [] [] [] [] [] []]; vm_compute; congruence. Qed.

Lemma rev_string_app s : forall acc,
  Str.rev_string s acc = Str.rev_string s "" +:+ acc.
Proof.
  induction s as [|c s IH]; intros acc; simpl; [done|].
  rewrite IH, (IH (String c "")).
  generalize (Str.rev_string s ""). intros r.
  induction r as [|d r IHr]; [done|].
  change (String d (r +:+ String c acc) = String d ((r +:+ String c "") +:+ acc)).
  by rewrite IHr.
Qed.

Lemma rev_string_snoc s c :
  Str.rev_string (s +:+ String c "") "" = String c (Str.rev_string s "").
Proof.
  induction s as [|d s IH]; [done|].
  change (Str.rev_string (s +:+ String c "") (String d "")
          = String c (Str.rev_string s (String d ""))).
  rewrite rev_string_app, IH. by rewrite (rev_string_app s (String d "")).
Qed.

Lemma rev_string_involutive s : Str.rev_string (Str.rev_string s "") "" = s.
Proof.
  induction s as [|c s IH]; simpl; [done|].
  rewrite (rev_string_app s), rev_string_snoc. by rewrite IH.
Qed.

(** A text of word characters has no white space to trim. *)
Lemma trim_word w :
  Forall (fun c => is_word c = true) (String.list_ascii_of_string w) -> Str.trim w = w.
Proof.
  intros H. unfold Str.trim, Str.trimEnd.
  assert (T : forall s, Forall (fun c => is_word c = true) (String.list_ascii_of_string s) ->
                        Str.trimStart s = s).
  { intros [|c s] Hs; simpl; [done|]. inversion Hs; subst.
    by rewrite is_word_not_space. }
  assert (R : forall s acc,
            Forall (fun c => is_word c = true) (String.list_ascii_of_string s) ->
            Forall (fun c => is_word c = true) (String.list_ascii_of_string acc) ->
            Forall (fun c => is_word c = true)
                   (String.list_ascii_of_string (Str.rev_string s acc))).
  { induction s as [|c s IH]; intros acc Hs Ha; simpl; [done|].
    simpl in Hs. inversion Hs; subst. apply IH; [done|]. simpl. by constructor. }
  rewrite (T w H), T by (apply R; [done | constructor]).
  apply rev_string_involutive.
Qed.

End Click.

Section ClickTheorem.
Import Regex.

(** X7 (a click on a bar is a drill-down). The message that the chat
    widget sends when a bar of a chart is clicked, "show me the L
    ones", is read as the intent [showSelected] with the label [L] in
    lower case as its value, for every label [L] that is one word
    (letters, digits and underscores). *)
Theorem chart_click_is_drill_down (L : string) :
  L <> "" ->
  Forall (fun c => is_word c = true) (String.list_ascii_of_string L) ->
  detectFollowUpIntent ("show me the " +:+ L +:+ " ones")
  = {| f_type := Some Intent.showSelected;
       extractedValue := Some (Str.toLowerCase L) |}.
Proof.
  intros Hne Hw. unfold detectFollowUpIntent.
  rewrite !toLowerCase_app.
  change (Str.toLowerCase "show me the ") with "show me the ".
  change (Str.toLowerCase " ones") with " ones".
  assert (Hl : Forall (fun c => is_word c = true)
                      (String.list_ascii_of_string (Str.toLowerCase L))).
  { clear Hne. induction L as [|c L IH]; simpl; [constructor|].
    simpl in Hw. inversion Hw; subst. constructor; [by rewrite is_word_lower | by apply IH]. }
  destruct (Str.toLowerCase L) as [|c w'] eqn:E; [by destruct L|].
  simpl in Hl. inversion Hl as [|? ? Hc Hw']; subst.
  destruct (click_pattern c w' Hc Hw') as (m & Hm & Hg).
  unfold FOLLOW_UP_PATTERNS. cbn [detect first_match]. rewrite Hm.
  f_equal. unfold extract, truthy_group, group. rewrite Hg. simpl.
  f_equal. apply (trim_word (String c w')). simpl. by constructor.
Qed.

Lemma chart_click_is_drill_down_witness :
  detectFollowUpIntent ("show me the " +:+ "Active" +:+ " ones")
  = {| f_type := Some Intent.showSelected; extractedValue := Some "active" |}.
Proof.
  apply (chart_click_is_drill_down "Active"); [discriminate|].
  repeat constructor.
Defined.

End ClickTheorem.

Section ClientExtras.
Import ClarityApiClient Scenario.

(** X8 (the first attempt decides). A request whose first attempt is
    answered with a body returns it after this one attempt. A request
    whose first attempt fails with an error that holds "401" or "403"
    anywhere in its text, be it an HTTP status or a network error,
    throws this error after this one attempt, without a pause. *)
Theorem first_attempt_decides env method endpoint body (w : World) :
  (0 < maxRetries env)%nat ->
  let url := url_of env endpoint in
  let one := add_events [EFetch method url body] w in
  (forall data, fetch env (trace w) method url body = RespOk data ->
     request env method endpoint body w = (Ok data, one))
  /\ (forall message,
        result_of (fetch env (trace w) method url body) = Throw message ->
        is_auth_error message = true ->
        request env method endpoint body w = (Throw message, one)).
Proof.
  intros Hn url one. unfold request. fold url.
  destruct (maxRetries env) as [|n]; [lia|]. split.
  - intros data H. simpl. unfold bind at 1. rewrite fetch_once_run. fold url.
    rewrite H. reflexivity.
  - intros message H Ha. by apply attempts_auth.
Qed.

Lemma first_attempt_decides_witness :
  (0 < maxRetries env_down)%nat
  /\ request (env_with (FetchThrows "socket 4011 closed") "" no_plan) "GET" "/projects"
       None fresh
     = (Throw "socket 4011 closed",
        add_events [EFetch "GET" "https://clarity.example/ppm/rest/v1/projects" None]
          fresh).
Proof.
  split; [vm_compute; lia|].
  destruct (first_attempt_decides (env_with (FetchThrows "socket 4011 closed") "" no_plan)
              "GET" "/projects" None fresh ltac:(vm_compute; lia)) as [_ H].
  apply (H "socket 4011 closed"); reflexivity.
Defined.

Lemma attempts_schedule env method url body :
  forall fuel attempt lastError w o w',
    attempt + fuel = maxRetries env ->
    attempts env method url body fuel attempt lastError w = (o, w') ->
    exists k,
      k <= fuel
      /\ w' = add_events (attempt_events (EFetch method url body) attempt k) w
      /\ (0 < fuel -> 0 < k)
      /\ (forall message, o = Throw message ->
            k = fuel \/ is_auth_error message = true)
      /\ (fuel = 0 -> o = Throw (default "Request failed" lastError)).
Proof.
  induction fuel as [|fuel IH]; intros attempt lastError w o w' Hsum H.
  - simpl in H. inversion H; subst. exists 0. split; [lia|]. split.
    + unfold add_events. simpl. by rewrite world_eta.
    + split; [lia|]. split; [by left | done].
  - simpl in H. unfold bind at 1 in H. rewrite fetch_once_run in H.
    destruct (result_of _) as [data|message] eqn:R.
    { inversion H; subst. exists 1. split; [lia|]. split; [done|].
      split; [lia|]. split; [discriminate | lia]. }
    destruct (is_auth_error message) eqn:Ha.
    { inversion H; subst. exists 1. split; [lia|]. split; [done|].
      split; [lia|]. split; [|lia]. intros m [= <-]. by right. }
    destruct (attempt <? maxRetries env - 1)%nat eqn:E.
    + apply Nat.ltb_lt in E. unfold bind at 1, emit at 1 in H.
      apply IH in H; [|lia]. destruct H as (k & Hk & -> & Hpos & Hthrow & _).
      assert (0 < k) by (apply Hpos; lia).
      exists (S k). split; [lia|]. split.
      * unfold add_events. simpl. f_equal. destruct k as [|k]; [lia|].
        by rewrite <- !app_assoc.
      * split; [lia|]. split; [|lia].
        intros m Hm. destruct (Hthrow m Hm); [left; lia | by right].
    + apply Nat.ltb_ge in E. unfold bind at 1, ret at 1 in H.
      assert (fuel = 0) as -> by lia.
      simpl in H. inversion H; subst. exists 1. split; [lia|]. split; [done|].
      split; [lia|]. split; [by left | lia].
Qed.

(** X9 (the schedule of a request). Whatever the remote API answers, a
    request makes [k] attempts at its one URL, between one and
    [maxRetries] of them, with a pause of 1000 ms behind the first,
    2000 ms behind the second, and so on between two attempts, and
    leaves nothing else behind. It gives up with an error before the
    last attempt only if the text of the error holds "401" or "403".
    With [maxRetries] at zero, it sends nothing and throws "Request
    failed". *)
Theorem request_follows_schedule env method endpoint body (w : World) :
  exists k o,
    k <= maxRetries env
    /\ request env method endpoint body w
       = (o, add_events
               (attempt_events (EFetch method (url_of env endpoint) body) 0 k) w)
    /\ (0 < maxRetries env -> 0 < k)
    /\ (forall message, o = Throw message ->
          k = maxRetries env \/ is_auth_error message = true)
    /\ (maxRetries env = 0 -> o = Throw "Request failed").
Proof.
  destruct (request env method endpoint body w) as [o w'] eqn:E.
  unfold request in E.
  destruct (attempts_schedule _ _ _ _ _ _ _ _ _ _ (Nat.add_0_l _) E)
    as (k & Hk & -> & Hpos & Hthrow & Hzero).
  exists k, o. repeat split; auto.
Qed.

End ClientExtras.

Section Emits.
Import ContextService AIChatHandler.

Variable P : Event -> Prop.

Lemma emits_nothing {A} (m : M A) :
  (forall w o w', m w = (o, w') -> trace w' = trace w) -> emits P m.
Proof. intros H w o w' E. exists []. split; [by apply (H w o w') | constructor]. Qed.

Lemma emits_ret {A} (a : A) : emits P (ret a).
Proof. apply emits_nothing. intros w o w' E. by inversion E. Qed.

Lemma emits_throw {A} e : emits P (@throw A e).
Proof. apply emits_nothing. intros w o w' E. by inversion E. Qed.

Lemma emits_bind {A B} (m : M A) (f : A -> M B) :
  emits P m -> (forall a, emits P (f a)) -> emits P (bind m f).
Proof.
  intros Hm Hf w o w' E. unfold bind in E.
  destruct (m w) as [[a|e] w1] eqn:E1.
  - destruct (Hm _ _ _ E1) as (evs1 & H1 & P1).
    destruct (Hf a _ _ _ E) as (evs2 & H2 & P2).
    exists (evs2 ++ evs1). split; [by rewrite H2, H1, app_assoc|].
    by apply Forall_app.
  - inversion E; subst. exact (Hm _ _ _ E1).
Qed.

Lemma emits_try_catch {A} (m : M A) (h : string -> M A) :
  emits P m -> (forall e, emits P (h e)) -> emits P (try_catch m h).
Proof.
  intros Hm Hh w o w' E. unfold try_catch in E.
  destruct (m w) as [[a|e] w1] eqn:E1.
  - inversion E; subst. exact (Hm _ _ _ E1).
  - destruct (Hm _ _ _ E1) as (evs1 & H1 & P1).
    destruct (Hh e _ _ _ E) as (evs2 & H2 & P2).
    exists (evs2 ++ evs1). split; [by rewrite H2, H1, app_assoc|].
    by apply Forall_app.
Qed.

Lemma emits_ctx {A} (f : gmap string ConversationContext -> A * gmap string ConversationContext) :
  emits P (ctx f).
Proof. apply emits_nothing. intros w o w' E. by destruct (ctx_trace f w o w' E). Qed.

Lemma emits_ctx_ f : emits P (ctx_ f).
Proof. apply emits_ctx. Qed.

Lemma emits_read {A} (f : World -> A) : emits P (read f).
Proof. apply emits_nothing. intros w o w' E. by inversion E. Qed.

Lemma emits_get_now env : emits P (get_now env).
Proof. apply emits_nothing. intros w o w' E. by inversion E. Qed.

Lemma emits_set_discoveredObjects objs : emits P (set_discoveredObjects objs).
Proof. apply emits_nothing. intros w o w' E. by inversion E. Qed.

Lemma emits_set_metadataCache c : emits P (set_metadataCache c).
Proof. apply emits_nothing. intros w o w' E. by inversion E. Qed.

Lemma emits_ask {A} e (oracle : list Event -> Outcome A) : P e -> emits P (ask e oracle).
Proof.
  intros He w o w' E. inversion E; subst. exists [e]. split; [done|].
  by constructor.
Qed.

Lemma emits_request env method endpoint body :
  P (EFetch method (ClarityApiClient.url_of env endpoint) body) ->
  (forall ms, P (ESleep ms)) ->
  emits P (ClarityApiClient.request env method endpoint body).
Proof.
  intros Hf Hs w o w' E. unfold ClarityApiClient.request in E.
  apply attempts_events in E. destruct E as (evs & -> & Hall & _).
  exists evs. split; [done|]. eapply Forall_impl; [exact Hall|].
  intros e [-> | [ms ->]]; auto.
Qed.

End Emits.

Ltac emits_step :=
  match goal with
  | |- emits _ (bind _ _) => apply emits_bind; [|intros]
  | |- emits _ (ret _) => apply emits_ret
  | |- emits _ (throw _) => apply emits_throw
  | |- emits _ (try_catch _ _) => apply emits_try_catch; [|intros]
  | |- emits _ (ctx _) => apply emits_ctx
  | |- emits _ (ctx_ _) => apply emits_ctx_
  | |- emits _ (AIChatHandler.read _) => apply emits_read
  | |- emits _ (get_now _) => apply emits_get_now
  | |- emits _ (AIChatHandler.set_discoveredObjects _) => apply emits_set_discoveredObjects
  | |- emits _ (AIChatHandler.set_metadataCache _) => apply emits_set_metadataCache
  | |- emits _ (ClarityApiClient.get _ _) => apply emits_request; [reflexivity | done]
  | |- emits _ (MetadataService.getCustomObjects _) => apply emits_ask; exact I
  | |- emits _ (MetadataService.discoverAllObjects _) => apply emits_ask; exact I
  | |- emits _ (MetadataService.getObjectMetadata _ _) => apply emits_ask; exact I
  | |- emits _ (MetadataService.getObjectLabel _ _) => apply emits_ask; exact I
  | |- emits _ (match ?x with _ => _ end) => destruct x
  | |- emits _ (let '(_, _) := ?x in _) => destruct x
  end.

Ltac emits_auto := repeat emits_step.

Section Quiet.
Import ContextService AIChatHandler Scenario.

Lemma emits_weaken (P Q : Event -> Prop) {A} (m : M A) :
  (forall e, P e -> Q e) -> emits P m -> emits Q m.
Proof.
  intros HPQ Hm w o w' E. destruct (Hm _ _ _ E) as (evs & H & Hall).
  exists evs. split; [done|]. eapply Forall_impl; eauto.
Qed.



Lemma quiet_findRecord env ty name : emits quiet (findRecord env ty name).
Proof. unfold findRecord. emits_auto. Qed.

Lemma quiet_findRecordByName env ty name : emits quiet (findRecordByName env ty name).
Proof. unfold findRecordByName. emits_auto. Qed.

Lemma quiet_getObjectMetadata env ty : emits quiet (getObjectMetadata env ty).
Proof. unfold getObjectMetadata. emits_auto. Qed.

Lemma quiet_getHelpResponse env ts : emits quiet (getHelpResponse env ts).
Proof. unfold getHelpResponse. emits_auto. Qed.

Lemma quiet_run_query env plan endpoint msg sid :
  emits quiet (run_query env plan endpoint msg sid).
Proof. unfold run_query. emits_auto. Qed.

Lemma quiet_executeQuery env plan msg sid : emits quiet (executeQuery env plan msg sid).
Proof.
  unfold executeQuery. emits_auto;
    first [apply quiet_findRecord | apply quiet_run_query].
Qed.

Lemma quiet_executeDescribe env plan : emits quiet (executeDescribe env plan).
Proof. unfold executeDescribe. emits_auto; apply quiet_getObjectMetadata. Qed.

Lemma quiet_executeAnalyze env plan sid : emits quiet (executeAnalyze env plan sid).
Proof. unfold executeAnalyze. emits_auto; apply quiet_getObjectMetadata. Qed.

Lemma quiet_count_instances env customObjects :
  emits quiet (count_instances env customObjects).
Proof.
  induction customObjects as [|obj rest IH]; simpl; emits_auto. exact IH.
Qed.

Lemma quiet_handleCustomObjectsQuery env msg ts :
  emits quiet (handleCustomObjectsQuery env msg ts).
Proof.
  unfold handleCustomObjectsQuery. emits_auto. apply quiet_count_instances.
Qed.

Lemma quiet_handleLinkRequest env sid ts msg :
  emits quiet (handleLinkRequest env sid ts msg).
Proof. unfold handleLinkRequest. emits_auto. apply quiet_findRecordByName. Qed.

Lemma quiet_handleDrillDown env sid v msg ts :
  emits quiet (handleDrillDown env sid v msg ts).
Proof. unfold handleDrillDown, drill_query. emits_auto. Qed.

Lemma quiet_handleFollowUp env sid intent v msg ts :
  emits quiet (handleFollowUp env sid intent v msg ts).
Proof.
  unfold handleFollowUp, handleCountFollowUp. emits_auto;
    first [apply quiet_handleDrillDown | apply quiet_handleLinkRequest].
Qed.

Lemma quiet_detectTargetObject env msg sid :
  emits quiet (detectTargetObject env msg sid).
Proof. unfold detectTargetObject. emits_auto. Qed.

Lemma quiet_link_step env msg sid ts : emits quiet (link_step env msg sid ts).
Proof. unfold link_step. emits_auto. apply quiet_handleLinkRequest. Qed.

Lemma quiet_followup_step env msg sid ts : emits quiet (followup_step env msg sid ts).
Proof. unfold followup_step. emits_auto; apply quiet_handleFollowUp. Qed.

Lemma quiet_executePlan env plan originalMessage sessionId :
  is_write (action plan) = false ->
  emits quiet (executePlan env plan originalMessage sessionId).
Proof.
  unfold is_write. intros H.
  apply orb_false_iff in H. destruct H as [H Hd].
  apply orb_false_iff in H. destruct H as [Hc Hu].
  unfold executePlan. rewrite Hc, Hu, Hd.
  emits_auto;
    first [ apply quiet_getHelpResponse | apply quiet_executeDescribe
          | apply quiet_executeQuery | apply quiet_executeAnalyze ].
Qed.






End Quiet.

Section FoundRecords.
Import ContextService AIChatHandler Scenario.




End FoundRecords.

Ltac silent_step :=
  match goal with
  | |- emits _ (ClarityApiClient.get _ _) => apply emits_request; [exact I | intros; exact I]
  | |- emits _ (ClarityApiClient.post _ _ _) => apply emits_request; [exact I | intros; exact I]
  | |- emits _ (ClarityApiClient.patch _ _ _) => apply emits_request; [exact I | intros; exact I]
  | |- emits _ (ClarityApiClient.delete _ _) => apply emits_request; [exact I | intros; exact I]
  | _ => emits_step
  end.

Ltac silent_auto := repeat silent_step.

Section Reasonings.
Import ContextService AIChatHandler Scenario.

Lemma quiet_silent e : quiet e -> no_reasoning e.
Proof. by destruct e. Qed.

Lemma reasonings_app a b : reasonings (a ++ b) = reasonings a + reasonings b.
Proof. unfold reasonings. by rewrite List.filter_app, length_app. Qed.

Lemma silent_reasonings evs : Forall no_reasoning evs -> reasonings evs = 0.
Proof.
  unfold reasonings. induction 1 as [|e evs He _ IH]; [done|].
  destruct e; simpl; try done.
Qed.

Lemma silent_asks {A} (m : M A) n : emits no_reasoning m -> asks_at_most n m.
Proof.
  intros H w o w' E. destruct (H _ _ _ E) as (evs & Ht & Hall).
  exists evs. split; [done|]. rewrite silent_reasonings by done. lia.
Qed.

Lemma asks_bind n1 n2 {A B} (m : M A) (f : A -> M B) :
  asks_at_most n1 m -> (forall a, asks_at_most n2 (f a)) ->
  asks_at_most (n1 + n2) (bind m f).
Proof.
  intros Hm Hf w o w' E. unfold bind in E.
  destruct (m w) as [[a|e] w1] eqn:E1.
  - destruct (Hm _ _ _ E1) as (evs1 & H1 & P1).
    destruct (Hf a _ _ _ E) as (evs2 & H2 & P2).
    exists (evs2 ++ evs1). split; [by rewrite H2, H1, app_assoc|].
    rewrite reasonings_app. lia.
  - inversion E; subst. destruct (Hm _ _ _ E1) as (evs1 & H1 & P1).
    exists evs1. split; [done | lia].
Qed.

Lemma asks_try_catch n1 n2 {A} (m : M A) (h : string -> M A) :
  asks_at_most n1 m -> (forall e, asks_at_most n2 (h e)) ->
  asks_at_most (n1 + n2) (try_catch m h).
Proof.
  intros Hm Hh w o w' E. unfold try_catch in E.
  destruct (m w) as [[a|e] w1] eqn:E1.
  - inversion E; subst. destruct (Hm _ _ _ E1) as (evs1 & H1 & P1).
    exists evs1. split; [done | lia].
  - destruct (Hm _ _ _ E1) as (evs1 & H1 & P1).
    destruct (Hh e _ _ _ E) as (evs2 & H2 & P2).
    exists (evs2 ++ evs1). split; [by rewrite H2, H1, app_assoc|].
    rewrite reasonings_app. lia.
Qed.

Lemma asks_ask {A} e (oracle : list Event -> Outcome A) : asks_at_most 1 (ask e oracle).
Proof.
  intros w o w' E. inversion E; subst. exists [e]. split; [done|].
  unfold reasonings. destruct e; simpl; lia.
Qed.

Lemma silent_create_record env plan endpoint msg :
  emits no_reasoning (create_record env plan endpoint msg).
Proof. unfold create_record. silent_auto. Qed.

Lemma silent_findRecord env ty name : emits no_reasoning (findRecord env ty name).
Proof. apply (emits_weaken quiet); [apply quiet_silent | apply quiet_findRecord]. Qed.

Lemma silent_executePlan env plan msg sid :
  emits no_reasoning (executePlan env plan msg sid).
Proof.
  destruct (is_write (action plan)) eqn:W.
  - unfold executePlan, executeCreate, executeUpdate, executeDelete.
    silent_auto;
      first [ apply silent_findRecord | apply silent_create_record
            | apply (emits_weaken quiet); [apply quiet_silent|];
              first [ apply quiet_getHelpResponse | apply quiet_executeDescribe
                    | apply quiet_executeQuery | apply quiet_executeAnalyze ] ].
  - apply (emits_weaken quiet); [apply quiet_silent | by apply quiet_executePlan].
Qed.

Lemma asks_getAIPlan env msg context : asks_at_most 1 (getAIPlan env msg context).
Proof.
  unfold getAIPlan.
  apply (asks_bind 0 1);
    [apply silent_asks, (emits_weaken quiet);
       [apply quiet_silent | apply quiet_detectTargetObject]|].
  intros [objectType objectLabel].
  apply (asks_bind 0 1);
    [apply silent_asks, (emits_weaken quiet);
       [apply quiet_silent | apply quiet_getObjectMetadata]|].
  intros md.
  apply (asks_bind 0 1); [apply silent_asks; silent_auto|]. intros customObjects.
  apply (asks_bind 0 1); [apply silent_asks; silent_auto|]. intros discovered.
  apply (asks_bind 0 1); [apply silent_asks; silent_auto|]. intros summary.
  apply (asks_bind 1 0); [apply asks_ask|]. intros content.
  apply silent_asks. silent_auto.
Qed.

Lemma asks_plan_step env message sid context ts :
  asks_at_most 1 (plan_step env message sid context ts).
Proof.
  unfold plan_step. apply (asks_bind 1 0); [apply asks_getAIPlan|]. intros plan.
  apply silent_asks. silent_auto. apply silent_executePlan.
Qed.

(** X12 (one call of the reasoning service at most). The handling of
    a message asks the reasoning service once at most. It does not ask
    it at all for a greeting, nor for a question about the custom
    objects that the handler answers itself. *)
Theorem reasoning_service_asked_once env message sessionId (w : World) :
  exists evs,
    trace (handleMessage env message sessionId w).2 = evs ++ trace w
    /\ reasonings evs <= 1
    /\ (Regex.test re_greeting (Str.trim message) = true
        \/ is_custom_objects_query (Str.toLowerCase message) = true ->
        reasonings evs = 0).
Proof.
  destruct (handleMessage env message sessionId w) as [o w'] eqn:E. simpl.
  assert (Hone : asks_at_most 1 (handleMessage env message sessionId)).
  { unfold handleMessage, handleMessage_try.
    apply (asks_bind 0 1); [apply silent_asks; silent_auto|]. intros ts.
    apply (asks_try_catch 1 0); [|intros; apply silent_asks; silent_auto].
    apply (asks_bind 0 1); [apply silent_asks; silent_auto|]. intros context.
    apply (asks_bind 0 1); [apply silent_asks; silent_auto|]. intros _.
    apply (asks_bind 0 1); [apply silent_asks; silent_auto|]. intros discovered.
    apply (asks_bind 0 1);
      [apply silent_asks; unfold discoverObjects; silent_auto|]. intros _.
    destruct (Regex.test re_greeting (Str.trim message)).
    { apply silent_asks, (emits_weaken quiet);
        [apply quiet_silent | apply quiet_getHelpResponse]. }
    apply (asks_bind 0 1);
      [apply silent_asks, (emits_weaken quiet);
         [apply quiet_silent | apply quiet_link_step]|].
    intros [r|]; [apply silent_asks; silent_auto|].
    apply (asks_bind 0 1);
      [apply silent_asks, (emits_weaken quiet);
         [apply quiet_silent | apply quiet_followup_step]|].
    intros [r|]; [apply silent_asks; silent_auto|].
    destruct (is_custom_objects_query (Str.toLowerCase message)).
    - apply silent_asks, (emits_weaken quiet);
        [apply quiet_silent | apply quiet_handleCustomObjectsQuery].
    - apply asks_plan_step. }
  destruct (decide (Regex.test re_greeting (Str.trim message) = true
                    \/ is_custom_objects_query (Str.toLowerCase message) = true))
    as [Hq|Hq].
  - assert (Hnone : emits no_reasoning (handleMessage env message sessionId)).
    { unfold handleMessage, handleMessage_try.
      apply emits_bind; [silent_auto|]. intros ts.
      apply emits_try_catch; [|intros; silent_auto].
      apply emits_bind; [silent_auto|]. intros context.
      apply emits_bind; [silent_auto|]. intros _.
      apply emits_bind; [silent_auto|]. intros discovered.
      apply emits_bind; [unfold discoverObjects; silent_auto|]. intros _.
      destruct (Regex.test re_greeting (Str.trim message)) eqn:G.
      { apply (emits_weaken quiet); [apply quiet_silent | apply quiet_getHelpResponse]. }
      destruct Hq as [Hq|Hq]; [discriminate Hq|]. rewrite Hq.
      apply emits_bind;
        [apply (emits_weaken quiet); [apply quiet_silent | apply quiet_link_step]|].
      intros [r|]; [silent_auto|].
      apply emits_bind;
        [apply (emits_weaken quiet); [apply quiet_silent | apply quiet_followup_step]|].
      intros [r|]; [silent_auto|].
      apply (emits_weaken quiet);
        [apply quiet_silent | apply quiet_handleCustomObjectsQuery]. }
    destruct (Hnone _ _ _ E) as (evs & Ht & Hall).
    exists evs. rewrite (silent_reasonings _ Hall). split; [done|]. split; [lia | done].
  - destruct (Hone _ _ _ E) as (evs & Ht & Hn).
    exists evs. split; [done|]. split; [done|]. intros H. by destruct Hq.
Qed.

End Reasonings.

Section RegistryFacts.
Import ToolRegistry.

Lemma registry_eta reg :
  {| sessionPermissions := sessionPermissions reg;
     clarityCapabilities := clarityCapabilities reg |} = reg.
Proof. by destruct reg. Qed.

(** A session that is not registered, or whose time is over. *)
Lemma lookup_gone sid now reg :
  match sessionPermissions reg !! sid with
  | None => True
  | Some s => exists t, expiresAt s = Some t /\ (t < now)%Z
  end ->
  (getSessionPermissions sid now reg).1 = None
  /\ clarityCapabilities (getSessionPermissions sid now reg).2 = clarityCapabilities reg
  /\ sessionPermissions (getSessionPermissions sid now reg).2 !! sid = None.
Proof.
  unfold getSessionPermissions.
  destruct (sessionPermissions reg !! sid) as [s|] eqn:E.
  - intros (t & Ht & Hlt). rewrite Ht.
    replace (t <? now)%Z with true by (symmetry; by apply Z.ltb_lt).
    simpl. split; [done|]. split; [done|]. apply lookup_delete_eq.
  - intros _. simpl. by rewrite E.
Qed.

End RegistryFacts.

Section RegistryExtras.
Import ToolRegistry SessionManager.

(** X13 (a session that is gone is read-only, not refused). For a
    session that the registry does not hold, or whose expiry has
    passed, the registry lists the tools of the one permission "read"
    and grants access to every object, the denied ones included, while
    [validateToolAccess] refuses every tool with "Session not found or
    expired". *)
Theorem gone_session_is_read_only sid now (mgr : Manager) :
  let reg := registry mgr in
  match sessionPermissions reg !! sid with
  | None => True
  | Some s => exists t, expiresAt s = Some t /\ (t < now)%Z
  end ->
  (getSessionPermissions sid now reg).1 = None
  /\ (getAvailableTools sid now reg).1
     = List.filter (usable (clarityCapabilities reg) [P_read]) ALL_TOOLS
  /\ (forall objectType, (canAccessObject sid objectType now reg).1 = true)
  /\ (forall objectType,
        (validateObjectAccess sid objectType now mgr).1
        = {| allowed := true; reason := None |})
  /\ (forall toolId,
        (validateToolAccess sid toolId now mgr).1
        = {| allowed := false; reason := Some "Session not found or expired" |}).
Proof.
  intros reg H. destruct (lookup_gone sid now reg H) as (Hn & Hc & _).
  split; [done|].
  unfold getAvailableTools, canAccessObject, validateObjectAccess, validateToolAccess,
    canAccessObject. fold reg.
  destruct (getSessionPermissions sid now reg) as [session reg1].
  cbn [fst snd] in *. subst session. rewrite Hc.
  repeat split; intros; reflexivity.
Qed.

Lemma gone_session_is_read_only_witness :
  (getAvailableTools "nobody" 0 (registry SessionManager.initial)).1 = []
  /\ (validateToolAccess "nobody" "list_records" 0 SessionManager.initial).1
     = {| allowed := false; reason := Some "Session not found or expired" |}.
Proof.
  destruct (gone_session_is_read_only "nobody" 0 SessionManager.initial I)
    as (_ & Ht & _ & _ & Hv).
  split; [rewrite Ht; vm_compute; reflexivity | apply Hv].
Defined.

Lemma usable_base caps perms tool :
  In tool ALL_TOOLS -> usable caps perms tool = true ->
  includes perms P_read && canRead caps
  || includes perms P_write && canWrite caps
  || includes perms P_delete && canDelete caps = true.
Proof.
  intros Hin. unfold ALL_TOOLS in Hin. cbn [In] in Hin.
  repeat destruct Hin as [<-|Hin]; [..|destruct Hin];
    unfold usable; cbn [requiredPermissions isAvailable forallb];
    destruct (includes perms P_read), (includes perms P_write),
      (includes perms P_delete), (canRead caps), (canWrite caps), (canDelete caps);
    cbn [andb orb negb]; try reflexivity; try discriminate;
    destruct (includes perms _); cbn [andb orb negb]; intros; congruence.
Qed.

Lemma filter_none {A} (p : A -> bool) (l : list A) :
  (forall x, In x l -> p x = false) -> List.filter p l = [].
Proof.
  intros Hall. induction l as [|t ts IH]; [done|]. simpl.
  rewrite (Hall t) by by left. apply IH. intros x Hin. apply Hall. by right.
Qed.

Lemma no_flag_no_tool caps perms :
  canRead caps = false -> canWrite caps = false -> canDelete caps = false ->
  List.filter (usable caps perms) ALL_TOOLS = [].
Proof.
  intros Hr Hw Hd. apply filter_none. intros tool Hin.
  destruct (usable caps perms tool) eqn:U; [|done].
  pose proof (usable_base caps perms tool Hin U) as Hb. rewrite Hr, Hw, Hd in Hb.
  by rewrite !andb_false_r in Hb.
Qed.

Lemma getSessionPermissions_capabilities sid now reg :
  clarityCapabilities (getSessionPermissions sid now reg).2 = clarityCapabilities reg.
Proof.
  unfold getSessionPermissions.
  destruct (sessionPermissions reg !! sid) as [s|]; [|done].
  destruct (expiresAt s) as [t|]; [|done]. by destruct (t <? now)%Z.
Qed.

Lemma getAvailableTools_filter sid now reg :
  (getAvailableTools sid now reg).1
  = List.filter (usable (clarityCapabilities reg)
                   (effective (getSessionPermissions sid now reg).1)) ALL_TOOLS.
Proof.
  unfold getAvailableTools.
  pose proof (getSessionPermissions_capabilities sid now reg) as Hc.
  destruct (getSessionPermissions sid now reg) as [session reg']. cbn [fst snd] in *.
  by rewrite Hc.
Qed.

(** X14 (no tool without read, write or delete). Every tool that the
    registry lists for a session is a tool of the table, rests on one
    of the permissions "read", "write" and "delete" of the session and
    on the capability flag of the same name. So no tool is listed
    before the capabilities are validated, and none for a session that
    holds other permissions only, "admin" included. *)
Theorem tools_need_a_base_permission sid now (reg : Registry) :
  let perms := effective (getSessionPermissions sid now reg).1 in
  let caps := clarityCapabilities reg in
  (forall tool, In tool (getAvailableTools sid now reg).1 ->
     In tool ALL_TOOLS
     /\ (includes perms P_read && canRead caps
         || includes perms P_write && canWrite caps
         || includes perms P_delete && canDelete caps = true))
  /\ (canRead caps = false -> canWrite caps = false -> canDelete caps = false ->
      (getAvailableTools sid now reg).1 = [])
  /\ (includes perms P_read = false -> includes perms P_write = false ->
      includes perms P_delete = false ->
      (getAvailableTools sid now reg).1 = []).
Proof.
  intros perms caps. rewrite getAvailableTools_filter. fold perms. fold caps.
  split; [|split].
  - intros tool Hin. apply filter_In in Hin. destruct Hin as [Hin Hu].
    split; [exact Hin | by apply (usable_base caps perms tool)].
  - by apply no_flag_no_tool.
  - intros Hr Hw Hd. apply filter_none. intros tool Hin.
    destruct (usable caps perms tool) eqn:U; [|done].
    pose proof (usable_base caps perms tool Hin U) as Hb. by rewrite Hr, Hw, Hd in Hb.
Qed.

(** A session with the permission "admin" alone is listed no tool. *)
Example admin_alone_has_no_tool :
  let reg := (registerSession "s1" (GrantList [P_admin]) None 0
                (set_capabilities
                   {| canRead := true; canWrite := true; canDelete := true;
                      hasProjects := true; hasTasks := true; hasResources := true;
                      hasCustomObjects := false; customObjectCodes := [];
                      apiVersion := "unknown"; validatedAt := 0 |}
                   ToolRegistry.initial)).2 in
  (getAvailableTools "s1" 1 reg).1 = [].
Proof. vm_compute. reflexivity. Qed.



End RegistryExtras.

Section ManagerExtras.
Import ToolRegistry SessionManager.

Lemma lookup_live sid now reg session :
  sessionPermissions reg !! sid = Some session ->
  match expiresAt session with Some t => (now <= t)%Z | None => True end ->
  getSessionPermissions sid now reg = (Some session, reg).
Proof.
  intros L H. unfold getSessionPermissions. rewrite L.
  destruct (expiresAt session) as [t|]; [|reflexivity].
  by replace (t <? now)%Z with false by (symmetry; apply Z.ltb_ge; lia).
Qed.

Lemma getAvailableTools_live sid now reg session :
  sessionPermissions reg !! sid = Some session ->
  match expiresAt session with Some t => (now <= t)%Z | None => True end ->
  (getAvailableTools sid now reg).2 = reg.
Proof.
  intros L H. unfold getAvailableTools. by rewrite (lookup_live _ _ _ _ L H).
Qed.

Lemma access_unrestricted sid objectType now reg session :
  sessionPermissions reg !! sid = Some session ->
  allowedObjects session = None -> deniedObjects session = None ->
  (canAccessObject sid objectType now reg).1 = true.
Proof.
  intros L Ha Hd. unfold canAccessObject, getSessionPermissions. rewrite L.
  destruct (expiresAt session) as [t|]; [destruct (t <? now)%Z|];
    cbn [fst]; by rewrite ?Ha, ?Hd.
Qed.

(** The session that [createSession] registers for a configuration,
    and its answer. *)
Lemma createSession_ok config now mgr perms :
  grant_of config = GrantList perms ->
  let sid := c_sessionId config in
  let session :=
    {| sessionId := sid; userId := c_userId config; permissions := Some perms;
       allowedObjects := c_allowedObjects config;
       deniedObjects := c_deniedObjects config; createdAt := now;
       expiresAt := expiry_of now (Some (default 60%Z (c_expiresInMinutes config))) |} in
  let reg1 := set_sessions (<[sid := session]> (sessionPermissions (registry mgr)))
                (registry mgr) in
  createSession config now mgr
  = (Ok {| i_sessionId := sid; i_userId := c_userId config;
           i_username := c_username config; i_permissions := Some perms;
           i_allowedTools := map id (getAvailableTools sid now reg1).1;
           i_createdAt := now;
           i_expiresAt := expiry_of now (Some (default 60%Z (c_expiresInMinutes config))) |},
     {| sessionMetadata :=
          match c_metadata config with
          | Some m => <[sid := {| members := m; username := c_username config |}]>
                        (sessionMetadata mgr)
          | None => sessionMetadata mgr
          end;
        registry := (getAvailableTools sid now reg1).2 |}).
Proof.
  intros Hg sid session reg1. unfold createSession, registerSession. rewrite Hg.
  cbn [perms_of mbind option_bind o_userId o_allowedObjects o_deniedObjects
       o_expiresInMinutes]. fold sid. fold session. fold reg1.
  by destruct (getAvailableTools sid now reg1).
Qed.

(** X16 (a refresh lifts the restrictions). [refreshSession] on a live
    session registers the session again with the permissions and the
    user it had and a new expiry, and with neither its allowed nor its
    denied objects: every object, a denied one included, is accessible
    to the session from then on. *)
Theorem refresh_lifts_restrictions sid (extendMinutes now : Z) (mgr : Manager)
    session perms :
  sessionPermissions (registry mgr) !! sid = Some session ->
  match expiresAt session with Some t => (now <= t)%Z | None => True end ->
  permissions session = Some perms ->
  (0 <= extendMinutes)%Z ->
  exists info mgr',
    refreshSession sid extendMinutes now mgr = (Ok (Some info), mgr')
    /\ i_permissions info = Some perms
    /\ i_userId info = userId session
    /\ i_expiresAt info = expiry_of now (Some extendMinutes)
    /\ sessionPermissions (registry mgr') !! sid
       = Some {| sessionId := sid; userId := userId session;
                 permissions := Some perms;
                 allowedObjects := None; deniedObjects := None;
                 createdAt := now;
                 expiresAt := expiry_of now (Some extendMinutes) |}
    /\ forall objectType later,
         (canAccessObject sid objectType later (registry mgr')).1 = true.
Proof.
  intros L Hlive Hp Hext.
  unfold refreshSession, getSession.
  rewrite (lookup_live _ _ _ _ L Hlive).
  destruct (getAvailableTools sid now (registry mgr)) as [available reg2] eqn:A.
  assert (reg2 = registry mgr) as ->.
  { pose proof (getAvailableTools_live _ _ _ _ L Hlive) as X. by rewrite A in X. }
  rewrite (createSession_ok _ now _ perms) by (unfold grant_of; cbn; by rewrite Hp).
  cbn [c_sessionId c_userId c_username c_allowedObjects c_deniedObjects c_metadata
       c_expiresInMinutes i_userId i_username i_permissions default registry
       with_registry].
  change (Datatypes.id extendMinutes) with extendMinutes.
  set (session' := {| sessionId := sid; userId := userId session;
                      permissions := Some perms; allowedObjects := None;
                      deniedObjects := None; createdAt := now;
                      expiresAt := expiry_of now (Some extendMinutes) |}).
  set (reg1 := set_sessions (<[sid := session']> (sessionPermissions (registry mgr)))
                 (registry mgr)).
  assert (L1 : sessionPermissions reg1 !! sid = Some session') by apply lookup_insert_eq.
  assert (Hlive1 : match expiresAt session' with
                   | Some t => (now <= t)%Z | None => True end).
  { unfold session', expiry_of. cbn [expiresAt].
    destruct (extendMinutes =? 0)%Z; [done | lia]. }
  rewrite (getAvailableTools_live _ _ _ _ L1 Hlive1).
  eexists _, _. split; [reflexivity|].
  cbn [i_permissions i_userId i_expiresAt registry].
  split; [reflexivity|]. split; [reflexivity|]. split; [reflexivity|].
  split; [exact L1|].
  intros objectType later. by apply (access_unrestricted _ _ _ _ session').
Qed.

Lemma refresh_lifts_restrictions_witness :
  (canAccessObject "s1" "financials" (Scenario.minute 1) (registry Cases.restricted)).1
  = false
  /\ exists info mgr',
       refreshSession "s1" 30 (Scenario.minute 1) Cases.restricted
       = (Ok (Some info), mgr')
       /\ i_permissions info = Some [P_read]
       /\ i_userId info = userId Cases.reader_session
       /\ i_expiresAt info = expiry_of (Scenario.minute 1) (Some 30%Z)
       /\ sessionPermissions (registry mgr') !! "s1"
          = Some {| sessionId := "s1"; userId := userId Cases.reader_session;
                    permissions := Some [P_read];
                    allowedObjects := None; deniedObjects := None;
                    createdAt := Scenario.minute 1;
                    expiresAt := expiry_of (Scenario.minute 1) (Some 30%Z) |}
       /\ forall objectType later,
            (canAccessObject "s1" objectType later (registry mgr')).1 = true.
Proof.
  split; [vm_compute; reflexivity|].
  apply (refresh_lifts_restrictions "s1" 30 (Scenario.minute 1) Cases.restricted
           Cases.reader_session [P_read]).
  - vm_compute. reflexivity.
  - vm_compute. discriminate.
  - reflexivity.
  - lia.
Defined.

(** X17 (the session of a Clarity user). A Clarity user always gets a
    session: it holds the permissions of the preset that the user's
    role names, expires sixty minutes later and has no restriction on
    objects. The role is "admin" for an administrator, whatever the
    groups; "manager" for another user of whom the lower-cased name of
    a group holds "manager"; and "readonly", the permission to read
    alone, for another user without groups. *)
Theorem clarity_user_session sid user (now : Z) (mgr : Manager) :
  exists perms info mgr',
    assoc PERMISSION_PRESETS (role_of user) = Some perms
    /\ createSessionFromClarityUser sid user now mgr = (Ok info, mgr')
    /\ i_permissions info = Some perms
    /\ i_expiresAt info = Some (now + 60 * 60 * 1000)%Z
    /\ sessionPermissions (registry mgr') !! sid
       = Some {| sessionId := sid; userId := Some (u_userId user);
                 permissions := Some perms;
                 allowedObjects := None; deniedObjects := None;
                 createdAt := now; expiresAt := Some (now + 60 * 60 * 1000)%Z |}
    /\ (u_isAdmin user = Some true -> role_of user = "admin")
    /\ (forall groups g,
          u_isAdmin user <> Some true -> u_groups user = Some groups -> In g groups ->
          Str.includes (Str.toLowerCase g) "manager" = true ->
          role_of user = "manager")
    /\ (u_isAdmin user <> Some true -> u_groups user = None \/ u_groups user = Some [] ->
        role_of user = "readonly" /\ perms = [P_read]).
Proof.
  assert (Hrole : exists perms, assoc PERMISSION_PRESETS (role_of user) = Some perms
                                /\ (role_of user = "readonly" -> perms = [P_read])).
  { unfold role_of.
    destruct (default false (u_isAdmin user)); [eexists; split; [reflexivity|done]|].
    destruct (in_group user "manager"); [eexists; split; [reflexivity|done]|].
    destruct (in_group user "editor"); [eexists; split; [reflexivity|done]|].
    destruct (in_group user "analyst"); eexists; (split; [reflexivity|]); [done|].
    intros _. reflexivity. }
  destruct Hrole as (perms & Hperms & Hro).
  exists perms. unfold createSessionFromClarityUser.
  rewrite (createSession_ok _ now mgr perms).
  2:{ assert (T : Str.truthy (role_of user) = true).
      { unfold role_of. by repeat match goal with |- context [if ?b then _ else _] =>
                                  destruct b end. }
      match goal with |- grant_of ?c = _ =>
        change (grant_of c)
          with (if Str.truthy (role_of user)
                then match assoc PERMISSION_PRESETS (role_of user) with
                     | Some perms => GrantList perms
                     | None => GrantUndefined
                     end
                else GrantList [P_read]) end.
      by rewrite T, Hperms. }
  cbn [c_sessionId c_userId c_username c_allowedObjects c_deniedObjects c_metadata
       c_expiresInMinutes default].
  set (session := {| sessionId := sid; userId := Some (u_userId user);
                     permissions := Some perms; allowedObjects := None;
                     deniedObjects := None; createdAt := now;
                     expiresAt := expiry_of now (Some 60%Z) |}).
  set (reg1 := set_sessions (<[sid := session]> (sessionPermissions (registry mgr)))
                 (registry mgr)).
  assert (L1 : sessionPermissions reg1 !! sid = Some session) by apply lookup_insert_eq.
  assert (Hlive : match expiresAt session with
                  | Some t => (now <= t)%Z | None => True end).
  { unfold session, expiry_of. cbn. lia. }
  rewrite (getAvailableTools_live _ _ _ _ L1 Hlive).
  eexists _, _. split; [exact Hperms|]. split; [reflexivity|].
  cbn [i_permissions i_expiresAt registry].
  split; [reflexivity|]. split; [reflexivity|]. split; [exact L1|].
  split; [|split].
  - intros Ha. unfold role_of. by rewrite Ha.
  - intros groups g Ha Hg Hin Hinc.
    assert (M : in_group user "manager" = true).
    { unfold in_group. rewrite Hg. apply existsb_exists. eauto. }
    unfold role_of. rewrite M. by destruct (u_isAdmin user) as [[]|].
  - intros Ha Hg.
    assert (R : role_of user = "readonly").
    { unfold role_of, in_group.
      destruct (u_isAdmin user) as [[]|]; [done|..];
        by destruct Hg as [-> | ->]. }
    split; [exact R | by apply Hro].
Qed.

End ManagerExtras.

Section Capabilities.
Import ToolRegistry.

Lemma probe_run env endpoint w :
  exists o w', probe env endpoint w = (Ok o, w')
    /\ exists evs, trace w' = evs ++ trace w /\ Forall reads_only evs.
Proof.
  assert (E : emits reads_only (probe env endpoint)).
  { unfold probe. emits_auto. }
  unfold probe, try_catch in *.
  destruct (bind (ClarityApiClient.get env endpoint) _ w) as [[o|e] w1] eqn:B.
  - exists o, w1. split; [reflexivity|]. apply (E w (Ok o) w1).
    unfold try_catch. by rewrite B.
  - exists None, w1. split; [reflexivity|]. apply (E w (Ok None) w1).
    unfold try_catch. by rewrite B.
Qed.

Lemma probe_get env endpoint w :
  probe env endpoint w
  = match ClarityApiClient.get env endpoint w with
    | (Ok response, w1) => (Ok (Some response), w1)
    | (Throw _, w1) => (Ok None, w1)
    end.
Proof.
  unfold probe, try_catch, bind.
  by destruct (ClarityApiClient.get env endpoint w) as [[response|e] w1].
Qed.

(** X18 (the capability flags). [validateCapabilities] never throws
    and sends GET requests only. The flags for writing and deleting
    are copies of the flag for reading, which is whether the projects
    could be read: nothing is written to find them out. When the
    projects cannot be read, no tool is listed for any session
    afterwards, even if tasks or resources can be read. *)
Theorem capabilities_follow_projects env (now : Z) (reg : Registry) (w : World) :
  exists caps w',
    validateCapabilities env now reg w = (Ok (caps, set_capabilities caps reg), w')
    /\ canWrite caps = canRead caps /\ canDelete caps = canRead caps
    /\ hasProjects caps = canRead caps /\ validatedAt caps = now
    /\ (canRead caps = true
        <-> exists response w1,
              ClarityApiClient.get env "/projects?fields=_internalId&limit=1" w
              = (Ok response, w1))
    /\ (exists evs, trace w' = evs ++ trace w /\ Forall reads_only evs)
    /\ (canRead caps = false ->
        forall sid later,
          (getAvailableTools sid later (set_capabilities caps reg)).1 = []).
Proof.
  unfold validateCapabilities.
  destruct (probe_run env "/projects?fields=_internalId&limit=1" w)
    as (p1 & w1 & E1 & evs1 & T1 & F1).
  destruct (probe_run env "/tasks?fields=_internalId&limit=1" w1)
    as (p2 & w2 & E2 & evs2 & T2 & F2).
  destruct (probe_run env "/resources?fields=_internalId&limit=1" w2)
    as (p3 & w3 & E3 & evs3 & T3 & F3).
  destruct (probe_run env "/customObjectMetadata" w3)
    as (p4 & w4 & E4 & evs4 & T4 & F4).
  rewrite (bind_run _ _ _ _ _ E1), (bind_run _ _ _ _ _ E2),
    (bind_run _ _ _ _ _ E3), (bind_run _ _ _ _ _ E4).
  eexists _, w4. split; [reflexivity|]. cbn [canWrite canDelete hasProjects canRead validatedAt].
  repeat (split; [reflexivity|]). split; [|split].
  - pose proof (probe_get env "/projects?fields=_internalId&limit=1" w) as Q.
    destruct (ClarityApiClient.get env "/projects?fields=_internalId&limit=1" w)
      as [[response|e] wq]; rewrite E1 in Q; injection Q as -> _.
    + split; [by eauto | done].
    + split; [done | by intros (response & wr & [=])].
  - exists (evs4 ++ evs3 ++ evs2 ++ evs1). split.
    + by rewrite T4, T3, T2, T1, <- !app_assoc.
    + by repeat (apply Forall_app; split).
  - intros Hr sid later. rewrite getAvailableTools_filter.
    apply no_flag_no_tool; exact Hr.
Qed.

End Capabilities.

Section SuggestionFacts.
Import SuggestionService.

(** A list in descending order of the key is left as it is. *)
Lemma sort_desc_sorted {A} (key : A -> Z) (l : list A) :
  StronglySorted (fun a b => (key b <= key a)%Z) l -> Js.sort_desc key l = l.
Proof.
  unfold Js.sort_desc. induction 1 as [|x l Hs IH Hx]; [done|]. simpl. rewrite IH.
  destruct l as [|y l]; [done|]. simpl.
  inversion Hx; subst.
  by replace (key x <? key y)%Z with false by (symmetry; apply Z.ltb_ge; lia).
Qed.

Lemma candidates_sorted context action :
  StronglySorted (fun a b => (priority b <= priority a)%Z) (candidates context action).
Proof.
  unfold candidates.
  repeat match goal with |- context [if ?b then _ else _] => destruct b end;
    unfold getAnalyzeSuggestions, getQuerySuggestions, getCreateSuggestions,
      getModifySuggestions, getDefaultSuggestions, drill, suggestion;
    repeat match goal with
           | |- context [match ?x with _ => _ end] => destruct x
           end;
    cbn [app];
    repeat (constructor; [|repeat (constructor; [cbn; lia|]); constructor]);
    constructor.
Qed.

Lemma firstn_In' {A} (l : list A) : forall n x, In x (firstn n l) -> In x l.
Proof.
  induction l as [|z l IH]; intros [|n] x; simpl; try tauto.
  intros [->|H]; [by left | right; eauto].
Qed.

Lemma firstn_sorted {A} (R : A -> A -> Prop) (l : list A) :
  StronglySorted R l -> forall n, StronglySorted R (firstn n l).
Proof.
  induction 1 as [|x l Hs IH Hx]; intros [|n]; simpl; try constructor.
  - apply IH.
  - apply List.Forall_forall. intros y Hy.
    apply (proj1 (List.Forall_forall _ _) Hx). by eapply firstn_In'.
Qed.

Lemma suggestions_first context action maxSuggestions :
  generateSuggestions context action maxSuggestions
  = firstn maxSuggestions (candidates context action).
Proof.
  unfold generateSuggestions.
  by rewrite (sort_desc_sorted _ _ (candidates_sorted context action)).
Qed.

(** X19 (the suggestions). The suggestions for an action are the
    first [maxSuggestions] of the list that the action builds, in the
    order in which it builds them, which is the order of descending
    priority: the sort changes nothing. *)
Theorem suggestions_are_the_first_candidates context action (maxSuggestions : nat) :
  let suggestions := generateSuggestions context action maxSuggestions in
  suggestions = firstn maxSuggestions (candidates context action)
  /\ length suggestions <= maxSuggestions
  /\ StronglySorted (fun a b => (priority b <= priority a)%Z) suggestions
  /\ (forall s, In s suggestions -> In s (candidates context action)).
Proof.
  intros suggestions.
  assert (E : suggestions = firstn maxSuggestions (candidates context action))
    by apply suggestions_first.
  rewrite E. split; [done|]. split; [rewrite length_take; lia|]. split.
  - apply firstn_sorted, candidates_sorted.
  - intros s. apply firstn_In'.
Qed.

(** X20 (the suggestions behind a chart). Behind an analysis whose
    chart has a first label that is not empty, the first suggestion is
    the drill-down into this label. When the second label is not empty
    either, the four suggestions by default are the two drill-downs,
    the other grouping and the export: the link to the view is cut
    off. *)
Theorem chart_suggests_its_top_values context q chartData groupByField top rest :
  lastQuery context = Some q ->
  q_chartData q = Some chartData ->
  q_groupByField q = Some groupByField ->
  groupByField <> "" ->
  assoc chartData groupByField = Some (top :: rest) ->
  label top <> "" ->
  (forall n, hd_error (generateSuggestions context "analyze" (S n))
             = Some (drill (label top) 100))
  /\ (forall second rest',
        rest = second :: rest' -> label second <> "" ->
        generateSuggestions context "analyze" DEFAULT_MAX
        = [ drill (label top) 100; drill (label second) 90;
            suggestion "Group by a different field" "📊" "analyze" 70;
            suggestion "Export to Excel" "📥" "export" 60 ]).
Proof.
  intros Hq Hc Hg Hne Ha Ht.
  assert (T : forall s, s <> "" -> Str.truthy s = true) by (by intros []).
  assert (C : candidates context "analyze"
              = drill (label top) 100
                :: (match label_at (top :: rest) 1 with
                    | Some secondValue => [drill secondValue 90]
                    | None => []
                    end)
                ++ [ suggestion "Group by a different field" "📊" "analyze" 70;
                     suggestion "Export to Excel" "📥" "export" 60;
                     suggestion "Get a link to this view" "🔗" "link" 50 ]).
  { unfold candidates. cbn [String.eqb Ascii.eqb Bool.eqb].
    unfold getAnalyzeSuggestions. rewrite Hq, Hc, Hg, (T _ Hne), Ha.
    unfold label_at at 1. cbn [nth_error]. rewrite (T _ Ht).
    cbn [app]. f_equal. by rewrite <- app_assoc. }
  split.
  - intros n.
    rewrite suggestions_first, C. reflexivity.
  - intros second rest' -> Hs.
    rewrite suggestions_first, C.
    unfold label_at. cbn [nth_error]. by rewrite (T _ Hs).
Qed.

Lemma chart_suggests_its_top_values_witness :
  (forall n, hd_error (generateSuggestions Scenario.analysed "analyze" (S n))
             = Some (drill "Active" 100))
  /\ (forall second rest',
        [ {| label := "Completed"; value := 1 |} ] = second :: rest' ->
        label second <> "" ->
        generateSuggestions Scenario.analysed "analyze" DEFAULT_MAX
        = [ drill "Active" 100; drill (label second) 90;
            suggestion "Group by a different field" "📊" "analyze" 70;
            suggestion "Export to Excel" "📥" "export" 60 ]).
Proof.
  apply (chart_suggests_its_top_values Scenario.analysed
           (AIChatHandler.analyze_record "projects" "Projects"
              (Scenario.attr "status" "Status") Scenario.three_projects
              (Scenario.minute 1))
           [("status", [ {| label := "Active"; value := 2 |};
                         {| label := "Completed"; value := 1 |} ])]
           "status" {| label := "Active"; value := 2 |}
           [ {| label := "Completed"; value := 1 |} ]).
  - reflexivity.
  - vm_compute. reflexivity.
  - reflexivity.
  - discriminate.
  - reflexivity.
  - discriminate.
Defined.

End SuggestionFacts.

Section LookupExtras.
Import LookupService.

Lemma getLookupValues_hit env lookupType (c : Cache) values (t0 t : Z) (w0 : World) :
  lookupCache c !! lookupType = Some values ->
  lookupTimestamps c !! lookupType = Some t0 ->
  (t - t0 < CACHE_TTL_LOOKUPS)%Z ->
  getLookupValues env lookupType t c w0 = (Ok (values, c), w0).
Proof.
  intros Hc Ht Hlt. unfold getLookupValues, fresh_at.
  rewrite Hc, Ht. cbn [default from_option Datatypes.id].
  replace (t - t0 <? CACHE_TTL_LOOKUPS)%Z with true by (symmetry; by apply Z.ltb_lt).
  rewrite bool_decide_eq_true_2 by eauto. reflexivity.
Qed.

Lemma getLookupValues_returns env lookupType (now : Z) (cache : Cache) (w : World) :
  exists values cache' w',
    getLookupValues env lookupType now cache w = (Ok (values, cache'), w').
Proof.
  unfold getLookupValues. destruct (fresh_at now lookupType cache); [by eauto|].
  unfold try_catch, bind.
  destruct (ClarityApiClient.get env _ w) as [[response|e] w1]; eauto.
Qed.

(** X21 (the cache of the lookup values). The values of a lookup type
    that were fetched less than an hour ago are returned from the
    cache, without a request. Otherwise the service sends its request:
    when that succeeds, the values are cached at the time of the call,
    and every call of the following hour returns them; when it fails,
    the answer is the empty list, and the cache is left as it is, so
    that the next call asks again. The call never throws. *)
Theorem lookup_values_cache env lookupType (now : Z) (cache : Cache) (w : World) :
  let endpoint := "/" +:+ lookupType +:+ "?fields=code,displayValue,name&limit=500" in
  (forall values t0,
     lookupCache cache !! lookupType = Some values ->
     lookupTimestamps cache !! lookupType = Some t0 ->
     (now - t0 < CACHE_TTL_LOOKUPS)%Z ->
     getLookupValues env lookupType now cache w = (Ok (values, cache), w))
  /\ (fresh_at now lookupType cache = false ->
      (forall response w1,
         ClarityApiClient.get env endpoint w = (Ok response, w1) ->
         let values := map to_value (AIChatHandler.records_of response) in
         let cache1 :=
           {| lookupCache := <[lookupType := values]> (lookupCache cache);
              lookupTimestamps := <[lookupType := now]> (lookupTimestamps cache) |} in
         getLookupValues env lookupType now cache w = (Ok (values, cache1), w1)
         /\ forall later w2, (later - now < CACHE_TTL_LOOKUPS)%Z ->
              getLookupValues env lookupType later cache1 w2 = (Ok (values, cache1), w2))
      /\ (forall e w1,
            ClarityApiClient.get env endpoint w = (Throw e, w1) ->
            getLookupValues env lookupType now cache w = (Ok ([], cache), w1)))
  /\ exists values cache' w',
       getLookupValues env lookupType now cache w = (Ok (values, cache'), w').
Proof.
  intros endpoint.
  split; [intros values t0 Hc Ht Hlt; by apply (getLookupValues_hit env lookupType cache values t0)|].
  split; [|apply getLookupValues_returns].
  intros Hmiss. split.
  - intros response w1 Hget values cache1. split.
    + unfold getLookupValues. rewrite Hmiss. unfold try_catch.
      fold endpoint. by rewrite (bind_run _ _ _ _ _ Hget).
    + intros later w2 Hlt.
      apply (getLookupValues_hit env lookupType cache1 values now); [| |done];
        apply lookup_insert_eq.
  - intros e w1 Hget. unfold getLookupValues. rewrite Hmiss. unfold try_catch.
    fold endpoint. by rewrite (bind_fail _ _ _ _ _ Hget).
Qed.




End LookupExtras.

Section DiscoveryFacts.
Import MetadataServiceImpl.

Lemma same_value_JStr a y : same_value (JStr a) y = true -> y = JStr a.
Proof. destruct y; cbn; try done. intros H. apply String.eqb_eq in H. by subst. Qed.

Lemma includes_JStr n l : In (JStr n) l -> existsb (same_value (JStr n)) l = true.
Proof.
  intros H. apply existsb_exists. exists (JStr n). split; [done|].
  cbn. apply String.eqb_refl.
Qed.

Lemma set_add_old x y names : In x names -> In x (set_add y names).
Proof.
  unfold set_add. destruct (existsb _ names); [done|]. intros H.
  apply in_or_app. by left.
Qed.

Lemma set_add_new n names : In (JStr n) (set_add (JStr n) names).
Proof.
  unfold set_add. destruct (existsb _ names) eqn:E.
  - apply existsb_exists in E as (y & Hy & E). by rewrite (same_value_JStr _ _ E) in Hy.
  - apply in_or_app. right. by left.
Qed.

Lemma add_all_old l x names :
  In x names -> In x (fold_left (fun acc obj => set_add (JStr obj) acc) l names).
Proof.
  revert names. induction l as [|o l IH]; intros names H; [done|].
  cbn. apply IH. by apply set_add_old.
Qed.

Lemma add_all_new l names n :
  In n l -> In (JStr n) (fold_left (fun acc obj => set_add (JStr obj) acc) l names).
Proof.
  revert names. induction l as [|o l IH]; intros names; [done|].
  intros [->|H]; cbn.
  - apply add_all_old, set_add_new.
  - by apply IH.
Qed.

Lemma discovered_standard now svc a c n :
  In n STANDARD_OBJECTS -> In (JStr n) (discovered now svc a c).1.
Proof.
  intros H. unfold discovered.
  destruct (note_objects _ [] svc) as [[objectNames|e] svc1]; cbn [fst].
  - by apply add_all_new.
  - unfold standard_names. by apply in_map.
Qed.

Lemma discovered_cached now svc a c :
  discoveredObjects (discovered now svc a c).2 = Some (discovered now svc a c).1
  /\ discoveredObjectsTimestamp (discovered now svc a c).2 = now.
Proof.
  unfold discovered. by destruct (note_objects _ [] svc) as [[objectNames|e] svc1].
Qed.

Lemma discoverAllObjects_hit env later svc names w :
  discoveredObjects svc = Some names ->
  (later - discoveredObjectsTimestamp svc < CACHE_TTL_DISCOVERED_OBJECTS)%Z ->
  discoverAllObjects env false later svc w = (Ok (names, svc), w).
Proof.
  intros Hd Hlt. unfold discoverAllObjects, fresh_at. rewrite Hd.
  rewrite bool_decide_eq_true_2 by eauto.
  replace (_ <? _)%Z with true by (symmetry; by apply Z.ltb_lt).
  reflexivity.
Qed.

(** What a call of the discovery gives, in each of its cases. *)
Lemma discoverAllObjects_cases env forceRefresh now svc w :
  exists names svc' w',
    discoverAllObjects env forceRefresh now svc w = (Ok (names, svc'), w')
    /\ discoveredObjects svc' = Some names
    /\ ((svc' = svc /\ w' = w /\ discoveredObjects svc = Some names)
        \/ (discoveredObjectsTimestamp svc' = now
            /\ forall n, In n STANDARD_OBJECTS -> In (JStr n) names)).
Proof.
  unfold discoverAllObjects.
  destruct (negb forceRefresh && fresh_at now svc) eqn:Hf.
  - apply andb_true_iff in Hf as [_ Hf]. unfold fresh_at in Hf.
    apply andb_true_iff in Hf as [Hs _]. apply bool_decide_eq_true in Hs as [l Hl].
    exists l, svc, w. rewrite Hl. cbn. repeat split; auto.
  - unfold try_catch, bind.
    destruct (ClarityApiClient.get env describe_all w) as [[a|e] w1].
    + destruct (ClarityApiClient.get env _ w1) as [[c|e] w2].
      * exists (discovered now svc a c).1, (discovered now svc a c).2, w2.
        destruct (discovered_cached now svc a c) as [Hc Ht].
        split; [unfold ret; by destruct (discovered now svc a c)|].
        split; [done|]. right. split; [done|].
        intros n. apply discovered_standard.
      * exists standard_names, (set_discovered standard_names now svc), w2.
        repeat split. right. split; [done|]. intros n. apply in_map.
    + exists standard_names, (set_discovered standard_names now svc), w1.
      repeat split. right. split; [done|]. intros n. apply in_map.
Qed.

(** X23 (the discovery always answers). In a service whose discovered
    objects, if it has any, hold the standard ones (as before the first
    discovery), and whatever the remote side does,
    [discoverAllObjects] returns a list of names and keeps it; the
    standard objects are in the list; for the hour that follows a
    discovery, a call that does not force a refresh returns the same
    list without a request; and each standard object resolves to its
    own name. *)
Theorem discovery_always_answers env forceRefresh (now : Z) svc (w : World) :
  knows_standard svc ->
  exists names svc' w',
    discoverAllObjects env forceRefresh now svc w = (Ok (names, svc'), w')
    /\ discoveredObjects svc' = Some names
    /\ (forall n, In n STANDARD_OBJECTS ->
          In (JStr n) names /\ resolveObjectName n svc' = Some (JStr n))
    /\ (forall later w2,
          (later - discoveredObjectsTimestamp svc' < CACHE_TTL_DISCOVERED_OBJECTS)%Z ->
          discoverAllObjects env false later svc' w2 = (Ok (names, svc'), w2)).
Proof.
  intros Hk.
  destruct (discoverAllObjects_cases env forceRefresh now svc w)
    as (names & svc' & w' & H & Hd & Hc).
  exists names, svc', w'. split; [exact H|]. split; [exact Hd|].
  assert (Hs : forall n, In n STANDARD_OBJECTS -> In (JStr n) names).
  { destruct Hc as [(-> & _ & Hl)|[_ Hs]]; [by apply Hk | exact Hs]. }
  split.
  - intros n Hn. split; [by apply Hs|].
    unfold resolveObjectName. rewrite Hd. cbn [default from_option Datatypes.id].
    by rewrite (includes_JStr _ _ (Hs n Hn)).
  - intros later w2 Hlt. by apply discoverAllObjects_hit.
Qed.

Lemma discovery_always_answers_witness :
  exists names svc' w',
    discoverAllObjects Scenario.env_down false 5 initial Scenario.fresh = (Ok (names, svc'), w')
    /\ discoveredObjects svc' = Some names
    /\ (forall n, In n STANDARD_OBJECTS ->
          In (JStr n) names /\ resolveObjectName n svc' = Some (JStr n))
    /\ (forall later w2,
          (later - discoveredObjectsTimestamp svc' < CACHE_TTL_DISCOVERED_OBJECTS)%Z ->
          discoverAllObjects Scenario.env_down false later svc' w2 = (Ok (names, svc'), w2)).
Proof.
  apply (discovery_always_answers Scenario.env_down false 5 initial Scenario.fresh).
  intros l H. discriminate H.
Defined.

Lemma discoverAllObjects_fails env forceRefresh now svc w e w1 :
  negb forceRefresh && fresh_at now svc = false ->
  (ClarityApiClient.get env describe_all w = (Throw e, w1)
   \/ exists a w0, ClarityApiClient.get env describe_all w = (Ok a, w0)
                   /\ ClarityApiClient.get env describe_custom w0 = (Throw e, w1)) ->
  discoverAllObjects env forceRefresh now svc w
  = (Ok (standard_names, set_discovered standard_names now svc), w1).
Proof.
  intros Hf H. unfold discoverAllObjects. rewrite Hf. unfold try_catch.
  destruct H as [H|(a & w0 & Ha & H)].
  - by rewrite (bind_fail _ _ _ _ _ H).
  - rewrite (bind_run _ _ _ _ _ Ha). by rewrite (bind_fail _ _ _ _ _ H).
Qed.

(** X24 (a discovery that failed is not tried again for an hour). When
    one of the two requests of the discovery fails while the custom
    objects are unknown, [getCustomObjects] answers with the empty
    list, the standard objects become the discovered ones, and for the
    hour that follows [getCustomObjects] answers with the empty list
    without any request. *)
Theorem failed_discovery_is_not_retried env (now : Z) svc (w : World) e w1 :
  customObjectsCache svc = None ->
  fresh_at now svc = false ->
  (ClarityApiClient.get env describe_all w = (Throw e, w1)
   \/ exists a w0, ClarityApiClient.get env describe_all w = (Ok a, w0)
                   /\ ClarityApiClient.get env describe_custom w0 = (Throw e, w1)) ->
  let svc' := set_discovered standard_names now svc in
  getCustomObjects env now svc w = (Ok ([], svc'), w1)
  /\ forall later w2, (later - now < CACHE_TTL_DISCOVERED_OBJECTS)%Z ->
       getCustomObjects env later svc' w2 = (Ok ([], svc'), w2).
Proof.
  intros Hc Hf H svc'. split.
  - unfold getCustomObjects. rewrite Hc.
    rewrite (bind_run _ _ _ _ _ (discoverAllObjects_fails env false now svc w e w1 Hf H)).
    unfold ret. cbn [snd]. unfold svc' at 1. cbn [customObjectsCache set_discovered].
    by rewrite Hc.
  - intros later w2 Hlt. unfold getCustomObjects.
    replace (customObjectsCache svc') with (@None (list CustomObjectEntry)) by done.
    rewrite (bind_run _ _ _ _ _
               (discoverAllObjects_hit env later svc' standard_names w2 eq_refl Hlt)).
    unfold ret. cbn [snd].
    by replace (customObjectsCache svc') with (@None (list CustomObjectEntry)).
Qed.

Lemma failed_discovery_is_not_retried_witness :
  let svc' := set_discovered standard_names 5 initial in
  getCustomObjects Scenario.env_down 5 initial Scenario.fresh
  = (Ok ([], svc'), (ClarityApiClient.get Scenario.env_down describe_all Scenario.fresh).2)
  /\ forall later w2, (later - 5 < CACHE_TTL_DISCOVERED_OBJECTS)%Z ->
       getCustomObjects Scenario.env_down later svc' w2 = (Ok ([], svc'), w2).
Proof.
  apply (failed_discovery_is_not_retried Scenario.env_down 5 initial Scenario.fresh
           "connect ECONNREFUSED").
  - reflexivity.
  - reflexivity.
  - left. vm_compute. reflexivity.
Defined.

(** *** The loop over the objects *)






Lemma note_objects_frame results names svc o svc' :
  note_objects results names svc = (o, svc') ->
  discoveredObjects svc' = discoveredObjects svc
  /\ discoveredObjectsTimestamp svc' = discoveredObjectsTimestamp svc
  /\ customObjectsCache svc' = customObjectsCache svc.
Proof.
  revert names svc. induction results as [|obj rest IH]; intros names svc; cbn.
  - by intros [= _ <-].
  - destruct (Js.truthy (jget obj "resourceName")); [|apply IH].
    destruct (Js.truthy (jget obj "label")); [|apply IH].
    destruct (jget obj "label") as [[| | |l|]|];
      try (by intros [= _ <-]).
    intros H. by apply IH in H.
Qed.


Lemma note_objects_throws results names svc :
  ~ string_labels results ->
  exists e svc', note_objects results names svc = (Throw e, svc').
Proof.
  revert names svc. induction results as [|obj rest IH]; intros names svc Hn; cbn.
  - destruct Hn. constructor.
  - destruct (Js.truthy (jget obj "resourceName")) eqn:Hr.
    + destruct (Js.truthy (jget obj "label")) eqn:Hl.
      * destruct (jget obj "label") as [[| | |l|]|] eqn:El; try (by eauto).
        apply IH. intros Hrest. apply Hn. constructor; [by eauto | done].
      * apply IH. intros Hrest. apply Hn. constructor; [|done].
        intros _ Hl'. congruence.
    + apply IH. intros Hrest. apply Hn. constructor; [|done].
      intros Hr' _. congruence.
Qed.






(** X26 (one odd label undoes a discovery). When both requests succeed
    and an object of the first response, with a name, has a label that
    is truthy and is no string, the discovery answers with the standard
    objects alone, and the custom objects of the second response are
    not kept. *)
Theorem odd_label_undoes_discovery env forceRefresh (now : Z) svc (w : World) a w0 c w1 :
  negb forceRefresh && fresh_at now svc = false ->
  ClarityApiClient.get env describe_all w = (Ok a, w0) ->
  ClarityApiClient.get env describe_custom w0 = (Ok c, w1) ->
  ~ string_labels (AIChatHandler.records_of a) ->
  exists svc',
    discoverAllObjects env forceRefresh now svc w = (Ok (standard_names, svc'), w1)
    /\ discoveredObjects svc' = Some standard_names
    /\ customObjectsCache svc' = customObjectsCache svc.
Proof.
  intros Hf Ha Hc Hs.
  destruct (note_objects_throws _ [] svc Hs) as (e & svc1 & Hn).
  exists (set_discovered standard_names now svc1).
  split; [|split; [done|]].
  - unfold discoverAllObjects. rewrite Hf. unfold try_catch.
    rewrite (bind_run _ _ _ _ _ Ha), (bind_run _ _ _ _ _ Hc).
    unfold ret, discovered. by rewrite Hn.
  - destruct (note_objects_frame _ _ _ _ _ Hn) as (_ & _ & H). exact H.
Qed.

Lemma odd_label_undoes_discovery_witness :
  exists svc',
    discoverAllObjects (Cases.env_described Cases.described_oddly) false 5 initial
      Scenario.fresh
    = (Ok (standard_names, svc'),
       Cases.after_custom (Cases.env_described Cases.described_oddly))
    /\ discoveredObjects svc' = Some standard_names
    /\ customObjectsCache svc' = customObjectsCache initial.
Proof.
  apply (odd_label_undoes_discovery (Cases.env_described Cases.described_oddly) false 5
           initial Scenario.fresh Cases.described_oddly
           (Cases.after_all (Cases.env_described Cases.described_oddly))
           Cases.described_oddly).
  - reflexivity.
  - vm_compute. reflexivity.
  - vm_compute. reflexivity.
  - intros H. inversion H as [|obj rest Hobj Hrest]; subst.
    destruct (Hobj eq_refl eq_refl) as [l Hl]. discriminate Hl.
Defined.

End DiscoveryFacts.
